(** * Trustle: the analysis pipeline, history, comparison and follow-up chat

    A shallow embedding of the handlers of the [App] component: the React
    state is one record, every handler is a function on it, and every
    answer of an external collaborator (the model client, the file reader,
    the media decoder, the memory store, the clock) is read from an oracle
    record, so that a handler is a pure function of the state before it,
    its arguments and the answers it receives. *)

From Stdlib Require Import ZArith String List.
From stdpp Require Import base numbers option list strings gmap.

(** ** Values of the language *)

(** JavaScript truthiness of a string: only the empty string is falsy. *)
Definition truthy (s : string) : bool :=
  match s with
  | EmptyString => false
  | String _ _ => true
  end.

(** [a || b] on strings. *)
Definition orElse (a b : string) : string := if truthy a then a else b.

(** What a [throw] or a rejected promise carries: an [Error] object with its
    message, or a bare string (the media decoder rejects with strings). *)
Inductive Thrown :=
  | JsError (message : string)
  | JsReason (reason : string).

(** The settlement of an awaited call. *)
Inductive Outcome (A : Type) :=
  | Resolved (a : A)
  | Rejected (e : Thrown).
Arguments Resolved {A} a.
Arguments Rejected {A} e.

(** An async iterator as the consumer sees it: the chunks it yields, in
    order, and the failure that ends it, if one does. *)
Record Stream := { chunks : list string; failure : option Thrown }.

(** ** The types of [./types] *)

(** Modelled from the spec: the two enumerations of [./types], which is not
    among the sources. The handlers name the six agents and the statuses
    Running, Completed, Skipped and Error; Pending is the status every
    stage starts in. *)
Inductive AgentName :=
  | CONTENT_INGESTION
  | TEXTUAL_ANALYSIS
  | EMOTION_ANALYSIS
  | VISUAL_ANALYSIS
  | SOURCE_INTELLIGENCE
  | FINAL_SYNTHESIS.

Inductive AgentStatus := PENDING | RUNNING | COMPLETED | SKIPPED | ERROR.

(** [===] on agent names. *)
Definition AgentName_eqb (a b : AgentName) : bool :=
  match a, b with
  | CONTENT_INGESTION, CONTENT_INGESTION
  | TEXTUAL_ANALYSIS, TEXTUAL_ANALYSIS
  | EMOTION_ANALYSIS, EMOTION_ANALYSIS
  | VISUAL_ANALYSIS, VISUAL_ANALYSIS
  | SOURCE_INTELLIGENCE, SOURCE_INTELLIGENCE
  | FINAL_SYNTHESIS, FINAL_SYNTHESIS => true
  | _, _ => false
  end.

Record AgentState := { status : AgentStatus; details : option string }.

(** A [PipelineState] is a JavaScript object keyed by agent name. Its keys
    keep their insertion order, which [Object.entries] exposes, so it is an
    association list. *)
Definition PipelineState := list (AgentName * AgentState).

(** Modelled from the spec: the records of the results, of [./types] too,
    with the fields of the data model; the handlers read the text and the
    domain of the ingestion, the dominant emotion, the validity and the
    trust score of the source. *)
Inductive Sentiment := Positive | Negative | Neutral.
Inductive Level := Low | Medium | High.

Record ImageData := { data : string; mimeType : string }.

Module File.
Record t := { name : string }.
End File.

Record IngestionOutput :=
  { text : string; images : list string; domain : string }.

Record TextualAnalysisOutput :=
  { summary : string; sentiment : Sentiment;
    entities : list string; keywords : list string }.

Record EmotionAnalysisOutput :=
  { dominant_emotion : string; manipulation_level : Level }.

Record VisualInsight := { manipulation_flag : Level }.
Record VisualAnalysisOutput := { visual_insights : list VisualInsight }.

Record Evidence := { finding : Sentiment }.

(** The trust score is a number of the range 0..100, here an integer. *)
Record SourceIntelligenceOutput :=
  { trust_score : Z; source_validity : string;
    source_validity_explanation : string; evidence : list Evidence }.

(** The partial results of a run; an absent field is [undefined]. *)
Record AnalysisResults :=
  { ingestion : option IngestionOutput;
    textual : option TextualAnalysisOutput;
    emotion : option EmotionAnalysisOutput;
    visual : option VisualAnalysisOutput;
    source : option SourceIntelligenceOutput }.

Definition noResults : AnalysisResults :=
  {| ingestion := None; textual := None; emotion := None;
     visual := None; source := None |}.

Module MisinformationRecord.
Record t :=
  { domain : string; url : string; trustScore : Z; timestamp : Z }.
End MisinformationRecord.

Module HistoryItem.
Record t :=
  { id : string; url : string; report : string; timestamp : string;
    pipelineState : PipelineState; analysisResults : AnalysisResults }.
End HistoryItem.

Inductive Role := user | model.

Module ChatMessage.
Record t := { role : Role; content : string }.
End ChatMessage.

(** The session object of the model client; all the handlers know of it is
    the report it was started from. *)
Record Chat := { groundingReport : string }.

Definition startFollowUpChat (report : string) : Chat :=
  {| groundingReport := report |}.

(** Modelled from the spec: [INITIAL_PIPELINE_STATE] of [./constants], which
    is not among the sources: every stage Pending, in the fixed order of the
    stages. *)
Definition INITIAL_PIPELINE_STATE : PipelineState :=
  map (fun a => (a, {| status := PENDING; details := None |}))
    [CONTENT_INGESTION; TEXTUAL_ANALYSIS; EMOTION_ANALYSIS;
     VISUAL_ANALYSIS; SOURCE_INTELLIGENCE; FINAL_SYNTHESIS].

(** [{ ...ps, [agent]: v }]: an existing key keeps its place and takes the
    new value, a new key goes last. *)
Fixpoint assign (agent : AgentName) (v : AgentState) (ps : PipelineState)
  : PipelineState :=
  match ps with
  | [] => [(agent, v)]
  | (k, x) :: rest =>
      if AgentName_eqb k agent then (k, v) :: rest
      else (k, x) :: assign agent v rest
  end.

(** [ps[agent]] and [ps[agent]?.status]. *)
Fixpoint agentState (agent : AgentName) (ps : PipelineState)
  : option AgentState :=
  match ps with
  | [] => None
  | (k, x) :: rest =>
      if AgentName_eqb k agent then Some x else agentState agent rest
  end.

Definition statusOf (agent : AgentName) (ps : PipelineState)
  : option AgentStatus :=
  status <$> agentState agent ps.

(** [val.status === AgentStatus.RUNNING]. *)
Definition isRunning (val : AgentState) : bool :=
  match status val with
  | RUNNING => true
  | _ => false
  end.

(** [Object.entries(ps).find(([, val]) => val.status === RUNNING)]. *)
Definition findRunning (ps : PipelineState) : option (AgentName * AgentState) :=
  List.find (fun e => isRunning (snd e)) ps.

(** ** What the handlers do to the world outside the React state *)

Inductive Effect :=
  (* setPipelineState: a snapshot shown to the pipeline view *)
  | PipelineStatus (ps : PipelineState)
  (* addMisinformationRecord *)
  | MemoryWrite (rec : MisinformationRecord.t)
  (* generateFinalBrief *)
  | BriefStream (results : AnalysisResults)
  (* generateComparisonBrief *)
  | ComparisonStream (items : list HistoryItem.t)
  (* chatSession.sendMessageStream *)
  | ChatStream (session : Chat) (message : string).

(** ** The state of the component *)

(** The seventeen [useState] cells, then two cells that are not React
    state: the [localStorage] slot under [historyKey], and the log, oldest
    first, of what the handlers published or asked of the collaborators. *)
Record AppState :=
  { url : string;
    isLoading : bool;
    pipelineState : PipelineState;
    analysisResults : AnalysisResults;
    finalReport : option string;
    error : option string;
    history : list HistoryItem.t;
    activeAnalysisId : option string;
    misinformationWarning : option MisinformationRecord.t;
    chatSession : option Chat;
    chatMessages : list ChatMessage.t;
    isChatLoading : bool;
    isCompareMode : bool;
    selectedHistoryIds : list string;
    isComparing : bool;
    comparisonReport : option string;
    showComparisonView : bool;
    storedHistory : option (list HistoryItem.t);
    effects : list Effect }.

Definition setUrl v (s : AppState) : AppState :=
  {| url := v; isLoading := isLoading s; pipelineState := pipelineState s;
     analysisResults := analysisResults s; finalReport := finalReport s;
     error := error s; history := history s;
     activeAnalysisId := activeAnalysisId s;
     misinformationWarning := misinformationWarning s;
     chatSession := chatSession s; chatMessages := chatMessages s;
     isChatLoading := isChatLoading s; isCompareMode := isCompareMode s;
     selectedHistoryIds := selectedHistoryIds s;
     isComparing := isComparing s; comparisonReport := comparisonReport s;
     showComparisonView := showComparisonView s;
     storedHistory := storedHistory s; effects := effects s |}.
Definition setIsLoading v (s : AppState) : AppState :=
  {| url := url s; isLoading := v; pipelineState := pipelineState s;
     analysisResults := analysisResults s; finalReport := finalReport s;
     error := error s; history := history s;
     activeAnalysisId := activeAnalysisId s;
     misinformationWarning := misinformationWarning s;
     chatSession := chatSession s; chatMessages := chatMessages s;
     isChatLoading := isChatLoading s; isCompareMode := isCompareMode s;
     selectedHistoryIds := selectedHistoryIds s;
     isComparing := isComparing s; comparisonReport := comparisonReport s;
     showComparisonView := showComparisonView s;
     storedHistory := storedHistory s; effects := effects s |}.
Definition writePipelineState v (s : AppState) : AppState :=
  {| url := url s; isLoading := isLoading s; pipelineState := v;
     analysisResults := analysisResults s; finalReport := finalReport s;
     error := error s; history := history s;
     activeAnalysisId := activeAnalysisId s;
     misinformationWarning := misinformationWarning s;
     chatSession := chatSession s; chatMessages := chatMessages s;
     isChatLoading := isChatLoading s; isCompareMode := isCompareMode s;
     selectedHistoryIds := selectedHistoryIds s;
     isComparing := isComparing s; comparisonReport := comparisonReport s;
     showComparisonView := showComparisonView s;
     storedHistory := storedHistory s; effects := effects s |}.
Definition setAnalysisResults v (s : AppState) : AppState :=
  {| url := url s; isLoading := isLoading s;
     pipelineState := pipelineState s; analysisResults := v;
     finalReport := finalReport s; error := error s; history := history s;
     activeAnalysisId := activeAnalysisId s;
     misinformationWarning := misinformationWarning s;
     chatSession := chatSession s; chatMessages := chatMessages s;
     isChatLoading := isChatLoading s; isCompareMode := isCompareMode s;
     selectedHistoryIds := selectedHistoryIds s;
     isComparing := isComparing s; comparisonReport := comparisonReport s;
     showComparisonView := showComparisonView s;
     storedHistory := storedHistory s; effects := effects s |}.
Definition setFinalReport v (s : AppState) : AppState :=
  {| url := url s; isLoading := isLoading s;
     pipelineState := pipelineState s; analysisResults := analysisResults s;
     finalReport := v; error := error s; history := history s;
     activeAnalysisId := activeAnalysisId s;
     misinformationWarning := misinformationWarning s;
     chatSession := chatSession s; chatMessages := chatMessages s;
     isChatLoading := isChatLoading s; isCompareMode := isCompareMode s;
     selectedHistoryIds := selectedHistoryIds s;
     isComparing := isComparing s; comparisonReport := comparisonReport s;
     showComparisonView := showComparisonView s;
     storedHistory := storedHistory s; effects := effects s |}.
Definition setError v (s : AppState) : AppState :=
  {| url := url s; isLoading := isLoading s;
     pipelineState := pipelineState s; analysisResults := analysisResults s;
     finalReport := finalReport s; error := v; history := history s;
     activeAnalysisId := activeAnalysisId s;
     misinformationWarning := misinformationWarning s;
     chatSession := chatSession s; chatMessages := chatMessages s;
     isChatLoading := isChatLoading s; isCompareMode := isCompareMode s;
     selectedHistoryIds := selectedHistoryIds s;
     isComparing := isComparing s; comparisonReport := comparisonReport s;
     showComparisonView := showComparisonView s;
     storedHistory := storedHistory s; effects := effects s |}.
Definition setHistory v (s : AppState) : AppState :=
  {| url := url s; isLoading := isLoading s;
     pipelineState := pipelineState s; analysisResults := analysisResults s;
     finalReport := finalReport s; error := error s; history := v;
     activeAnalysisId := activeAnalysisId s;
     misinformationWarning := misinformationWarning s;
     chatSession := chatSession s; chatMessages := chatMessages s;
     isChatLoading := isChatLoading s; isCompareMode := isCompareMode s;
     selectedHistoryIds := selectedHistoryIds s;
     isComparing := isComparing s; comparisonReport := comparisonReport s;
     showComparisonView := showComparisonView s;
     storedHistory := storedHistory s; effects := effects s |}.
Definition setActiveAnalysisId v (s : AppState) : AppState :=
  {| url := url s; isLoading := isLoading s;
     pipelineState := pipelineState s; analysisResults := analysisResults s;
     finalReport := finalReport s; error := error s; history := history s;
     activeAnalysisId := v; misinformationWarning := misinformationWarning s;
     chatSession := chatSession s; chatMessages := chatMessages s;
     isChatLoading := isChatLoading s; isCompareMode := isCompareMode s;
     selectedHistoryIds := selectedHistoryIds s;
     isComparing := isComparing s; comparisonReport := comparisonReport s;
     showComparisonView := showComparisonView s;
     storedHistory := storedHistory s; effects := effects s |}.
Definition setMisinformationWarning v (s : AppState) : AppState :=
  {| url := url s; isLoading := isLoading s;
     pipelineState := pipelineState s; analysisResults := analysisResults s;
     finalReport := finalReport s; error := error s; history := history s;
     activeAnalysisId := activeAnalysisId s; misinformationWarning := v;
     chatSession := chatSession s; chatMessages := chatMessages s;
     isChatLoading := isChatLoading s; isCompareMode := isCompareMode s;
     selectedHistoryIds := selectedHistoryIds s;
     isComparing := isComparing s; comparisonReport := comparisonReport s;
     showComparisonView := showComparisonView s;
     storedHistory := storedHistory s; effects := effects s |}.
Definition setChatSession v (s : AppState) : AppState :=
  {| url := url s; isLoading := isLoading s;
     pipelineState := pipelineState s; analysisResults := analysisResults s;
     finalReport := finalReport s; error := error s; history := history s;
     activeAnalysisId := activeAnalysisId s;
     misinformationWarning := misinformationWarning s; chatSession := v;
     chatMessages := chatMessages s; isChatLoading := isChatLoading s;
     isCompareMode := isCompareMode s;
     selectedHistoryIds := selectedHistoryIds s;
     isComparing := isComparing s; comparisonReport := comparisonReport s;
     showComparisonView := showComparisonView s;
     storedHistory := storedHistory s; effects := effects s |}.
Definition setChatMessages v (s : AppState) : AppState :=
  {| url := url s; isLoading := isLoading s;
     pipelineState := pipelineState s; analysisResults := analysisResults s;
     finalReport := finalReport s; error := error s; history := history s;
     activeAnalysisId := activeAnalysisId s;
     misinformationWarning := misinformationWarning s;
     chatSession := chatSession s; chatMessages := v;
     isChatLoading := isChatLoading s; isCompareMode := isCompareMode s;
     selectedHistoryIds := selectedHistoryIds s;
     isComparing := isComparing s; comparisonReport := comparisonReport s;
     showComparisonView := showComparisonView s;
     storedHistory := storedHistory s; effects := effects s |}.
Definition setIsChatLoading v (s : AppState) : AppState :=
  {| url := url s; isLoading := isLoading s;
     pipelineState := pipelineState s; analysisResults := analysisResults s;
     finalReport := finalReport s; error := error s; history := history s;
     activeAnalysisId := activeAnalysisId s;
     misinformationWarning := misinformationWarning s;
     chatSession := chatSession s; chatMessages := chatMessages s;
     isChatLoading := v; isCompareMode := isCompareMode s;
     selectedHistoryIds := selectedHistoryIds s;
     isComparing := isComparing s; comparisonReport := comparisonReport s;
     showComparisonView := showComparisonView s;
     storedHistory := storedHistory s; effects := effects s |}.
Definition setIsCompareMode v (s : AppState) : AppState :=
  {| url := url s; isLoading := isLoading s;
     pipelineState := pipelineState s; analysisResults := analysisResults s;
     finalReport := finalReport s; error := error s; history := history s;
     activeAnalysisId := activeAnalysisId s;
     misinformationWarning := misinformationWarning s;
     chatSession := chatSession s; chatMessages := chatMessages s;
     isChatLoading := isChatLoading s; isCompareMode := v;
     selectedHistoryIds := selectedHistoryIds s;
     isComparing := isComparing s; comparisonReport := comparisonReport s;
     showComparisonView := showComparisonView s;
     storedHistory := storedHistory s; effects := effects s |}.
Definition setSelectedHistoryIds v (s : AppState) : AppState :=
  {| url := url s; isLoading := isLoading s;
     pipelineState := pipelineState s; analysisResults := analysisResults s;
     finalReport := finalReport s; error := error s; history := history s;
     activeAnalysisId := activeAnalysisId s;
     misinformationWarning := misinformationWarning s;
     chatSession := chatSession s; chatMessages := chatMessages s;
     isChatLoading := isChatLoading s; isCompareMode := isCompareMode s;
     selectedHistoryIds := v; isComparing := isComparing s;
     comparisonReport := comparisonReport s;
     showComparisonView := showComparisonView s;
     storedHistory := storedHistory s; effects := effects s |}.
Definition setIsComparing v (s : AppState) : AppState :=
  {| url := url s; isLoading := isLoading s;
     pipelineState := pipelineState s; analysisResults := analysisResults s;
     finalReport := finalReport s; error := error s; history := history s;
     activeAnalysisId := activeAnalysisId s;
     misinformationWarning := misinformationWarning s;
     chatSession := chatSession s; chatMessages := chatMessages s;
     isChatLoading := isChatLoading s; isCompareMode := isCompareMode s;
     selectedHistoryIds := selectedHistoryIds s; isComparing := v;
     comparisonReport := comparisonReport s;
     showComparisonView := showComparisonView s;
     storedHistory := storedHistory s; effects := effects s |}.
Definition setComparisonReport v (s : AppState) : AppState :=
  {| url := url s; isLoading := isLoading s;
     pipelineState := pipelineState s; analysisResults := analysisResults s;
     finalReport := finalReport s; error := error s; history := history s;
     activeAnalysisId := activeAnalysisId s;
     misinformationWarning := misinformationWarning s;
     chatSession := chatSession s; chatMessages := chatMessages s;
     isChatLoading := isChatLoading s; isCompareMode := isCompareMode s;
     selectedHistoryIds := selectedHistoryIds s;
     isComparing := isComparing s; comparisonReport := v;
     showComparisonView := showComparisonView s;
     storedHistory := storedHistory s; effects := effects s |}.
Definition setShowComparisonView v (s : AppState) : AppState :=
  {| url := url s; isLoading := isLoading s;
     pipelineState := pipelineState s; analysisResults := analysisResults s;
     finalReport := finalReport s; error := error s; history := history s;
     activeAnalysisId := activeAnalysisId s;
     misinformationWarning := misinformationWarning s;
     chatSession := chatSession s; chatMessages := chatMessages s;
     isChatLoading := isChatLoading s; isCompareMode := isCompareMode s;
     selectedHistoryIds := selectedHistoryIds s;
     isComparing := isComparing s; comparisonReport := comparisonReport s;
     showComparisonView := v; storedHistory := storedHistory s;
     effects := effects s |}.
Definition setStoredHistory v (s : AppState) : AppState :=
  {| url := url s; isLoading := isLoading s;
     pipelineState := pipelineState s; analysisResults := analysisResults s;
     finalReport := finalReport s; error := error s; history := history s;
     activeAnalysisId := activeAnalysisId s;
     misinformationWarning := misinformationWarning s;
     chatSession := chatSession s; chatMessages := chatMessages s;
     isChatLoading := isChatLoading s; isCompareMode := isCompareMode s;
     selectedHistoryIds := selectedHistoryIds s;
     isComparing := isComparing s; comparisonReport := comparisonReport s;
     showComparisonView := showComparisonView s; storedHistory := v;
     effects := effects s |}.
Definition setEffects v (s : AppState) : AppState :=
  {| url := url s; isLoading := isLoading s;
     pipelineState := pipelineState s; analysisResults := analysisResults s;
     finalReport := finalReport s; error := error s; history := history s;
     activeAnalysisId := activeAnalysisId s;
     misinformationWarning := misinformationWarning s;
     chatSession := chatSession s; chatMessages := chatMessages s;
     isChatLoading := isChatLoading s; isCompareMode := isCompareMode s;
     selectedHistoryIds := selectedHistoryIds s;
     isComparing := isComparing s; comparisonReport := comparisonReport s;
     showComparisonView := showComparisonView s;
     storedHistory := storedHistory s; effects := v |}.

Definition withIngestion v (r : AnalysisResults) : AnalysisResults :=
  {| ingestion := Some v; textual := textual r; emotion := emotion r;
     visual := visual r; source := source r |}.
Definition withTextual v (r : AnalysisResults) : AnalysisResults :=
  {| ingestion := ingestion r; textual := Some v; emotion := emotion r;
     visual := visual r; source := source r |}.
Definition withEmotion v (r : AnalysisResults) : AnalysisResults :=
  {| ingestion := ingestion r; textual := textual r; emotion := Some v;
     visual := visual r; source := source r |}.
Definition withVisual v (r : AnalysisResults) : AnalysisResults :=
  {| ingestion := ingestion r; textual := textual r; emotion := emotion r;
     visual := Some v; source := source r |}.
Definition withSource v (r : AnalysisResults) : AnalysisResults :=
  {| ingestion := ingestion r; textual := textual r; emotion := emotion r;
     visual := visual r; source := Some v |}.

(** A call that leaves the component is written to the log. *)
Definition logEffect (e : Effect) (s : AppState) : AppState :=
  setEffects (effects s ++ [e]) s.

(** [setPipelineState]: the snapshot is stored and shown to the pipeline
    view, which is what the log entry records. *)
Definition setPipelineState (ps : PipelineState) (s : AppState) : AppState :=
  logEffect (PipelineStatus ps) (writePipelineState ps s).

(** What was logged between two states of one execution. *)
Definition effectsSince (s s' : AppState) : list Effect :=
  drop (length (effects s)) (effects s').

(** The snapshots among some effects, in the order they were published. *)
Definition statusFeed (es : list Effect) : list PipelineState :=
  omap (fun e => match e with PipelineStatus ps => Some ps | _ => None end) es.

(** The memory writes among some effects. *)
Definition memoryWrites (es : list Effect) : list MisinformationRecord.t :=
  omap (fun e => match e with MemoryWrite rec => Some rec | _ => None end) es.


Definition present {A} (x : option A) : bool :=
  match x with
  | Some _ => true
  | None => false
  end.

(** ** Handlers that do not wait *)

Definition resetAnalysisState (s : AppState) : AppState :=
  let s := setUrl EmptyString s in
  let s := setIsLoading false s in
  let s := setPipelineState INITIAL_PIPELINE_STATE s in
  let s := setAnalysisResults noResults s in
  let s := setFinalReport None s in
  let s := setError None s in
  let s := setActiveAnalysisId None s in
  let s := setChatSession None s in
  let s := setChatMessages [] s in
  let s := setIsChatLoading false s in
  let s := setIsCompareMode false s in
  let s := setSelectedHistoryIds [] s in
  let s := setIsComparing false s in
  let s := setComparisonReport None s in
  setShowComparisonView false s.

Definition handleNewAnalysis (s : AppState) : AppState :=
  setMisinformationWarning None (resetAnalysisState s).

Definition pastReportGreeting : ChatMessage.t :=
  {| ChatMessage.role := model;
     ChatMessage.content :=
       "This is a past report. Feel free to ask me any questions about it." |}.

Definition handleSelectHistory (id : string) (s : AppState) : AppState :=
  match List.find (fun h => bool_decide (HistoryItem.id h = id)) (history s) with
  | Some item =>
      let s := setIsLoading false s in
      let s := setError None s in
      let s := setUrl (HistoryItem.url item) s in
      let s := setFinalReport (Some (HistoryItem.report item)) s in
      let s := setPipelineState (HistoryItem.pipelineState item) s in
      let s := setAnalysisResults (HistoryItem.analysisResults item) s in
      let s := setActiveAnalysisId (Some (HistoryItem.id item)) s in
      let s := setChatMessages [] s in
      let s :=
        if truthy (HistoryItem.report item) then
          let s := setChatSession
                     (Some (startFollowUpChat (HistoryItem.report item))) s in
          setChatMessages [pastReportGreeting] s
        else setChatSession None s in
      let s := setIsCompareMode false s in
      let s := setSelectedHistoryIds [] s in
      let s := setShowComparisonView false s in
      setMisinformationWarning None s
  | None => s
  end.

(** [confirmed] is the answer of [window.confirm], [removed] tells whether
    [localStorage.removeItem] went through. *)
Definition handleClearHistory (confirmed removed : bool) (s : AppState)
  : AppState :=
  if confirmed then
    let s := setHistory [] s in
    let s := if removed then setStoredHistory None s else s in
    resetAnalysisState s
  else s.


Definition handleSelectItemForCompare (id : string) (s : AppState) : AppState :=
  let prev := selectedHistoryIds s in
  setSelectedHistoryIds
    (if bool_decide (id ∈ prev) then filter (fun i => i ≠ id) prev
     else prev ++ [id]) s.

(** ** Handlers that wait for a collaborator *)

Section Handlers.

(** [getFriendlyErrorMessage] of [./utils] and [new URL(u).hostname] are
    not among the sources; the handlers are read for any translation of
    an error into a message and any way of taking a URL apart (a URL that
    does not parse throws). *)
Variable getFriendlyErrorMessage : Thrown -> string.
Variable hostname : string -> Outcome string.

(** *** Comparison *)

Definition comparisonChunk (s : AppState) (chunk : string) : AppState :=
  setComparisonReport
    (Some (default EmptyString (comparisonReport s) +:+ chunk)) s.

Definition comparisonFailed (err : Thrown) (s : AppState) : AppState :=
  let friendlyMessage := getFriendlyErrorMessage err in
  let s := setError (Some ("Comparison failed: " +:+ friendlyMessage)) s in
  let s := setIsCompareMode false s in
  setSelectedHistoryIds [] s.

(** [briefStream] is what [generateComparisonBrief] yields for this call. *)
Definition handleRunComparison (briefStream : Stream) (s : AppState)
  : AppState :=
  if (length (selectedHistoryIds s) <? 2)%nat then s
  else
    let s := setIsComparing true s in
    let s := setComparisonReport (Some EmptyString) s in
    let s := setError None s in
    let reportsToCompare :=
      filter (fun item => HistoryItem.id item ∈ selectedHistoryIds s)
        (history s) in
    let s := logEffect (ComparisonStream reportsToCompare) s in
    let s := fold_left comparisonChunk (chunks briefStream) s in
    let s :=
      match failure briefStream with
      | None =>
          let s := setShowComparisonView true s in
          setIsCompareMode false s
      | Some err => comparisonFailed err s
      end in
    setIsComparing false s.

Definition handleExitComparisonView (s : AppState) : AppState :=
  let s := setShowComparisonView false s in
  let s := setComparisonReport None s in
  let s := setSelectedHistoryIds [] s in
  handleNewAnalysis s.

(** *** Follow-up chat *)

(** The updaters of the chunk loop and of the [catch] copy the array and
    assign the content of its last entry when that entry is a model
    entry. The entry is shared with the array of the state before; only
    the current array is read by anything, so the assignment is the
    replacement of the last entry. *)
Definition overwriteLastModel (content : string) (ms : list ChatMessage.t)
  : list ChatMessage.t :=
  match last ms with
  | Some lastMessage =>
      match ChatMessage.role lastMessage with
      | model =>
          take (length ms - 1) ms ++
            [{| ChatMessage.role := model; ChatMessage.content := content |}]
      | user => ms
      end
  | None => ms
  end.

(** The synchronous start of a send, up to the first [await]. *)
Definition sendRequested (session : Chat) (message : string) (s : AppState)
  : AppState :=
  let s := setIsChatLoading true s in
  let userMessage :=
    {| ChatMessage.role := user; ChatMessage.content := message |} in
  let s := setChatMessages (chatMessages s ++ [userMessage]) s in
  logEffect (ChatStream session message) s.

(** The stream is open: the placeholder entry is added. *)
Definition sendOpened (s : AppState) : AppState :=
  setChatMessages
    (chatMessages s ++
       [{| ChatMessage.role := model; ChatMessage.content := EmptyString |}]) s.

(** The chunk loop; [modelResponse] is the reply gathered so far. *)
Fixpoint sendStreaming (cs : list string) (modelResponse : string)
  (s : AppState) : AppState :=
  match cs with
  | [] => s
  | chunk :: rest =>
      let modelResponse := modelResponse +:+ chunk in
      sendStreaming rest modelResponse
        (setChatMessages (overwriteLastModel modelResponse (chatMessages s)) s)
  end.

Definition sendFailed (err : Thrown) (s : AppState) : AppState :=
  let friendlyMessage := getFriendlyErrorMessage err in
  setChatMessages
    (overwriteLastModel ("Sorry, an error occurred: " +:+ friendlyMessage)
       (chatMessages s)) s.

(** A send that has consumed the chunks [seen] of its stream and has not
    resolved yet. *)
Definition sendInFlight (session : Chat) (message : string)
  (seen : list string) (s : AppState) : AppState :=
  sendStreaming seen EmptyString (sendOpened (sendRequested session message s)).

(** The handler as the render over the state [rendered] creates it: the
    guard and the session are the constants [chatSession] and
    [isChatLoading] of that render, and the updaters read the state as it
    is when they run. [answer] is what [chatSession.sendMessageStream]
    settles to. *)
Definition handleSendChatMessageOf (rendered : AppState) (message : string)
  (answer : Outcome Stream) (s : AppState) : AppState :=
  match chatSession rendered with
  | None => s
  | Some session =>
      if isChatLoading rendered then s
      else
        let s :=
          match answer with
          | Resolved stream =>
              let s := sendInFlight session message (chunks stream) s in
              match failure stream with
              | None => s
              | Some err => sendFailed err s
              end
          | Rejected err => sendFailed err (sendRequested session message s)
          end in
        setIsChatLoading false s
  end.

(** A send through the handler of the latest render: the state the
    handler was created over is the state it runs on. *)
Definition handleSendChatMessage (message : string) (answer : Outcome Stream)
  (s : AppState) : AppState :=
  handleSendChatMessageOf s message answer s.

(** *** The pipeline *)

Record Inputs :=
  { submittedUrl : string;
    imageFile : option File.t;
    videoFile : option File.t;
    textInput : string }.

(** The answers one run receives, in the order it asks for them. *)
Record RunOracle :=
  { (* getMisinformationRecordByDomain *)
    memoryLookup : Outcome (option MisinformationRecord.t);
    (* the FileReader and the split of its data URL; None: either failed *)
    imageRead : option ImageData;
    (* generateContent, then the extraction of the JSON payload and the
       trim of its text field: the extracted text, or what was thrown *)
    scraped : Outcome string;
    textualAnswer : Outcome TextualAnalysisOutput;
    emotionAnswer : Outcome EmotionAnalysisOutput;
    videoFrames : Outcome (list ImageData);
    visualAnswer : Outcome VisualAnalysisOutput;
    sourceAnswer : Outcome SourceIntelligenceOutput;
    (* Date.now() *)
    now : Z;
    (* addMisinformationRecord *)
    memoryStored : Outcome unit;
    (* generateFinalBrief *)
    brief : Stream;
    (* the two new Date().toISOString() *)
    idClock : string;
    timestampClock : string;
    (* localStorage.setItem went through *)
    historySaved : bool }.

(** The variables of the closure of one run, and the React state. *)
Record Run :=
  { currentPipelineState : PipelineState;
    currentAnalysisResults : AnalysisResults;
    ui : AppState }.

(** A piece of the [try] block: it ends normally or by a throw, and what
    it did to the state before a throw stays done. *)
Definition M (A : Type) : Type := Run -> Outcome A * Run.

Definition ret {A} (a : A) : M A := fun r => (Resolved a, r).

Definition throw {A} (e : Thrown) : M A := fun r => (Rejected e, r).

Definition bind {A B} (m : M A) (k : A -> M B) : M B :=
  fun r =>
    match m r with
    | (Resolved a, r') => k a r'
    | (Rejected e, r') => (Rejected e, r')
    end.

Definition await {A} (o : Outcome A) : M A := fun r => (o, r).

Definition tryCatch {A} (m : M A) (handler : Thrown -> M A) : M A :=
  fun r =>
    match m r with
    | (Resolved a, r') => (Resolved a, r')
    | (Rejected e, r') => handler e r'
    end.

(** A call of a state setter. *)
Definition react (f : AppState -> AppState) : M unit :=
  fun r =>
    (Resolved tt,
     {| currentPipelineState := currentPipelineState r;
        currentAnalysisResults := currentAnalysisResults r;
        ui := f (ui r) |}).

(** An assignment to a field of [currentAnalysisResults], followed by
    [setAnalysisResults(currentAnalysisResults)]. The state cell holds the
    very object the closure assigns to; the two are read only after both
    statements, where they agree, so the cell holds the value. *)
Definition record (f : AnalysisResults -> AnalysisResults) : M unit :=
  fun r =>
    let results := f (currentAnalysisResults r) in
    (Resolved tt,
     {| currentPipelineState := currentPipelineState r;
        currentAnalysisResults := results;
        ui := setAnalysisResults results (ui r) |}).

Definition results : M AnalysisResults :=
  fun r => (Resolved (currentAnalysisResults r), r).

Definition snapshot : M PipelineState :=
  fun r => (Resolved (currentPipelineState r), r).

Definition updateAndTrackStatus (agent : AgentName) (st : AgentStatus)
  (d : string) : M unit :=
  fun r =>
    let ps :=
      assign agent {| status := st; details := Some d |}
        (currentPipelineState r) in
    (Resolved tt,
     {| currentPipelineState := ps;
        currentAnalysisResults := currentAnalysisResults r;
        ui := setPipelineState ps (ui r) |}).

(** The one-second pause before a stage; it changes nothing. *)
Definition cooldown : M unit := ret tt.

Declare Scope run_scope.
Delimit Scope run_scope with run.
Notation "x <- m ;; k" := (bind m (fun x => k))
  (at level 100, m at next level, right associativity) : run_scope.
Notation "m ;; k" := (bind m (fun _ => k))
  (at level 100, right associativity) : run_scope.
Local Open Scope run_scope.

(** [submittedUrl || (textInput ? ... : (imageFile ? ... : videoFile!.name))];
    the last alternative is read only past the guard of the handler, where
    a video is there when nothing else is. *)
Definition inputLabel (i : Inputs) : string :=
  orElse (submittedUrl i)
    (if truthy (textInput i) then "Direct Text Input"
     else match imageFile i with
          | Some f => File.name f
          | None => from_option File.name EmptyString (videoFile i)
          end).

Definition noInput (i : Inputs) : bool :=
  negb (truthy (submittedUrl i)) && negb (present (imageFile i))
  && negb (present (videoFile i)) && negb (truthy (textInput i)).

(** The look into the memory before the run; whatever it throws is
    logged to the console and dropped. *)
Definition checkMisinformationLog (i : Inputs) (w : RunOracle)
  (s : AppState) : AppState :=
  if truthy (submittedUrl i) then
    match hostname (submittedUrl i) with
    | Resolved _ =>
        match memoryLookup w with
        | Resolved (Some rec) => setMisinformationWarning (Some rec) s
        | Resolved None => s
        | Rejected _ => s
        end
    | Rejected _ => s
    end
  else s.

Definition readImage (i : Inputs) (w : RunOracle) : M (option ImageData) :=
  match imageFile i with
  | Some _ =>
      match imageRead w with
      | Some imageData => ret (Some imageData)
      | None => throw (JsError "Failed to read image file.")
      end
  | None => ret None
  end.

(** 1. Content Ingestion *)
Definition contentIngestion (i : Inputs) (w : RunOracle) : M unit :=
  if truthy (submittedUrl i) then
    updateAndTrackStatus CONTENT_INGESTION RUNNING
      "Ingesting content from URL..." ;;
    extractedText <- await (scraped w) ;;
    domain <- await (hostname (submittedUrl i)) ;;
    record (withIngestion
              {| text := extractedText; images := []; domain := domain |}) ;;
    if truthy extractedText then
      updateAndTrackStatus CONTENT_INGESTION COMPLETED "Text extracted"
    else
      updateAndTrackStatus CONTENT_INGESTION COMPLETED "No main text found"
  else if truthy (textInput i) then
    updateAndTrackStatus CONTENT_INGESTION RUNNING
      "Processing direct text..." ;;
    record (withIngestion
              {| text := textInput i; images := [];
                 domain := EmptyString |}) ;;
    updateAndTrackStatus CONTENT_INGESTION COMPLETED "Text processed"
  else
    updateAndTrackStatus CONTENT_INGESTION SKIPPED "No URL or text provided".

(** [currentAnalysisResults.ingestion?.text] and [?.domain]. *)
Definition ingestedText (r : AnalysisResults) : string :=
  from_option text EmptyString (ingestion r).

Definition ingestedDomain (r : AnalysisResults) : string :=
  from_option domain EmptyString (ingestion r).

(** 2. Textual Analysis *)
Definition textualAnalysis (w : RunOracle) : M unit :=
  r <- results ;;
  if truthy (ingestedText r) then
    cooldown ;;
    updateAndTrackStatus TEXTUAL_ANALYSIS RUNNING "Analyzing text..." ;;
    textualResult <- await (textualAnswer w) ;;
    record (withTextual textualResult) ;;
    updateAndTrackStatus TEXTUAL_ANALYSIS COMPLETED
      "Summary and entities extracted"
  else
    updateAndTrackStatus TEXTUAL_ANALYSIS SKIPPED "No text to analyze".

(** 3. Emotion Analysis *)
Definition emotionAnalysis (w : RunOracle) : M unit :=
  r <- results ;;
  if truthy (ingestedText r) then
    cooldown ;;
    updateAndTrackStatus EMOTION_ANALYSIS RUNNING
      "Analyzing emotional tone..." ;;
    emotionResult <- await (emotionAnswer w) ;;
    record (withEmotion emotionResult) ;;
    updateAndTrackStatus EMOTION_ANALYSIS COMPLETED
      ("Emotion: " +:+ dominant_emotion emotionResult)
  else
    updateAndTrackStatus EMOTION_ANALYSIS SKIPPED "No text to analyze".

(** 4. Visual Analysis *)
Definition visualAnalysis (i : Inputs) (w : RunOracle)
  (imageData : option ImageData) : M unit :=
  match imageData with
  | Some _ =>
      cooldown ;;
      updateAndTrackStatus VISUAL_ANALYSIS RUNNING
        "Analyzing uploaded image..." ;;
      visualResult <- await (visualAnswer w) ;;
      record (withVisual visualResult) ;;
      updateAndTrackStatus VISUAL_ANALYSIS COMPLETED "Image analysis complete"
  | None =>
      match videoFile i with
      | Some _ =>
          cooldown ;;
          updateAndTrackStatus VISUAL_ANALYSIS RUNNING
            "Extracting frames from video..." ;;
          _ <- await (videoFrames w) ;;
          updateAndTrackStatus VISUAL_ANALYSIS RUNNING
            "Analyzing video frames..." ;;
          visualResult <- await (visualAnswer w) ;;
          record (withVisual visualResult) ;;
          updateAndTrackStatus VISUAL_ANALYSIS COMPLETED
            "Video analysis complete"
      | None =>
          updateAndTrackStatus VISUAL_ANALYSIS SKIPPED
            "No visual media uploaded"
      end
  end.

Definition MISINFORMATION_THRESHOLD : Z := 40.

(** 5. Source Intelligence *)
Definition sourceIntelligence (i : Inputs) (w : RunOracle) : M unit :=
  r <- results ;;
  if truthy (ingestedDomain r) then
    cooldown ;;
    updateAndTrackStatus SOURCE_INTELLIGENCE RUNNING
      "Verifying source credibility..." ;;
    sourceResult <- await (sourceAnswer w) ;;
    record (withSource sourceResult) ;;
    updateAndTrackStatus SOURCE_INTELLIGENCE COMPLETED
      ("Credibility: " +:+ source_validity sourceResult) ;;
    if (trust_score sourceResult <? MISINFORMATION_THRESHOLD)%Z then
      tryCatch
        (react (logEffect
                  (MemoryWrite
                     {| MisinformationRecord.domain := ingestedDomain r;
                        MisinformationRecord.url := submittedUrl i;
                        MisinformationRecord.trustScore :=
                          trust_score sourceResult;
                        MisinformationRecord.timestamp := now w |})) ;;
         await (memoryStored w))
        (fun _ => ret tt)
    else ret tt
  else
    updateAndTrackStatus SOURCE_INTELLIGENCE SKIPPED "No domain to verify".

Definition noDataError : Thrown :=
  JsError
    "No data available to generate a brief. Provide a URL, image, or text.".

(** The loop over the report stream; [fullReport] is the local copy. *)
Fixpoint consumeReport (cs : list string) (fullReport : string) : M string :=
  match cs with
  | [] => ret fullReport
  | chunk :: rest =>
      react (fun s =>
               setFinalReport
                 (Some (default EmptyString (finalReport s) +:+ chunk)) s) ;;
      consumeReport rest (fullReport +:+ chunk)
  end.

Definition briefGreeting : ChatMessage.t :=
  {| ChatMessage.role := model;
     ChatMessage.content :=
       "I've generated the brief. What specific details would you like to explore?" |}.

Definition newHistoryItem (i : Inputs) (w : RunOracle) (fullReport : string)
  (ps : PipelineState) (r : AnalysisResults) : HistoryItem.t :=
  {| HistoryItem.id := idClock w;
     HistoryItem.url := inputLabel i;
     HistoryItem.report := fullReport;
     HistoryItem.timestamp := timestampClock w;
     HistoryItem.pipelineState := ps;
     HistoryItem.analysisResults := r |}.

(** The updater given to [setHistory]. *)
Definition prependHistory (w : RunOracle) (item : HistoryItem.t)
  (s : AppState) : AppState :=
  let updatedHistory := item :: history s in
  let s :=
    if historySaved w then setStoredHistory (Some updatedHistory) s else s in
  setHistory updatedHistory s.

(** 6. Final Synthesis, and what follows it inside the [try]. *)
Definition finalSynthesis (i : Inputs) (w : RunOracle) : M unit :=
  r <- results ;;
  if negb (present (textual r)) && negb (present (visual r)) then
    throw noDataError
  else
    cooldown ;;
    updateAndTrackStatus FINAL_SYNTHESIS RUNNING "Generating final brief..." ;;
    react (logEffect (BriefStream r)) ;;
    react (setFinalReport (Some EmptyString)) ;;
    fullReport <- consumeReport (chunks (brief w)) EmptyString ;;
    match failure (brief w) with
    | Some err => throw err
    | None =>
        updateAndTrackStatus FINAL_SYNTHESIS COMPLETED
          "Brief generated successfully" ;;
        ps <- snapshot ;;
        let item := newHistoryItem i w fullReport ps r in
        react (setActiveAnalysisId (Some (HistoryItem.id item))) ;;
        react (prependHistory w item) ;;
        react (setChatSession (Some (startFollowUpChat fullReport))) ;;
        react (setChatMessages [briefGreeting])
    end.

(** The message of the [switch] on the failed agent. Its [default] case
    is for a name outside the enumeration and has no counterpart here. *)
Definition stageFailure (failedAgentName : AgentName)
  (friendlyMessage : string) : string :=
  match failedAgentName with
  | CONTENT_INGESTION =>
      "Content Ingestion failed. Please check if the URL is correct and publicly accessible, or try a different source. Details: "
      +:+ friendlyMessage
  | TEXTUAL_ANALYSIS =>
      "Textual Analysis failed. The content from the source might be malformed or empty. Details: "
      +:+ friendlyMessage
  | EMOTION_ANALYSIS =>
      "Emotion Analysis failed. The model could not determine the emotional tone of the content. Details: "
      +:+ friendlyMessage
  | VISUAL_ANALYSIS =>
      "Visual Analysis failed. The uploaded media might be corrupted or in an unsupported format. Details: "
      +:+ friendlyMessage
  | SOURCE_INTELLIGENCE =>
      "Source Intelligence failed. The model could not verify the source's credibility, which can happen with new or obscure domains. Details: "
      +:+ friendlyMessage
  | FINAL_SYNTHESIS =>
      "Final Synthesis failed. The model could not generate a brief from the collected data. Details: "
      +:+ friendlyMessage
  end.

(** The [catch] block of the run. *)
Definition pipelineFailed (err : Thrown) : M unit :=
  let friendlyMessage := getFriendlyErrorMessage err in
  ps <- snapshot ;;
  match findRunning ps with
  | Some (failedAgentName, _) =>
      updateAndTrackStatus failedAgentName ERROR friendlyMessage ;;
      react (setError (Some (stageFailure failedAgentName friendlyMessage)))
  | None =>
      react (setError (Some ("Pipeline failed: " +:+ friendlyMessage)))
  end.

(** The five stages before the synthesis. *)
Definition earlierStages (i : Inputs) (w : RunOracle) : M unit :=
  imageData <- readImage i w ;;
  contentIngestion i w ;;
  textualAnalysis w ;;
  emotionAnalysis w ;;
  visualAnalysis i w imageData ;;
  sourceIntelligence i w.

(** The [try] block. *)
Definition pipelineBody (i : Inputs) (w : RunOracle) : M unit :=
  earlierStages i w ;;
  finalSynthesis i w.

(** The run as it enters the [try]. *)
Definition runStarted (i : Inputs) (w : RunOracle) (s : AppState) : Run :=
  let s := setMisinformationWarning None s in
  let s := checkMisinformationLog i w s in
  let s := resetAnalysisState s in
  let s := setUrl (inputLabel i) s in
  let s := setIsLoading true s in
  {| currentPipelineState := INITIAL_PIPELINE_STATE;
     currentAnalysisResults := noResults;
     ui := s |}.

(** The run as it leaves the [try] and its [catch]. *)
Definition runSettled (i : Inputs) (w : RunOracle) (s : AppState) : Run :=
  snd (tryCatch (pipelineBody i w) pipelineFailed (runStarted i w s)).

Definition handleRunPipeline (i : Inputs) (w : RunOracle) (s : AppState)
  : AppState :=
  if noInput i then s
  else setIsLoading false (ui (runSettled i w s)).

End Handlers.

Arguments ret {A} a.
Arguments throw {A} e.
Arguments await {A} o.
Arguments bind {A B} m k.
Arguments tryCatch {A} m handler.

(** ** Runs one after the other *)

Section Sessions.

Variable getFriendlyErrorMessage : Thrown -> string.
Variable hostname : string -> Outcome string.

(** A run went through when it had something to work on and left no
    error message. *)
Definition completed (i : Inputs) (s' : AppState) : bool :=
  negb (noInput i) && negb (present (error s')).

Fixpoint runAll (rs : list (Inputs * RunOracle)) (s : AppState) : AppState :=
  match rs with
  | [] => s
  | (i, w) :: rest =>
      runAll rest (handleRunPipeline getFriendlyErrorMessage hostname i w s)
  end.

(** The item of a completed run, read off the state the run leaves: the
    report it shows, its final snapshot and results, under the label of
    the input and the two readings of the clock. *)
Definition itemOf (i : Inputs) (w : RunOracle) (s' : AppState)
  : HistoryItem.t :=
  {| HistoryItem.id := idClock w;
     HistoryItem.url := inputLabel i;
     HistoryItem.report := default EmptyString (finalReport s');
     HistoryItem.timestamp := timestampClock w;
     HistoryItem.pipelineState := pipelineState s';
     HistoryItem.analysisResults := analysisResults s' |}.

(** The items of the completed runs of a sequence, oldest first. *)
Fixpoint producedItems (rs : list (Inputs * RunOracle)) (s : AppState)
  : list HistoryItem.t :=
  match rs with
  | [] => []
  | (i, w) :: rest =>
      let s' := handleRunPipeline getFriendlyErrorMessage hostname i w s in
      (if completed i s' then [itemOf i w s'] else [])
      ++ producedItems rest s'
  end.

End Sessions.

(** ** Vocabulary of the properties *)

Definition stages : list AgentName :=
  [CONTENT_INGESTION; TEXTUAL_ANALYSIS; EMOTION_ANALYSIS;
   VISUAL_ANALYSIS; SOURCE_INTELLIGENCE; FINAL_SYNTHESIS].

(** Completed, Skipped and Error are the statuses a stage ends in. *)
Definition terminal (st : AgentStatus) : bool :=
  match st with
  | COMPLETED | SKIPPED | ERROR => true
  | PENDING | RUNNING => false
  end.

(** [===] on statuses. *)
Definition AgentStatus_eqb (a b : AgentStatus) : bool :=
  match a, b with
  | PENDING, PENDING
  | RUNNING, RUNNING
  | COMPLETED, COMPLETED
  | SKIPPED, SKIPPED
  | ERROR, ERROR => true
  | _, _ => false
  end.

(** Every one of the six stages has a status a stage ends in. *)
Definition everyStageTerminal (ps : PipelineState) : Prop :=
  forall a, exists st, statusOf a ps = Some st /\ terminal st = true.

(** The chunks of a stream, put end to end. *)
Definition joined (cs : list string) : string :=
  foldr String.append EmptyString cs.

(** The state of the component when it is mounted: the initial values of
    its [useState] cells, nothing stored, nothing logged. *)
Definition mounted : AppState :=
  {| url := EmptyString; isLoading := false;
     pipelineState := INITIAL_PIPELINE_STATE; analysisResults := noResults;
     finalReport := None; error := None; history := [];
     activeAnalysisId := None; misinformationWarning := None;
     chatSession := None; chatMessages := []; isChatLoading := false;
     isCompareMode := false; selectedHistoryIds := []; isComparing := false;
     comparisonReport := None; showComparisonView := false;
     storedHistory := None; effects := [] |}.

(** ** Running a piece of the [try] block symbolically *)

(** [wp m Q r]: what [m] settles to from [r], and the run it leaves,
    satisfy [Q]. *)
Definition wp {A} (m : M A) (Q : Outcome A -> Run -> Prop) (r : Run) : Prop :=
  Q (fst (m r)) (snd (m r)).

(** The run after [setPipelineState] was given the snapshot [ps]. *)
Definition tracked (ps : PipelineState) (r : Run) : Run :=
  {| currentPipelineState := ps;
     currentAnalysisResults := currentAnalysisResults r;
     ui := setPipelineState ps (ui r) |}.

(** The run as it enters the [try], given the warning the look into the
    memory left. *)
Definition startedWith (mw : option MisinformationRecord.t) (i : Inputs)
  (s : AppState) : Run :=
  {| currentPipelineState := INITIAL_PIPELINE_STATE;
     currentAnalysisResults := noResults;
     ui := setIsLoading true
             (setUrl (inputLabel i)
                (resetAnalysisState (setMisinformationWarning mw s))) |}.

(** The run as the five earlier stages leave it when none of them threw:
    the snapshot and the results shown are the current ones, no stage is
    Running or in Error, the synthesis has not been touched, and no
    snapshot published since [s] has the synthesis Running. *)
Definition quiet (s : AppState) (r : Run) : Prop :=
  pipelineState (ui r) = currentPipelineState r
  /\ analysisResults (ui r) = currentAnalysisResults r
  /\ findRunning (currentPipelineState r) = None
  /\ (forall a, statusOf a (currentPipelineState r) <> Some ERROR)
  /\ statusOf FINAL_SYNTHESIS (currentPipelineState r) = Some PENDING
  /\ exists tr : list Effect,
       effects (ui r) = (effects s ++ tr)%list
       /\ Forall (fun ps => statusOf FINAL_SYNTHESIS ps <> Some RUNNING)
            (statusFeed tr).

(** Every run of a sequence went through. *)
Fixpoint allCompleted (getFriendlyErrorMessage : Thrown -> string)
  (hostname : string -> Outcome string)
  (rs : list (Inputs * RunOracle)) (s : AppState) : bool :=
  match rs with
  | [] => true
  | (i, w) :: rest =>
      let s' := handleRunPipeline getFriendlyErrorMessage hostname i w s in
      completed i s' && allCompleted getFriendlyErrorMessage hostname rest s'
  end.


(** ** Sample runs *)

(** A translator that shows the message as it is. *)
Definition plainMessage (e : Thrown) : string :=
  match e with
  | JsError message => message
  | JsReason reason => reason
  end.

(** A parser that finds the same host in every URL. *)
Definition exampleHost (u : string) : Outcome string := Resolved "example.com".

Definition urlOnly : Inputs :=
  {| submittedUrl := "https://example.com/a"; imageFile := None;
     videoFile := None; textInput := EmptyString |}.

Definition imageOnly : Inputs :=
  {| submittedUrl := EmptyString;
     imageFile := Some {| File.name := "photo.png" |};
     videoFile := None; textInput := EmptyString |}.

Definition textOnly : Inputs :=
  {| submittedUrl := EmptyString; imageFile := None; videoFile := None;
     textInput := "Breaking: nothing happened." |}.

(** Answers of the collaborators: what the scraper returns, the trust
    score, the report stream and the reading of the clock vary. *)
Definition answers (page : Outcome string) (score : Z) (report : Stream)
  (clock : string) : RunOracle :=
  {| memoryLookup := Resolved None;
     imageRead := Some {| data := "iVBORw0KGgo="; mimeType := "image/png" |};
     scraped := page;
     textualAnswer :=
       Resolved {| summary := "Nothing happened."; sentiment := Neutral;
                   entities := []; keywords := ["nothing"] |};
     emotionAnswer :=
       Resolved {| dominant_emotion := "calm"; manipulation_level := Low |};
     videoFrames := Resolved [];
     visualAnswer :=
       Resolved {| visual_insights := [{| manipulation_flag := Low |}] |};
     sourceAnswer :=
       Resolved {| trust_score := score; source_validity := "Questionable";
                   source_validity_explanation := "Unknown publisher.";
                   evidence := [{| finding := Negative |}] |};
     now := 1700000000000;
     memoryStored := Resolved tt;
     brief := report;
     idClock := clock;
     timestampClock := clock;
     historySaved := true |}.

Definition twoChunks : Stream :=
  {| chunks := ["# Brief"; " All clear."]; failure := None |}.

(** The scraper found no text on the page. *)
Definition emptyPage (score : Z) : RunOracle :=
  answers (Resolved EmptyString) score twoChunks "2025-01-01T00:00:00.000Z".

(** The scraper could not be reached. *)
Definition unreachable : RunOracle :=
  answers (Rejected (JsError "fetch failed")) 80 twoChunks
    "2025-01-01T00:00:00.000Z".


(** Everything answers. *)
Definition allWell (clock : string) : RunOracle :=
  answers (Resolved "Nothing happened today.") 80 twoChunks clock.

(** ** The rest of the component *)

(** The effect that runs when the component is mounted: the history stored
    under [historyKey] becomes the history. [readable] tells whether
    [localStorage.getItem] and [JSON.parse] went through; what they throw
    is logged to the console and dropped. The stored string is not empty
    when there is one, so a stored history is always taken. *)
Definition mountEffect (readable : bool) (s : AppState) : AppState :=
  if readable then
    match storedHistory s with
    | Some stored => setHistory stored s
    | None => s
    end
  else s.

(** The component as it is mounted again over what the storage holds. *)
Definition remounted (stored : option (list HistoryItem.t)) : AppState :=
  setStoredHistory stored mounted.

(** [finalReport && !isLoading && chatSession]: the follow-up chat is
    rendered. The empty report is falsy. *)
Definition showsChat (s : AppState) : bool :=
  truthy (default EmptyString (finalReport s)) && negb (isLoading s)
  && present (chatSession s).

(** [finalReport && !isLoading]: the report is rendered. *)
Definition showsReport (s : AppState) : bool :=
  truthy (default EmptyString (finalReport s)) && negb (isLoading s).

(** Sends one after the other, each with what its stream settles to. *)
Fixpoint sendAll (getFriendlyErrorMessage : Thrown -> string)
  (sends : list (string * Outcome Stream)) (s : AppState) : AppState :=
  match sends with
  | [] => s
  | (message, answer) :: rest =>
      sendAll getFriendlyErrorMessage rest
        (handleSendChatMessage getFriendlyErrorMessage message answer s)
  end.

(** The warning a run leaves: the record the memory holds for the host of
    the submitted URL, when the URL parses and the lookup answers. *)
Definition foundWarning (hostname : string -> Outcome string) (i : Inputs)
  (w : RunOracle) : option MisinformationRecord.t :=
  if truthy (submittedUrl i) then
    match hostname (submittedUrl i), memoryLookup w with
    | Resolved _, Resolved found => found
    | _, _ => None
    end
  else None.

(** The first stage in Error of a snapshot, with the detail it shows. *)
Definition findError (ps : PipelineState) : option (AgentName * string) :=
  match List.find (fun e => AgentStatus_eqb (status (snd e)) ERROR) ps with
  | Some (a, st) => Some (a, default EmptyString (details st))
  | None => None
  end.

(** The number of stages of a snapshot that have a given status. *)
Definition countStatus (st : AgentStatus) (ps : PipelineState) : nat :=
  length (List.filter (fun e => AgentStatus_eqb (status (snd e)) st) ps).

(** From one snapshot to the next, a stage that has ended keeps its
    status, and a stage that is Running does not go back to Pending. *)
Definition advances (before after : PipelineState) : bool :=
  forallb
    (fun e =>
       match status (snd e), statusOf (fst e) after with
       | PENDING, Some _ => true
       | RUNNING, Some st => negb (AgentStatus_eqb st PENDING)
       | st, Some st' => AgentStatus_eqb st st'
       | _, None => false
       end)
    before.

(** Every snapshot of a sequence advances to the next one. *)
Fixpoint steady (feed : list PipelineState) : bool :=
  match feed with
  | before :: (after :: _) as rest => advances before after && steady rest
  | _ => true
  end.

#[global] Instance AgentName_eq_dec : EqDecision AgentName.
Proof. solve_decision. Defined.

(** A snapshot holds the six stages, at most one of them Running. *)
Definition oneAtATime (ps : PipelineState) : bool :=
  bool_decide (map fst ps = stages) && (countStatus RUNNING ps <=? 1)%nat.

(** The oracle of a run with another answer to the memory write. *)
Definition withMemoryStored (o : Outcome unit) (w : RunOracle) : RunOracle :=
  {| memoryLookup := memoryLookup w; imageRead := imageRead w;
     scraped := scraped w; textualAnswer := textualAnswer w;
     emotionAnswer := emotionAnswer w; videoFrames := videoFrames w;
     visualAnswer := visualAnswer w; sourceAnswer := sourceAnswer w;
     now := now w; memoryStored := o; brief := brief w;
     idClock := idClock w; timestampClock := timestampClock w;
     historySaved := historySaved w |}.

(** ** The report view (components/ReportDisplay.tsx) *)

(** [level.toLowerCase()] on the three levels. *)
Definition toLowerCase (level : Level) : string :=
  match level with
  | Low => "low"
  | Medium => "medium"
  | High => "high"
  end.

(** [level !== 'Low'] *)
Definition notLow (level : Level) : bool :=
  match level with
  | Low => false
  | _ => true
  end.

(** [sentiment === 'Negative'] *)
Definition isNegative (sentiment : Sentiment) : bool :=
  match sentiment with
  | Negative => true
  | _ => false
  end.

(** What [calculateRiskScore] says of the source: the risk is what the
    trust score leaves of 100. *)
Definition sourceLine (trustScore : Z) : string :=
  let riskFromSource := (100 - trustScore)%Z in
  if (60 <? riskFromSource)%Z then "Source credibility is low."
  else if (20 <? riskFromSource)%Z then "Source credibility is moderate."
  else "Source credibility is high.".

(** [breakdown.push(line)] *)
Definition push (line : string) (breakdown : list string) : list string :=
  breakdown ++ [line].

(** The [breakdown] of [calculateRiskScore]: the lines of the risk meter.
    The [score] of the same function is a floating-point number and is not
    modelled; the breakdown does not read it. The trust score and the
    levels are fields the records always have. *)
Definition riskBreakdown (results : AnalysisResults) : list string :=
  if negb (present (source results)) && negb (present (emotion results))
     && negb (present (visual results)) && negb (present (textual results))
  then ["Not enough data for risk assessment."]
  else
    let breakdown := [] in
    let breakdown :=
      match source results with
      | Some sr => push (sourceLine (trust_score sr)) breakdown
      | None => breakdown
      end in
    let breakdown :=
      match emotion results with
      | Some er =>
          let level := manipulation_level er in
          if notLow level
          then push ("Detected " +:+ toLowerCase level
                     +:+ " emotional manipulation.") breakdown
          else breakdown
      | None => breakdown
      end in
    let breakdown :=
      match visual results with
      | Some vr =>
          match visual_insights vr with
          | insight :: _ =>
              let flag := manipulation_flag insight in
              if notLow flag
              then push ("Image manipulation risk is " +:+ toLowerCase flag
                         +:+ ".") breakdown
              else breakdown
          | [] => breakdown
          end
      | None => breakdown
      end in
    let breakdown :=
      match textual results with
      | Some tr =>
          if isNegative (sentiment tr) && (0 <? length breakdown)%nat
          then push "Content has a negative sentiment." breakdown
          else breakdown
      | None => breakdown
      end in
    if (length breakdown =? 0)%nat
    then push "No significant risk factors detected." breakdown
    else breakdown.

(** The colour of the trust badge. *)
Inductive Tone := Success | Warning | Danger.

(** [score >= 80 ? success : score >= 50 ? warning : error] of [TrustBadge]. *)
Definition trustTone (score : Z) : Tone :=
  if (80 <=? score)%Z then Success
  else if (50 <=? score)%Z then Warning
  else Danger.

(** [EmotionMeter] shows its warning unless the level is Low. *)
Definition emotionWarning (analysis : EmotionAnalysisOutput) : bool :=
  notLow (manipulation_level analysis).

(** The object [evidenceData] counts in: a key is there once a finding of
    its kind has been seen. *)
Record Counts :=
  { ofPositive : option nat; ofNegative : option nat;
    ofNeutral : option nat }.

(** [acc[item.finding] = (acc[item.finding] || 0) + 1] *)
Definition tally (acc : Counts) (item : Evidence) : Counts :=
  match finding item with
  | Positive =>
      {| ofPositive := Some (default 0%nat (ofPositive acc) + 1)%nat;
         ofNegative := ofNegative acc; ofNeutral := ofNeutral acc |}
  | Negative =>
      {| ofPositive := ofPositive acc;
         ofNegative := Some (default 0%nat (ofNegative acc) + 1)%nat;
         ofNeutral := ofNeutral acc |}
  | Neutral =>
      {| ofPositive := ofPositive acc; ofNegative := ofNegative acc;
         ofNeutral := Some (default 0%nat (ofNeutral acc) + 1)%nat |}
  end.

Module Bar.
Record t := { name : string; count : nat; fill : string }.
End Bar.

(** [evidenceData]: the bars of the evidence chart, or [null]. *)
Definition evidenceData (results : AnalysisResults) : option (list Bar.t) :=
  match source results with
  | None => None
  | Some sr =>
      if (length (evidence sr) =? 0)%nat then None
      else
        let counts :=
          fold_left tally (evidence sr)
            {| ofPositive := None; ofNegative := None; ofNeutral := None |} in
        Some
          (List.filter (fun item => (0 <? Bar.count item)%nat)
             [{| Bar.name := "Positive";
                 Bar.count := default 0%nat (ofPositive counts);
                 Bar.fill := "#22c55e" |};
              {| Bar.name := "Negative";
                 Bar.count := default 0%nat (ofNegative counts);
                 Bar.fill := "#ef4444" |};
              {| Bar.name := "Neutral";
                 Bar.count := default 0%nat (ofNeutral counts);
                 Bar.fill := "#94a3b8" |}])
  end.

(** [s.split(separator)] for a separator that is not empty: the pieces
    between the occurrences of the separator, found from the left.
    [skip] counts the characters of an occurrence still to pass. *)
Fixpoint splitFrom (separator : string) (skip : nat) (s : string)
  : list string :=
  match s with
  | EmptyString => [EmptyString]
  | String c rest =>
      match skip with
      | S k => splitFrom separator k rest
      | O =>
          if String.prefix separator s
          then EmptyString
               :: splitFrom separator (String.length separator - 1) rest
          else match splitFrom separator 0 rest with
               | piece :: pieces => String c piece :: pieces
               | [] => [String c EmptyString]
               end
      end
  end.

Definition splitOn (separator s : string) : list string :=
  splitFrom separator 0 s.

(** [/[a-z0-9]/i]: a letter of the Latin alphabet or a digit. *)
Definition alphanumeric (c : Ascii.ascii) : bool :=
  let n := Ascii.nat_of_ascii c in
  ((48 <=? n) && (n <=? 57) || (65 <=? n) && (n <=? 90)
   || (97 <=? n) && (n <=? 122))%nat.

(** The character [_]. *)
Definition underscore : Ascii.ascii := Ascii.ascii_of_nat 95.

(** [s.replace(/[^a-z0-9]/gi, '_')] *)
Fixpoint underscored (s : string) : string :=
  match s with
  | EmptyString => EmptyString
  | String c rest =>
      String (if alphanumeric c then c else underscore) (underscored rest)
  end.

(** [(url.split('//').pop() || 'report').split('/')[0]
      .replace(/[^a-z0-9]/gi, '_')]: the name of the PDF file, between
    [Intelligence_Brief_] and [.pdf]. *)
Definition safeFilename (url : string) : string :=
  let address := default EmptyString (last (splitOn "//" url)) in
  underscored
    (default EmptyString (head (splitOn "/" (orElse address "report")))).

(** ** The sign-in page (AuthPage) *)

Module Account.
Record t := { password : string; email : string }.
End Account.

(** The names every object inherits from [Object.prototype]. *)
Definition inheritedNames : list string :=
  ["constructor"; "__proto__"; "hasOwnProperty"; "isPrototypeOf";
   "propertyIsEnumerable"; "toLocaleString"; "toString"; "valueOf";
   "__defineGetter__"; "__defineSetter__"; "__lookupGetter__";
   "__lookupSetter__"].

(** The object kept under [users] in [localStorage] is a map from user
    names to records: the page is the only writer of the item, so the item
    holds what [handleAuthAction] has put there, and the order of the keys
    is never read.

    What [users[username]] gives: the record the object holds under the
    name; for a name the object does not hold, what [Object.prototype]
    has under it, a function or the prototype itself, which is truthy and
    has no [password]; or [undefined]. *)
Inductive Property :=
  | Own (account : Account.t)
  | Inherited
  | Undefined.

Definition property (users : gmap string Account.t) (username : string)
  : Property :=
  match users !! username with
  | Some account => Own account
  | None =>
      if bool_decide (username ∈ inheritedNames) then Inherited
      else Undefined
  end.

(** [Object.values(users).some(user => user.email === email)] *)
Definition emailExists (users : gmap string Account.t) (email : string)
  : bool :=
  existsb (fun entry => String.eqb (Account.email (snd entry)) email)
    (map_to_list users).

Module Auth.

(** The six [useState] cells of the page, then the item of
    [localStorage] and the calls of [onLoginSuccess], oldest first. *)
Record State :=
  { isLoginView : bool;
    username : string;
    email : string;
    password : string;
    error : option string;
    success : option string;
    stored : option (gmap string Account.t);
    loggedIn : list string }.

Definition setIsLoginView v (s : State) : State :=
  {| isLoginView := v; username := username s; email := email s;
     password := password s; error := error s; success := success s;
     stored := stored s; loggedIn := loggedIn s |}.
Definition setUsername v (s : State) : State :=
  {| isLoginView := isLoginView s; username := v; email := email s;
     password := password s; error := error s; success := success s;
     stored := stored s; loggedIn := loggedIn s |}.
Definition setEmail v (s : State) : State :=
  {| isLoginView := isLoginView s; username := username s; email := v;
     password := password s; error := error s; success := success s;
     stored := stored s; loggedIn := loggedIn s |}.
Definition setPassword v (s : State) : State :=
  {| isLoginView := isLoginView s; username := username s; email := email s;
     password := v; error := error s; success := success s;
     stored := stored s; loggedIn := loggedIn s |}.
Definition setError v (s : State) : State :=
  {| isLoginView := isLoginView s; username := username s; email := email s;
     password := password s; error := v; success := success s;
     stored := stored s; loggedIn := loggedIn s |}.
Definition setSuccess v (s : State) : State :=
  {| isLoginView := isLoginView s; username := username s; email := email s;
     password := password s; error := error s; success := v;
     stored := stored s; loggedIn := loggedIn s |}.
(** [localStorage.setItem('users', JSON.stringify(newUsers))] *)
Definition setItem (newUsers : gmap string Account.t) (s : State) : State :=
  {| isLoginView := isLoginView s; username := username s; email := email s;
     password := password s; error := error s; success := success s;
     stored := Some newUsers; loggedIn := loggedIn s |}.
(** [onLoginSuccess(username)] *)
Definition onLoginSuccess (name : string) (s : State) : State :=
  {| isLoginView := isLoginView s; username := username s; email := email s;
     password := password s; error := error s; success := success s;
     stored := stored s; loggedIn := loggedIn s ++ [name] |}.

(** [JSON.parse(localStorage.getItem('users') || '{}')], when it goes
    through. *)
Definition users (s : State) : gmap string Account.t := default ∅ (stored s).

(** The [catch] block. *)
Definition storageFailed (s : State) : State :=
  setError
    (Some "A local storage error occurred. Please enable cookies/storage and try again.")
    s.

(** [handleAuthAction]. [validEmail] is the test of the pattern
    [/^\S+@\S+\.\S+$/]; [readable] and [writable] tell whether reading the
    item and parsing it, and writing the item, go through rather than
    throw. *)
Definition handleAuthAction (validEmail : string -> bool)
  (readable writable : bool) (s : State) : State :=
  let s := setError None s in
  let s := setSuccess None s in
  if negb (truthy (username s)) || negb (truthy (password s)) then
    setError (Some "Username and password are required.") s
  else if negb readable then storageFailed s
  else if isLoginView s then
    match property (users s) (username s) with
    | Own account =>
        if String.eqb (Account.password account) (password s)
        then onLoginSuccess (username s) s
        else setError (Some "Invalid username or password.") s
    | Inherited | Undefined =>
        setError (Some "Invalid username or password.") s
    end
  else if negb (truthy (email s)) then
    setError (Some "Email is required for signup.") s
  else if negb (validEmail (email s)) then
    setError (Some "Please enter a valid email address.") s
  else
    match property (users s) (username s) with
    | Own _ | Inherited => setError (Some "Username already exists.") s
    | Undefined =>
        if emailExists (users s) (email s) then
          setError (Some "An account with this email already exists.") s
        else if negb writable then storageFailed s
        else
          let newUsers :=
            <[username s := {| Account.password := password s;
                               Account.email := email s |}]> (users s) in
          let s := setItem newUsers s in
          let s := setSuccess
                     (Some "Account created successfully! Please log in.") s in
          let s := setIsLoginView true s in
          let s := setUsername EmptyString s in
          let s := setPassword EmptyString s in
          setEmail EmptyString s
    end.

(** The link under the form. *)
Definition switchView (s : State) : State :=
  setSuccess None (setError None (setIsLoginView (negb (isLoginView s)) s)).

(** What the visitor does on the page: type into a field, follow the link
    under the form, send the form. *)
Inductive Event :=
  | TypeUsername (v : string)
  | TypeEmail (v : string)
  | TypePassword (v : string)
  | SwitchView
  | Submit (readable writable : bool).

Definition step (validEmail : string -> bool) (s : State) (e : Event)
  : State :=
  match e with
  | TypeUsername v => setUsername v s
  | TypeEmail v => setEmail v s
  | TypePassword v => setPassword v s
  | SwitchView => switchView s
  | Submit readable writable =>
      handleAuthAction validEmail readable writable s
  end.

Definition visit (validEmail : string -> bool) (events : list Event)
  (s : State) : State :=
  fold_left (step validEmail) events s.

(** The page as it is mounted over what the storage holds. *)
Definition mounted (item : option (gmap string Account.t)) : State :=
  {| isLoginView := true; username := EmptyString; email := EmptyString;
     password := EmptyString; error := None; success := None;
     stored := item; loggedIn := [] |}.

End Auth.

(** No two accounts have the same address. *)
Definition uniqueEmails (users : gmap string Account.t) : Prop :=
  forall name1 name2 account1 account2,
    users !! name1 = Some account1 ->
    users !! name2 = Some account2 ->
    Account.email account1 = Account.email account2 ->
    name1 = name2.

(** No account is kept under a name that every object inherits. *)
Definition noInheritedName (users : gmap string Account.t) : Prop :=
  forall name, name ∈ inheritedNames -> users !! name = None.

(** A pattern for the samples: an at sign somewhere. *)
Definition hasAtSign (address : string) : bool :=
  match index 0 "@" address with
  | Some _ => true
  | None => false
  end.

(** The sign-up view, filled in, over an empty storage. *)
Definition signUpForm : Auth.State :=
  Auth.visit hasAtSign
    [Auth.SwitchView; Auth.TypeUsername "ada";
     Auth.TypeEmail "ada@example.org"; Auth.TypePassword "s3cret"]
    (Auth.mounted None).

(** ** The frames of a video (extractFramesFromVideo) *)

Module Frame.
(** An entry of the [frames] array. [data] is [undefined] when the data
    URL has no comma. *)
Record t := { data : option string; mimeType : string }.
End Frame.

(** The character [,]. *)
Definition comma : Ascii.ascii := Ascii.ascii_of_nat 44.

(** No character of the string is a comma. *)
Fixpoint commaFree (s : string) : bool :=
  match s with
  | EmptyString => true
  | String c rest =>
      if Ascii.ascii_dec comma c then false else commaFree rest
  end.

Module Extraction.

(** How the promise has settled: [resolve(frames)] hands over the
    [frames] array itself, not a copy of it, so that a promise that has
    resolved holds whatever the array holds; [reject] hands over a
    string. *)
Inductive Settlement :=
  | Fulfilled
  | Broken (reason : string).

(** What the promise and the two elements hold while the frames are
    taken: how the promise has settled, if it has; the [frames] array;
    [capturedFrames] of the [onseeked] handler that is installed, if one
    is; the positions asked of the video, each [k] standing for
    [currentTime = k * interval]; and the calls of
    [URL.revokeObjectURL]. *)
Record State :=
  { promise : option Settlement;
    frames : list Frame.t;
    capturedFrames : option nat;
    seeks : list nat;
    revoked : nat }.

(** What the one who awaits the promise holds: the array as it is now,
    or the reason of the rejection. *)
Definition settled (s : State) : option (Outcome (list Frame.t)) :=
  match promise s with
  | Some Fulfilled => Some (Resolved (frames s))
  | Some (Broken reason) => Some (Rejected (JsReason reason))
  | None => None
  end.

(** What the browser tells the video element: the metadata is there, of
    a live stream ([duration === Infinity]) or not; a seek has ended, and
    the canvas then encodes to [dataUrl]; the file cannot be loaded. *)
Inductive Event :=
  | LoadedMetadata (live : bool)
  | Seeked (dataUrl : string)
  | Failed.

(** [resolve] and [reject]: a promise settles once. *)
Definition settle (how : Settlement) (s : State) : State :=
  {| promise := Some (default how (promise s)); frames := frames s;
     capturedFrames := capturedFrames s; seeks := seeks s;
     revoked := revoked s |}.

(** [video.currentTime = time] *)
Definition captureFrame (k : nat) (s : State) : State :=
  {| promise := promise s; frames := frames s;
     capturedFrames := capturedFrames s; seeks := seeks s ++ [k];
     revoked := revoked s |}.

Definition revokeObjectURL (s : State) : State :=
  {| promise := promise s; frames := frames s;
     capturedFrames := capturedFrames s; seeks := seeks s;
     revoked := S (revoked s) |}.

(** [const [, data] = dataUrl.split(','); frames.push({ data, mimeType:
    'image/jpeg' })]: [data] is the second of the pieces between the
    commas. *)
Definition frameOf (dataUrl : string) : Frame.t :=
  {| Frame.data := splitOn "," dataUrl !! 1%nat;
     Frame.mimeType := "image/jpeg" |}.

(** [video.onloadedmetadata] *)
Definition onloadedmetadata (live : bool) (s : State) : State :=
  if live then
    settle (Broken "Cannot extract frames from a live stream.") s
  else
    captureFrame 0
      {| promise := promise s; frames := frames s;
         capturedFrames := Some 0%nat; seeks := seeks s;
         revoked := revoked s |}.

(** [video.onseeked], once it is installed. [context] tells whether the
    canvas gave a 2d context. *)
Definition onseeked (frameCount : nat) (context : bool) (dataUrl : string)
  (s : State) : State :=
  match capturedFrames s with
  | None => s
  | Some captured =>
      if context && (captured <? frameCount)%nat then
        let s :=
          {| promise := promise s; frames := frames s ++ [frameOf dataUrl];
             capturedFrames := Some (S captured); seeks := seeks s;
             revoked := revoked s |} in
        if (frameCount <=? S captured)%nat
        then settle Fulfilled (revokeObjectURL s)
        else captureFrame (S captured) s
      else s
  end.

(** [video.onerror] *)
Definition onerror (s : State) : State :=
  revokeObjectURL
    (settle (Broken "Error loading video file for frame extraction.") s).

Definition step (frameCount : nat) (context : bool) (s : State) (e : Event)
  : State :=
  match e with
  | LoadedMetadata live => onloadedmetadata live s
  | Seeked dataUrl => onseeked frameCount context dataUrl s
  | Failed => onerror s
  end.

(** The promise as it is returned: pending, no frame, no handler for the
    seeks. *)
Definition started : State :=
  {| promise := None; frames := []; capturedFrames := None; seeks := [];
     revoked := 0 |}.

(** [extractFramesFromVideo(videoFile, frameCount)], over what the browser
    then tells the video element. *)
Definition extractFramesFromVideo (frameCount : nat) (context : bool)
  (events : list Event) : State :=
  fold_left (step frameCount context) events started.

End Extraction.

(** ** Snapshots *)

(** A check that holds of every entry holds of the status of any agent. *)
Lemma statusOf_forallb (P : AgentStatus -> bool) ps :
  forallb (fun e => P (status (snd e))) ps = true ->
  forall a st, statusOf a ps = Some st -> P st = true.
Proof.
  unfold statusOf. induction ps as [|[k x] rest IH]; intros Hall a st Hst.
  - discriminate Hst.
  - cbn in Hall. apply andb_prop in Hall as [Hx Hrest].
    cbn in Hst. destruct (AgentName_eqb k a).
    + cbn in Hst. injection Hst as <-. exact Hx.
    + exact (IH Hrest a st Hst).
Qed.

Lemma statusOf_never (P : AgentStatus -> bool) (bad : AgentStatus) ps :
  P bad = false ->
  forallb (fun e => P (status (snd e))) ps = true ->
  forall a, statusOf a ps <> Some bad.
Proof.
  intros Hbad Hall a Hst.
  rewrite (statusOf_forallb P ps Hall a bad Hst) in Hbad. discriminate Hbad.
Qed.

(** A snapshot with the six keys gives every agent a status. *)
Lemma statusOf_stages ps a :
  map fst ps = stages -> is_Some (statusOf a ps).
Proof.
  unfold stages, statusOf. intros Hkeys.
  repeat (destruct ps as [|[? ?] ps]; [discriminate Hkeys|]).
  destruct ps; [|discriminate Hkeys].
  cbn in Hkeys. simplify_eq. destruct a; cbn; by eexists.
Qed.

Lemma statusOf_all (P : AgentStatus -> bool) ps :
  map fst ps = stages ->
  forallb (fun e => P (status (snd e))) ps = true ->
  forall a, exists st, statusOf a ps = Some st /\ P st = true.
Proof.
  intros Hkeys Hall a.
  destruct (statusOf_stages ps a Hkeys) as [st Hst].
  exists st. split; [exact Hst|].
  exact (statusOf_forallb P ps Hall a st Hst).
Qed.

(** ** Strings and lists *)

Lemma append_cons a (x y : string) : String a x +:+ y = String a (x +:+ y).
Proof. reflexivity. Qed.

Lemma append_nil_r (x : string) : x +:+ EmptyString = x.
Proof. induction x as [|a x IH]; [reflexivity|]. rewrite append_cons, IH. reflexivity. Qed.

Lemma append_assoc (x y z : string) : (x +:+ y) +:+ z = x +:+ (y +:+ z).
Proof.
  induction x as [|a x IH]; [reflexivity|].
  rewrite !append_cons, IH. reflexivity.
Qed.

Lemma joined_cons c cs : joined (c :: cs) = c +:+ joined cs.
Proof. reflexivity. Qed.

Lemma effectsSince_app s s' tr :
  effects s' = (effects s ++ tr)%list -> effectsSince s s' = tr.
Proof. unfold effectsSince. intros ->. apply drop_app_length. Qed.

(** ** Rules of the symbolic run *)

Lemma wp_bind {A B} (m : M A) (k : A -> M B) Q r :
  wp m (fun o r' => match o with
                    | Resolved a => wp (k a) Q r'
                    | Rejected e => Q (Rejected e) r'
                    end) r ->
  wp (bind m k) Q r.
Proof. unfold wp, bind. destruct (m r) as [[a|e] r']; simpl; auto. Qed.

Lemma wp_tryCatch {A} (m : M A) (h : Thrown -> M A) Q r :
  wp m (fun o r' => match o with
                    | Resolved a => Q (Resolved a) r'
                    | Rejected e => wp (h e) Q r'
                    end) r ->
  wp (tryCatch m h) Q r.
Proof. unfold wp, tryCatch. destruct (m r) as [[a|e] r']; simpl; auto. Qed.

Lemma wp_ret {A} (a : A) Q r : Q (Resolved a) r -> wp (ret a) Q r.
Proof. auto. Qed.

Lemma wp_throw {A} e (Q : Outcome A -> Run -> Prop) r :
  Q (Rejected e) r -> wp (throw e) Q r.
Proof. auto. Qed.

Lemma wp_await {A} (o : Outcome A) Q r : Q o r -> wp (await o) Q r.
Proof. auto. Qed.

Lemma wp_react f Q r : Q (Resolved tt) (snd (react f r)) -> wp (react f) Q r.
Proof. auto. Qed.

Lemma wp_record f Q r : Q (Resolved tt) (snd (record f r)) -> wp (record f) Q r.
Proof. auto. Qed.

Lemma wp_update a st d ps Q r :
  assign a {| status := st; details := Some d |} (currentPipelineState r) = ps ->
  Q (Resolved tt) (tracked ps r) ->
  wp (updateAndTrackStatus a st d) Q r.
Proof. intros <-. auto. Qed.

Lemma wp_cooldown Q r : Q (Resolved tt) r -> wp cooldown Q r.
Proof. auto. Qed.

Lemma wp_results v Q r :
  currentAnalysisResults r = v -> Q (Resolved v) r -> wp results Q r.
Proof. intros <-. auto. Qed.

Lemma wp_snapshot v Q r :
  currentPipelineState r = v -> Q (Resolved v) r -> wp snapshot Q r.
Proof. intros <-. auto. Qed.

Lemma wp_if_true {A} (c : bool) (a b : M A) Q r :
  c = true -> wp a Q r -> wp (if c then a else b) Q r.
Proof. intros ->. auto. Qed.

Lemma wp_if_false {A} (c : bool) (a b : M A) Q r :
  c = false -> wp b Q r -> wp (if c then a else b) Q r.
Proof. intros ->. auto. Qed.

(** The loop over the report stream, in closed form: the report shown
    grows by the chunks, and so does the local copy. *)
Lemma consumeReport_closed cs : forall fullReport shown r,
  finalReport (ui r) = Some shown ->
  consumeReport cs fullReport r =
    (Resolved (fullReport +:+ joined cs),
     snd (react (setFinalReport (Some (shown +:+ joined cs))) r)).
Proof.
  induction cs as [|chunk rest IH]; intros fullReport shown r Hshown.
  - cbn. rewrite !append_nil_r.
    destruct r as [ps res s]; destruct s; cbn in *. subst. reflexivity.
  - cbn [consumeReport]. unfold bind at 1. cbn [react].
    erewrite IH.
    2:{ cbn. rewrite Hshown. cbn. reflexivity. }
    rewrite joined_cons, <- !append_assoc. reflexivity.
Qed.

Lemma wp_consumeReport cs fullReport shown Q r :
  finalReport (ui r) = Some shown ->
  Q (Resolved (fullReport +:+ joined cs))
    (snd (react (setFinalReport (Some (shown +:+ joined cs))) r)) ->
  wp (consumeReport cs fullReport) Q r.
Proof. intros H HQ. unfold wp. rewrite (consumeReport_closed _ _ _ _ H). exact HQ. Qed.

Lemma checkMisinformationLog_shape hostname i w s :
  exists mw,
    checkMisinformationLog hostname i w (setMisinformationWarning None s)
    = setMisinformationWarning mw s.
Proof.
  unfold checkMisinformationLog.
  destruct (truthy (submittedUrl i)); [|by eexists].
  destruct (hostname (submittedUrl i)); [|by eexists].
  destruct (memoryLookup w) as [[rec|]|]; by eexists.
Qed.

Lemma runStarted_shape hostname i w s :
  exists mw, runStarted hostname i w s = startedWith mw i s.
Proof.
  destruct (checkMisinformationLog_shape hostname i w s) as [mw Hmw].
  exists mw. unfold runStarted, startedWith. rewrite Hmw. reflexivity.
Qed.

(** A property of the state the handler returns follows from the symbolic
    run of the [try] block and of its [catch]. *)
Lemma handleRunPipeline_wp gf hostname (P : AppState -> Prop) i w s :
  noInput i = false ->
  (forall mw,
     wp (tryCatch (pipelineBody hostname i w) (pipelineFailed gf))
       (fun _ r => P (setIsLoading false (ui r))) (startedWith mw i s)) ->
  P (handleRunPipeline gf hostname i w s).
Proof.
  intros Hin Hwp. unfold handleRunPipeline. rewrite Hin.
  unfold runSettled.
  destruct (runStarted_shape hostname i w s) as [mw ->].
  exact (Hwp mw).
Qed.

(** The symbolic run follows the program in its order. An answer of a
    collaborator or an input that is tested splits the run in two; a test
    on what the run has computed so far is decided by computation; a
    snapshot is computed when it is published, so that the state of the
    run stays small. *)
Ltac wp_split x :=
  lazymatch x with
  | Z.ltb _ _ => destruct x eqn:?
  | findRunning _ => let x' := eval vm_compute in x in change x with x'
  | _ =>
      let x' := eval cbn in x in
      change x with x';
      lazymatch x' with
      | truthy ?y => destruct y eqn:?
      | _ => destruct x' eqn:?
      end
  end.

Ltac wp_step :=
  lazymatch goal with
  | |- wp (bind _ _) _ _ => apply wp_bind
  | |- wp (tryCatch _ _) _ _ => apply wp_tryCatch
  | |- wp (ret _) _ _ => apply wp_ret; cbv beta iota
  | |- wp (throw _) _ _ => apply wp_throw; cbv beta iota
  | |- wp cooldown _ _ => apply wp_cooldown; cbv beta iota
  | |- wp (react (prependHistory ?w _)) _ _ =>
      unfold prependHistory; destruct (historySaved w) eqn:?
  | |- wp (react _) _ _ => apply wp_react; cbv beta iota
  | |- wp (record _) _ _ => apply wp_record; cbv beta iota
  | |- wp (updateAndTrackStatus ?a ?st ?d) _ ?r =>
      let ps :=
        eval vm_compute in
          (assign a {| status := st; details := Some d |}
             (currentPipelineState r)) in
      apply (wp_update a st d ps); [vm_compute; reflexivity|]; cbv beta iota
  | |- wp results _ _ => eapply wp_results; [cbn; reflexivity|]; cbv beta iota
  | |- wp snapshot _ _ =>
      eapply wp_snapshot; [vm_compute; reflexivity|]; cbv beta iota
  | |- wp (consumeReport _ _) _ _ =>
      eapply wp_consumeReport; [cbn; reflexivity|]; cbv beta iota
  | |- wp (await ?o) _ _ => apply wp_await; wp_split o; cbv beta iota
  | |- wp (if ?c then _ else _) _ _ =>
      first [ apply wp_if_true; [reflexivity|]
            | apply wp_if_false; [reflexivity|]
            | wp_split c; cbv beta iota ]
  | |- wp (match ?x with _ => _ end) _ _ => wp_split x; cbv beta iota
  | |- wp (let x := _ in _) _ _ => cbv zeta
  | |- wp (readImage _ _) _ _ => unfold readImage
  | |- wp (contentIngestion _ _ _) _ _ => unfold contentIngestion
  | |- wp (textualAnalysis _) _ _ => unfold textualAnalysis
  | |- wp (emotionAnalysis _) _ _ => unfold emotionAnalysis
  | |- wp (visualAnalysis _ _ _) _ _ => unfold visualAnalysis
  | |- wp (sourceIntelligence _ _) _ _ => unfold sourceIntelligence
  | |- wp (finalSynthesis _ _) _ _ => unfold finalSynthesis
  | |- wp (earlierStages _ _ _) _ _ => unfold earlierStages
  | |- wp (pipelineBody _ _ _) _ _ => unfold pipelineBody
  | |- wp (pipelineFailed _ _) _ _ => unfold pipelineFailed
  end.

Ltac wp_run := repeat wp_step.

(** No entry of a snapshot that computes has the status [bad]. *)
Ltac never bad :=
  apply (statusOf_never (fun st => negb (AgentStatus_eqb bad st)) bad);
  [reflexivity | vm_compute; reflexivity].

(** The log of a state that computes, as the log before and what came
    after it. *)
Ltac log_since :=
  erewrite effectsSince_app by (cbn; rewrite <- ?app_assoc; reflexivity).

(** ** The pipeline *)

Lemma earlierStages_quiet hostname i w s mw :
  wp (earlierStages hostname i w)
    (fun o r => o = Resolved tt -> quiet s r) (startedWith mw i s).
Proof.
  wp_run.
  all: intros Hres; try discriminate Hres.
  all: split; [reflexivity|]; split; [reflexivity|];
    split; [reflexivity|]; split; [never ERROR|]; split; [reflexivity|].
  all: eexists; split; [cbn; rewrite <- ?app_assoc; reflexivity|].
  all: cbn; repeat constructor; vm_compute; discriminate.
Qed.

Lemma finalSynthesis_no_data i w r :
  textual (currentAnalysisResults r) = None ->
  visual (currentAnalysisResults r) = None ->
  finalSynthesis i w r = (Rejected noDataError, r).
Proof.
  intros Ht Hv. unfold finalSynthesis, bind, results.
  rewrite Ht, Hv. reflexivity.
Qed.

Lemma pipelineFailed_idle gf e r :
  findRunning (currentPipelineState r) = None ->
  pipelineFailed gf e r
  = (Resolved tt,
     snd (react (setError (Some ("Pipeline failed: " +:+ gf e))) r)).
Proof.
  intros Hrun. unfold pipelineFailed, bind, snapshot. rewrite Hrun.
  reflexivity.
Qed.

(** A run that reaches the synthesis with neither a textual nor a visual
    result: the state the handler returns. *)
Lemma no_data_run gf hostname i w s r :
  noInput i = false ->
  earlierStages hostname i w (runStarted hostname i w s) = (Resolved tt, r) ->
  textual (currentAnalysisResults r) = None ->
  visual (currentAnalysisResults r) = None ->
  quiet s r
  /\ handleRunPipeline gf hostname i w s
     = setIsLoading false
         (setError (Some ("Pipeline failed: " +:+ gf noDataError)) (ui r)).
Proof.
  intros Hin Hearly Ht Hv.
  assert (Hq : quiet s r).
  { destruct (runStarted_shape hostname i w s) as [mw Hmw].
    pose proof (earlierStages_quiet hostname i w s mw) as Hq.
    unfold wp in Hq. rewrite <- Hmw, Hearly in Hq. exact (Hq eq_refl). }
  split; [exact Hq|].
  destruct Hq as (_ & _ & Hrun & _).
  unfold handleRunPipeline, runSettled, tryCatch, pipelineBody.
  rewrite Hin. unfold bind. rewrite Hearly.
  rewrite (finalSynthesis_no_data i w r Ht Hv).
  rewrite (pipelineFailed_idle gf noDataError r Hrun). reflexivity.
Qed.





(** What a run does to the history and to the chat. *)
Lemma run_history_and_chat gf hostname i w s :
  let s' := handleRunPipeline gf hostname i w s in
  history s' = ((if completed i s' then [itemOf i w s'] else []) ++ history s)%list
  /\ (completed i s' = true ->
      chatSession s'
      = Some (startFollowUpChat (default EmptyString (finalReport s')))
      /\ chatMessages s' = [briefGreeting]
      /\ isChatLoading s' = false).
Proof.
  cbv zeta. unfold completed.
  destruct (noInput i) eqn:Hin.
  { unfold handleRunPipeline. rewrite Hin. split; [reflexivity|discriminate]. }
  apply (handleRunPipeline_wp gf hostname
           (fun s' =>
              history s'
              = ((if negb false && negb (present (error s'))
                  then [itemOf i w s'] else []) ++ history s)%list
              /\ (negb false && negb (present (error s')) = true ->
                  chatSession s'
                  = Some (startFollowUpChat
                            (default EmptyString (finalReport s')))
                  /\ chatMessages s' = [briefGreeting]
                  /\ isChatLoading s' = false))); [done|].
  intros mw. wp_run.
  all: split; [unfold itemOf, newHistoryItem; cbn; first [reflexivity|congruence]|].
  all: intros Hc; cbn in Hc; try discriminate Hc.
  all: repeat split; reflexivity.
Qed.

(** C1, as amended. A run that had something to work on leaves the six
    stages, none of them Running; when it went through, every stage is
    Completed or Skipped. After a failure the stages that were not reached
    are still Pending. *)
Theorem run_leaves_no_stage_running gf hostname i w s :
  noInput i = false ->
  let s' := handleRunPipeline gf hostname i w s in
  map fst (pipelineState s') = stages
  /\ (forall a, statusOf a (pipelineState s') <> Some RUNNING)
  /\ (error s' = None ->
      forall a, statusOf a (pipelineState s') = Some COMPLETED
                \/ statusOf a (pipelineState s') = Some SKIPPED).
Proof.
  intros Hin. cbv zeta.
  apply (handleRunPipeline_wp gf hostname
           (fun s' =>
              map fst (pipelineState s') = stages
              /\ (forall a, statusOf a (pipelineState s') <> Some RUNNING)
              /\ (error s' = None ->
                  forall a, statusOf a (pipelineState s') = Some COMPLETED
                            \/ statusOf a (pipelineState s') = Some SKIPPED)));
    [done|].
  intros mw. wp_run.
  all: split; [reflexivity|]; split;
    [never RUNNING|].
  all: intros He; cbn in He; try discriminate He.
  all: intros ag;
    match goal with
    | |- statusOf _ ?ps = _ \/ _ =>
        destruct (statusOf_all
                    (fun st => match st with
                               | COMPLETED | SKIPPED => true
                               | _ => false
                               end) ps eq_refl ltac:(vm_compute; reflexivity) ag)
          as (st & -> & Hst)
    end;
    destruct st; try discriminate Hst; auto.
Qed.

Lemma run_leaves_no_stage_running_witness :
  noInput urlOnly = false
  /\ statusOf CONTENT_INGESTION
       (pipelineState
          (handleRunPipeline plainMessage exampleHost urlOnly unreachable
             mounted))
     <> Some RUNNING.
Proof.
  split; [reflexivity|].
  apply (run_leaves_no_stage_running plainMessage exampleHost urlOnly
           unreachable mounted).
  reflexivity.
Defined.

(** C1, as stated, fails: when the scraper cannot be reached the run ends
    with a reported error and five stages are still Pending. *)
Lemma failed_ingestion_leaves_stages_pending :
  let s' :=
    handleRunPipeline plainMessage exampleHost urlOnly unreachable mounted in
  is_Some (error s') /\ ~ everyStageTerminal (pipelineState s').
Proof.
  split; [by eexists|].
  intros Hall. destruct (Hall TEXTUAL_ANALYSIS) as (st & Hst & Hterm).
  vm_compute in Hst. injection Hst as <-. discriminate Hterm.
Qed.





(** C9. In such a run no stage is in Error: the handler finds no Running
    stage to mark, the snapshot is the one the earlier stages left, the
    synthesis is Pending in it, and the run is reported as failed. *)
Theorem no_data_marks_no_stage_error gf hostname i w s r :
  noInput i = false ->
  earlierStages hostname i w (runStarted hostname i w s) = (Resolved tt, r) ->
  textual (currentAnalysisResults r) = None ->
  visual (currentAnalysisResults r) = None ->
  let s' := handleRunPipeline gf hostname i w s in
  (forall a, statusOf a (pipelineState s') <> Some ERROR)
  /\ statusOf FINAL_SYNTHESIS (pipelineState s') = Some PENDING
  /\ pipelineState s' = currentPipelineState r
  /\ is_Some (error s').
Proof.
  intros Hin Hearly Ht Hv.
  destruct (no_data_run gf hostname i w s r Hin Hearly Ht Hv)
    as [(Hshown & _ & _ & Herr & Hfs & _) Hrun].
  cbv zeta. rewrite Hrun. cbn. rewrite Hshown.
  split; [exact Herr|]. split; [exact Hfs|]. split; [reflexivity|].
  by eexists.
Qed.

Lemma no_data_marks_no_stage_error_witness :
  statusOf FINAL_SYNTHESIS
    (pipelineState
       (handleRunPipeline plainMessage exampleHost urlOnly (emptyPage 39)
          mounted))
  = Some PENDING
  /\ statusOf SOURCE_INTELLIGENCE
       (pipelineState
          (handleRunPipeline plainMessage exampleHost urlOnly (emptyPage 39)
             mounted))
     <> Some ERROR.
Proof.
  destruct (no_data_marks_no_stage_error plainMessage exampleHost urlOnly
              (emptyPage 39) mounted
              (snd (earlierStages exampleHost urlOnly (emptyPage 39)
                      (runStarted exampleHost urlOnly (emptyPage 39) mounted)))
              eq_refl eq_refl eq_refl eq_refl) as (Hnone & Hpending & _).
  split; [exact Hpending|apply Hnone].
Defined.

(** C3, as amended. Ingestion ends Skipped, with the reason "No URL or text
    provided", exactly when neither a URL nor a text was submitted and the
    image, if there was one, could be read: an image or a video alone
    leaves it Skipped. With a URL or a text it is never Skipped. *)
Theorem ingestion_skipped_iff_no_url_no_text gf hostname i w s :
  noInput i = false ->
  let s' := handleRunPipeline gf hostname i w s in
  let absent :=
    submittedUrl i = EmptyString /\ textInput i = EmptyString
    /\ (imageFile i = None \/ is_Some (imageRead w)) in
  (agentState CONTENT_INGESTION (pipelineState s')
   = Some {| status := SKIPPED; details := Some "No URL or text provided" |}
   <-> absent)
  /\ (statusOf CONTENT_INGESTION (pipelineState s') = Some SKIPPED -> absent).
Proof.
  intros Hin. cbv zeta.
  apply (handleRunPipeline_wp gf hostname
           (fun s' =>
              (agentState CONTENT_INGESTION (pipelineState s')
               = Some {| status := SKIPPED;
                         details := Some "No URL or text provided" |}
               <-> submittedUrl i = EmptyString /\ textInput i = EmptyString
                   /\ (imageFile i = None \/ is_Some (imageRead w)))
              /\ (statusOf CONTENT_INGESTION (pipelineState s') = Some SKIPPED
                  -> submittedUrl i = EmptyString /\ textInput i = EmptyString
                     /\ (imageFile i = None \/ is_Some (imageRead w)))));
    [done|].
  intros mw. wp_run.
  all: split; [split|]; intros H; cbn in H.
  all: try discriminate H.
  all: try (destruct H as (Hu & Ht & Himg); try discriminate Hu;
            try discriminate Ht;
            destruct Himg as [Himg|[? Himg]]; discriminate Himg).
  all: try reflexivity.
  all: repeat split; try reflexivity; first [left; reflexivity | right; eexists; reflexivity].
Qed.

Lemma ingestion_skipped_iff_no_url_no_text_witness :
  noInput imageOnly = false
  /\ agentState CONTENT_INGESTION
       (pipelineState
          (handleRunPipeline plainMessage exampleHost imageOnly
             (allWell "2025-01-01T00:00:00.000Z") mounted))
     = Some {| status := SKIPPED; details := Some "No URL or text provided" |}.
Proof.
  split; [reflexivity|].
  apply (ingestion_skipped_iff_no_url_no_text plainMessage exampleHost
           imageOnly (allWell "2025-01-01T00:00:00.000Z") mounted);
    [reflexivity|].
  split; [reflexivity|]. split; [reflexivity|]. right. by eexists.
Defined.

(** C3, as stated, fails: an image was submitted, and Ingestion is Skipped. *)
Lemma image_alone_skips_ingestion :
  ~ (noInput imageOnly = false ->
     statusOf CONTENT_INGESTION
       (pipelineState
          (handleRunPipeline plainMessage exampleHost imageOnly
             (allWell "2025-01-01T00:00:00.000Z") mounted))
     <> Some SKIPPED).
Proof. intros H. exact (H eq_refl eq_refl). Qed.

(** C4. When Source Intelligence has produced its result, the run asks the
    memory for one write, of the ingested domain, if the trust score is
    below 40, and for none otherwise: 39 is written, 40 is not. *)
Theorem memory_write_iff_below_threshold gf hostname i w s sr :
  noInput i = false ->
  let s' := handleRunPipeline gf hostname i w s in
  source (analysisResults s') = Some sr ->
  memoryWrites (effectsSince s s')
  = if (trust_score sr <? 40)%Z
    then [{| MisinformationRecord.domain := ingestedDomain (analysisResults s');
             MisinformationRecord.url := submittedUrl i;
             MisinformationRecord.trustScore := trust_score sr;
             MisinformationRecord.timestamp := now w |}]
    else [].
Proof.
  intros Hin. cbv zeta.
  apply (handleRunPipeline_wp gf hostname
           (fun s' =>
              source (analysisResults s') = Some sr ->
              memoryWrites (effectsSince s s')
              = if (trust_score sr <? 40)%Z
                then [{| MisinformationRecord.domain :=
                           ingestedDomain (analysisResults s');
                         MisinformationRecord.url := submittedUrl i;
                         MisinformationRecord.trustScore := trust_score sr;
                         MisinformationRecord.timestamp := now w |}]
                else [])); [done|].
  intros mw. wp_run.
  all: intros Hsr; cbn in Hsr; try discriminate Hsr.
  all: injection Hsr as <-.
  all: log_since.
  all: unfold MISINFORMATION_THRESHOLD in *.
  all: match goal with H : (_ <? _)%Z = _ |- _ => rewrite H end.
  all: cbn; congruence.
Qed.

Lemma memory_write_iff_below_threshold_witness :
  let run score :=
    handleRunPipeline plainMessage exampleHost urlOnly (emptyPage score)
      mounted in
  map MisinformationRecord.domain
    (memoryWrites (effectsSince mounted (run 39%Z))) = ["example.com"]
  /\ memoryWrites (effectsSince mounted (run 40%Z)) = [].
Proof.
  cbv zeta. split.
  - rewrite (memory_write_iff_below_threshold plainMessage exampleHost urlOnly
               (emptyPage 39) mounted
               {| trust_score := 39; source_validity := "Questionable";
                  source_validity_explanation := "Unknown publisher.";
                  evidence := [{| finding := Negative |}] |});
      reflexivity.
  - rewrite (memory_write_iff_below_threshold plainMessage exampleHost urlOnly
               (emptyPage 40) mounted
               {| trust_score := 40; source_validity := "Questionable";
                  source_validity_explanation := "Unknown publisher.";
                  evidence := [{| finding := Negative |}] |});
      reflexivity.
Defined.

(** C5. When the ingestion text is empty (the stage wrote an empty text,
    or it was skipped and wrote none), Textual Analysis and Emotion
    Analysis end Skipped, and no snapshot the run published has either of
    them Running or in Error. *)
Theorem empty_text_skips_analyses gf hostname i w s :
  noInput i = false ->
  let s' := handleRunPipeline gf hostname i w s in
  (exists ing,
     ingestion (analysisResults s') = Some ing /\ text ing = EmptyString)
  \/ (ingestion (analysisResults s') = None
      /\ statusOf CONTENT_INGESTION (pipelineState s') = Some SKIPPED) ->
  agentState TEXTUAL_ANALYSIS (pipelineState s')
  = Some {| status := SKIPPED; details := Some "No text to analyze" |}
  /\ agentState EMOTION_ANALYSIS (pipelineState s')
     = Some {| status := SKIPPED; details := Some "No text to analyze" |}
  /\ Forall (fun ps =>
               statusOf TEXTUAL_ANALYSIS ps <> Some RUNNING
               /\ statusOf TEXTUAL_ANALYSIS ps <> Some ERROR
               /\ statusOf EMOTION_ANALYSIS ps <> Some RUNNING
               /\ statusOf EMOTION_ANALYSIS ps <> Some ERROR)
       (statusFeed (effectsSince s s')).
Proof.
  intros Hin. cbv zeta.
  apply (handleRunPipeline_wp gf hostname
           (fun s' =>
              (exists ing,
                 ingestion (analysisResults s') = Some ing
                 /\ text ing = EmptyString)
              \/ (ingestion (analysisResults s') = None
                  /\ statusOf CONTENT_INGESTION (pipelineState s')
                     = Some SKIPPED) ->
              agentState TEXTUAL_ANALYSIS (pipelineState s')
              = Some {| status := SKIPPED;
                        details := Some "No text to analyze" |}
              /\ agentState EMOTION_ANALYSIS (pipelineState s')
                 = Some {| status := SKIPPED;
                           details := Some "No text to analyze" |}
              /\ Forall (fun ps =>
                           statusOf TEXTUAL_ANALYSIS ps <> Some RUNNING
                           /\ statusOf TEXTUAL_ANALYSIS ps <> Some ERROR
                           /\ statusOf EMOTION_ANALYSIS ps <> Some RUNNING
                           /\ statusOf EMOTION_ANALYSIS ps <> Some ERROR)
                   (statusFeed (effectsSince s s')))); [done|].
  intros mw. wp_run.
  all: intros [(ing & Hing & Htext)|[Hing Hci]]; cbn in Hing;
    try discriminate Hing.
  all: try (injection Hing as <-; discriminate Htext).
  all: try (cbn in Hci; discriminate Hci).
  all: split; [reflexivity|]; split; [reflexivity|].
  all: log_since.
  all: cbn; repeat constructor; vm_compute; discriminate.
Qed.

Lemma empty_text_skips_analyses_witness :
  agentState TEXTUAL_ANALYSIS
    (pipelineState
       (handleRunPipeline plainMessage exampleHost urlOnly (emptyPage 39)
          mounted))
  = Some {| status := SKIPPED; details := Some "No text to analyze" |}.
Proof.
  apply (empty_text_skips_analyses plainMessage exampleHost urlOnly
           (emptyPage 39) mounted); [reflexivity|].
  left. eexists. split; reflexivity.
Defined.

(** ** The comparison *)

Lemma comparison_chunks_report cs : forall s shown,
  comparisonReport s = Some shown ->
  comparisonReport (fold_left comparisonChunk cs s)
  = Some (shown +:+ joined cs).
Proof.
  induction cs as [|chunk rest IH]; intros s shown Hshown; cbn [fold_left].
  - cbn. rewrite append_nil_r. exact Hshown.
  - rewrite (IH _ (shown +:+ chunk)).
    + rewrite joined_cons, append_assoc. reflexivity.
    + unfold comparisonChunk. cbn. rewrite Hshown. reflexivity.
Qed.

(** C6. A comparison stream that fails after some chunks: the error shown
    is "Comparison failed: " and the translated cause, the selection is
    empty, and the report shown is all the chunks that came before the
    failure, put end to end. *)
Theorem comparison_failure_keeps_partial_report gf briefStream err s :
  (2 <= length (selectedHistoryIds s))%nat ->
  failure briefStream = Some err ->
  let s' := handleRunComparison gf briefStream s in
  error s' = Some ("Comparison failed: " +:+ gf err)
  /\ (exists message,
        error s' = Some message
        /\ String.prefix "Comparison failed" message = true)
  /\ selectedHistoryIds s' = []
  /\ comparisonReport s' = Some (joined (chunks briefStream))
  /\ isComparing s' = false.
Proof.
  intros Hsel Hfail. cbv zeta. unfold handleRunComparison.
  destruct (Nat.ltb_spec (length (selectedHistoryIds s)) 2) as [Hlt|_];
    [lia|].
  rewrite Hfail. cbn.
  split; [reflexivity|]. split; [eexists; split; reflexivity|].
  split; [reflexivity|]. split; [|reflexivity].
  rewrite (comparison_chunks_report _ _ EmptyString); reflexivity.
Qed.

Lemma comparison_failure_keeps_partial_report_witness :
  comparisonReport
    (handleRunComparison plainMessage
       {| chunks := ["Both reports "; "agree that"];
          failure := Some (JsError "stream closed") |}
       (setSelectedHistoryIds ["a"; "b"] mounted))
  = Some "Both reports agree that".
Proof.
  apply (comparison_failure_keeps_partial_report plainMessage
           {| chunks := ["Both reports "; "agree that"];
              failure := Some (JsError "stream closed") |}
           (JsError "stream closed")
           (setSelectedHistoryIds ["a"; "b"] mounted)).
  - cbn. lia.
  - reflexivity.
Defined.

(** ** The history *)

Lemma history_runAll gf hostname rs : forall s,
  history (runAll gf hostname rs s)
  = (rev (producedItems gf hostname rs s) ++ history s)%list.
Proof.
  induction rs as [|[i w] rest IH]; intros s; [reflexivity|].
  cbn [runAll producedItems]. rewrite IH.
  destruct (run_history_and_chat gf hostname i w s) as [-> _].
  rewrite rev_app_distr, <- app_assoc.
  destruct (completed i (handleRunPipeline gf hostname i w s)); reflexivity.
Qed.

Lemma producedItems_length gf hostname rs : forall s,
  allCompleted gf hostname rs s = true ->
  length (producedItems gf hostname rs s) = length rs.
Proof.
  induction rs as [|[i w] rest IH]; intros s Hall; [reflexivity|].
  cbn [allCompleted] in Hall. apply andb_prop in Hall as [Hc Hrest].
  cbn [producedItems]. rewrite Hc. cbn. f_equal. exact (IH _ Hrest).
Qed.

(** C7. After a sequence of runs that all went through, the history is the
    items of these runs, the newest first, before what it held; there is
    one item for each run; and a confirmed clear leaves it empty. *)
Theorem history_newest_first gf hostname rs s :
  allCompleted gf hostname rs s = true ->
  let s' := runAll gf hostname rs s in
  history s' = (rev (producedItems gf hostname rs s) ++ history s)%list
  /\ length (producedItems gf hostname rs s) = length rs
  /\ forall removed, history (handleClearHistory true removed s') = [].
Proof.
  intros Hall. cbv zeta.
  split; [apply history_runAll|].
  split; [exact (producedItems_length gf hostname rs s Hall)|].
  intros removed. unfold handleClearHistory.
  destruct removed; reflexivity.
Qed.

Lemma history_newest_first_witness :
  map HistoryItem.id
    (history
       (runAll plainMessage exampleHost
          [(textOnly, allWell "2025-01-01T00:00:00.000Z");
           (urlOnly, allWell "2025-01-02T00:00:00.000Z")] mounted))
  = ["2025-01-02T00:00:00.000Z"; "2025-01-01T00:00:00.000Z"].
Proof.
  rewrite (proj1 (history_newest_first plainMessage exampleHost
                    [(textOnly, allWell "2025-01-01T00:00:00.000Z");
                     (urlOnly, allWell "2025-01-02T00:00:00.000Z")] mounted
                    eq_refl)).
  reflexivity.
Defined.

(** ** The chat *)

Lemma overwriteLastModel_snoc content ms old :
  overwriteLastModel content
    (ms ++ [{| ChatMessage.role := model; ChatMessage.content := old |}])
  = ms ++ [{| ChatMessage.role := model; ChatMessage.content := content |}].
Proof.
  unfold overwriteLastModel. rewrite last_snoc. cbn.
  rewrite length_app. cbn.
  replace (length ms + 1 - 1)%nat with (length ms) by lia.
  rewrite take_app_length. reflexivity.
Qed.

(** The chunk loop touches the transcript only. *)
Lemma sendStreaming_frame cs : forall modelResponse s,
  isChatLoading (sendStreaming cs modelResponse s) = isChatLoading s
  /\ chatSession (sendStreaming cs modelResponse s) = chatSession s
  /\ effects (sendStreaming cs modelResponse s) = effects s.
Proof.
  induction cs as [|chunk rest IH]; intros modelResponse s; [done|].
  cbn [sendStreaming].
  destruct (IH (modelResponse +:+ chunk)
              (setChatMessages
                 (overwriteLastModel (modelResponse +:+ chunk) (chatMessages s))
                 s)) as (-> & -> & ->).
  done.
Qed.

(** The chunk loop leaves the reply gathered so far in the last entry. *)
Lemma sendStreaming_transcript cs : forall modelResponse s ms,
  chatMessages s
  = ms ++ [{| ChatMessage.role := model;
              ChatMessage.content := modelResponse |}] ->
  chatMessages (sendStreaming cs modelResponse s)
  = ms ++ [{| ChatMessage.role := model;
              ChatMessage.content := modelResponse +:+ joined cs |}].
Proof.
  induction cs as [|chunk rest IH]; intros modelResponse s ms Hms.
  - cbn. rewrite append_nil_r. exact Hms.
  - cbn [sendStreaming]. rewrite (IH _ _ ms).
    + rewrite joined_cons, append_assoc. reflexivity.
    + cbn. rewrite Hms. apply overwriteLastModel_snoc.
Qed.








(** ** The comparison, when it goes through *)

Lemma comparison_chunks_frame cs : forall s,
  selectedHistoryIds (fold_left comparisonChunk cs s) = selectedHistoryIds s
  /\ error (fold_left comparisonChunk cs s) = error s
  /\ history (fold_left comparisonChunk cs s) = history s
  /\ effects (fold_left comparisonChunk cs s) = effects s.
Proof.
  induction cs as [|chunk rest IH]; intros s; [done|].
  cbn [fold_left]. destruct (IH (comparisonChunk s chunk)) as (-> & -> & -> & ->).
  done.
Qed.

(** X1. A comparison over at least two selected items whose stream ends
    without a failure shows the chunks put end to end, opens the comparison
    view, leaves compare mode, keeps the selection and the history, shows
    no error, and has asked for one stream, over the items of the history
    whose id is selected. *)
Theorem comparison_success_shows_whole_brief gf briefStream s :
  (2 <= length (selectedHistoryIds s))%nat ->
  failure briefStream = None ->
  let s' := handleRunComparison gf briefStream s in
  comparisonReport s' = Some (joined (chunks briefStream))
  /\ showComparisonView s' = true
  /\ isCompareMode s' = false
  /\ isComparing s' = false
  /\ error s' = None
  /\ selectedHistoryIds s' = selectedHistoryIds s
  /\ history s' = history s
  /\ effectsSince s s'
     = [ComparisonStream
          (filter (fun item => HistoryItem.id item ∈ selectedHistoryIds s)
             (history s))].
Proof.
  intros Hsel Hok. cbv zeta. unfold handleRunComparison.
  destruct (Nat.ltb_spec (length (selectedHistoryIds s)) 2) as [Hlt|_];
    [lia|].
  rewrite Hok. cbn.
  match goal with
  | |- context [fold_left comparisonChunk ?cs ?s0] =>
      destruct (comparison_chunks_frame cs s0) as (Hids & Herr & Hhist & Hlog);
      pose proof (comparison_chunks_report cs s0 EmptyString eq_refl) as Hrep
  end.
  rewrite Hrep, Hids, Herr, Hhist.
  repeat (split; [reflexivity|]).
  apply effectsSince_app. cbn. rewrite Hlog. reflexivity.
Qed.

Lemma comparison_success_shows_whole_brief_witness :
  comparisonReport
    (handleRunComparison plainMessage twoChunks
       (setSelectedHistoryIds ["a"; "b"] mounted))
  = Some "# Brief All clear.".
Proof.
  apply (comparison_success_shows_whole_brief plainMessage twoChunks
           (setSelectedHistoryIds ["a"; "b"] mounted)).
  - cbn. lia.
  - reflexivity.
Defined.

(** ** Picking the items to compare *)

Lemma filter_other_keeps (id : string) (l : list string) :
  id ∉ l -> filter (fun i => i ≠ id) l = l.
Proof.
  induction l as [|x l IH]; intros Hout; [reflexivity|].
  apply not_elem_of_cons in Hout as [Hne Hout].
  rewrite filter_cons_True by (intros ->; by apply Hne).
  rewrite (IH Hout). reflexivity.
Qed.

(** X2. Picking an item for the comparison toggles it and nothing else:
    afterwards the id is selected exactly when it was not before, every
    other id is selected exactly when it was, and a selection without
    repetition stays without repetition. *)
Theorem pick_toggles_one_item id s :
  let picked := selectedHistoryIds (handleSelectItemForCompare id s) in
  (id ∈ picked <-> id ∉ selectedHistoryIds s)
  /\ (forall other, other ≠ id ->
        (other ∈ picked <-> other ∈ selectedHistoryIds s))
  /\ (NoDup (selectedHistoryIds s) -> NoDup picked).
Proof.
  cbv zeta. unfold handleSelectItemForCompare. cbn.
  destruct (bool_decide_reflect (id ∈ selectedHistoryIds s)) as [Hin|Hout].
  - split; [|split].
    + rewrite list_elem_of_filter. split; [intros [Hne _]; by destruct Hne|].
      intros Hout. by destruct Hout.
    + intros other Hne. rewrite list_elem_of_filter.
      split; [intros [_ Hother]; exact Hother|]. intros Hother. by split.
    + apply NoDup_filter.
  - split; [|split].
    + rewrite elem_of_app, list_elem_of_singleton.
      split; [intros _; exact Hout|]. intros _. by right.
    + intros other Hne. rewrite elem_of_app, list_elem_of_singleton.
      split; [intros [Hother|Heq]; [exact Hother|by destruct Hne]|].
      intros Hother. by left.
    + intros Hnd. apply NoDup_app. split; [exact Hnd|]. split.
      * intros x Hx Hx'. apply list_elem_of_singleton in Hx'. congruence.
      * apply NoDup_singleton.
Qed.

(** X3. Picking twice an item that was not selected gives back the
    selection as it was: the comparison cannot be started by picking one
    item twice. *)
Theorem pick_twice_restores_selection gf id briefStream s :
  id ∉ selectedHistoryIds s ->
  let s2 := handleSelectItemForCompare id (handleSelectItemForCompare id s) in
  selectedHistoryIds s2 = selectedHistoryIds s
  /\ (selectedHistoryIds s = [] -> handleRunComparison gf briefStream s2 = s2).
Proof.
  intros Hout. cbv zeta.
  assert (Hsame :
    selectedHistoryIds
      (handleSelectItemForCompare id (handleSelectItemForCompare id s))
    = selectedHistoryIds s).
  { unfold handleSelectItemForCompare. cbn.
    rewrite (bool_decide_eq_false_2 _ Hout).
    rewrite bool_decide_eq_true_2
      by (rewrite elem_of_app, list_elem_of_singleton; by right).
    rewrite filter_app, (filter_other_keeps id _ Hout).
    rewrite filter_cons_False by (intros Hne; by apply Hne).
    rewrite filter_nil. apply app_nil_r. }
  split; [exact Hsame|].
  intros Hempty. unfold handleRunComparison. rewrite Hsame, Hempty.
  reflexivity.
Qed.

Lemma pick_twice_restores_selection_witness :
  selectedHistoryIds
    (handleSelectItemForCompare "b"
       (handleSelectItemForCompare "b"
          (setSelectedHistoryIds ["a"] mounted)))
  = ["a"].
Proof.
  apply (pick_twice_restores_selection plainMessage "b" twoChunks
           (setSelectedHistoryIds ["a"] mounted)).
  cbn. rewrite list_elem_of_singleton. discriminate.
Defined.

(** ** The chat, when the stream fails *)

(** What one send that passes the guard leaves of the transcript. *)
Lemma send_transcript gf message answer s session :
  chatSession s = Some session ->
  isChatLoading s = false ->
  chatMessages (handleSendChatMessage gf message answer s)
  = chatMessages s
    ++ {| ChatMessage.role := user; ChatMessage.content := message |}
    :: match answer with
       | Resolved stream =>
           [{| ChatMessage.role := model;
               ChatMessage.content :=
                 match failure stream with
                 | None => joined (chunks stream)
                 | Some err => "Sorry, an error occurred: " +:+ gf err
                 end |}]
       | Rejected _ => []
       end.
Proof.
  intros Hsession Hidle. unfold handleSendChatMessage, handleSendChatMessageOf.
  rewrite Hsession, Hidle.
  destruct answer as [[cs [err|]]|err]; cbn.
  - unfold sendInFlight.
    rewrite (sendStreaming_transcript cs EmptyString _
               (chatMessages s
                ++ [{| ChatMessage.role := user;
                       ChatMessage.content := message |}]))
      by (cbn; by rewrite <- app_assoc).
    rewrite overwriteLastModel_snoc, <- app_assoc. reflexivity.
  - unfold sendInFlight.
    rewrite (sendStreaming_transcript cs EmptyString _
               (chatMessages s
                ++ [{| ChatMessage.role := user;
                       ChatMessage.content := message |}]))
      by (cbn; by rewrite <- app_assoc).
    rewrite <- app_assoc. reflexivity.
  - unfold overwriteLastModel. rewrite last_snoc. reflexivity.
Qed.

(** What one send leaves of the rest of the chat. *)
Lemma send_frame gf message answer s :
  chatSession (handleSendChatMessage gf message answer s) = chatSession s
  /\ (isChatLoading s = false ->
      isChatLoading (handleSendChatMessage gf message answer s) = false).
Proof.
  unfold handleSendChatMessage, handleSendChatMessageOf.
  destruct (chatSession s) as [session|] eqn:Hsession; [|done].
  destruct (isChatLoading s) eqn:Hloading; [done|].
  split; [|reflexivity]. cbn.
  destruct answer as [[cs [err|]]|err]; cbn; unfold sendInFlight.
  - destruct (sendStreaming_frame cs EmptyString
                (sendOpened (sendRequested session message s)))
      as (_ & -> & _).
    exact Hsession.
  - destruct (sendStreaming_frame cs EmptyString
                (sendOpened (sendRequested session message s)))
      as (_ & -> & _).
    exact Hsession.
  - exact Hsession.
Qed.

(** X4. A chat stream that fails after some chunks: the reply gathered so
    far is replaced by the apology with the translated cause, so the
    transcript grows by the user message and that one model entry, and the
    chat is no longer loading. *)
Theorem chat_stream_failure_replaces_partial_reply gf message cs err s session :
  chatSession s = Some session ->
  isChatLoading s = false ->
  let s' :=
    handleSendChatMessage gf message
      (Resolved {| chunks := cs; failure := Some err |}) s in
  chatMessages s'
  = chatMessages s
    ++ [{| ChatMessage.role := user; ChatMessage.content := message |};
        {| ChatMessage.role := model;
           ChatMessage.content := "Sorry, an error occurred: " +:+ gf err |}]
  /\ isChatLoading s' = false.
Proof.
  intros Hsession Hidle. cbv zeta. split.
  - exact (send_transcript gf message _ s session Hsession Hidle).
  - exact (proj2 (send_frame gf message _ s) Hidle).
Qed.

Lemma chat_stream_failure_replaces_partial_reply_witness :
  map ChatMessage.content
    (chatMessages
       (handleSendChatMessage plainMessage "What is the risk?"
          (Resolved {| chunks := ["The risk "];
                       failure := Some (JsError "stream closed") |})
          (setChatSession (Some (startFollowUpChat "Report A")) mounted)))
  = ["What is the risk?"; "Sorry, an error occurred: stream closed"].
Proof.
  rewrite (proj1 (chat_stream_failure_replaces_partial_reply plainMessage
                    "What is the risk?" ["The risk "]
                    (JsError "stream closed")
                    (setChatSession (Some (startFollowUpChat "Report A"))
                       mounted)
                    (startFollowUpChat "Report A") eq_refl eq_refl)).
  reflexivity.
Defined.

(** X5. A send whose stream cannot be opened: the user message stays in
    the transcript with no reply after it and no error shown, and the chat
    is no longer loading. *)
Theorem chat_rejected_open_leaves_question_unanswered gf message err s session :
  chatSession s = Some session ->
  isChatLoading s = false ->
  let s' := handleSendChatMessage gf message (Rejected err) s in
  chatMessages s'
  = chatMessages s
    ++ [{| ChatMessage.role := user; ChatMessage.content := message |}]
  /\ isChatLoading s' = false
  /\ error s' = error s.
Proof.
  intros Hsession Hidle. cbv zeta. split; [|split].
  - exact (send_transcript gf message _ s session Hsession Hidle).
  - exact (proj2 (send_frame gf message _ s) Hidle).
  - unfold handleSendChatMessage, handleSendChatMessageOf. rewrite Hsession, Hidle. reflexivity.
Qed.

Lemma chat_rejected_open_leaves_question_unanswered_witness :
  map ChatMessage.content
    (chatMessages
       (handleSendChatMessage plainMessage "What is the risk?"
          (Rejected (JsError "offline"))
          (setChatSession (Some (startFollowUpChat "Report A")) mounted)))
  = ["What is the risk?"].
Proof.
  rewrite (proj1 (chat_rejected_open_leaves_question_unanswered plainMessage
                    "What is the risk?" (JsError "offline")
                    (setChatSession (Some (startFollowUpChat "Report A"))
                       mounted)
                    (startFollowUpChat "Report A") eq_refl eq_refl)).
  reflexivity.
Defined.

(** X6. Whatever the sends and their streams, the transcript only grows at
    its end: what it held stays in front, each send adds at most two
    entries, the session stays the same, and a chat that was not loading
    is not loading afterwards. *)
Theorem chat_transcript_only_grows gf sends : forall s,
  let s' := sendAll gf sends s in
  chatMessages s `prefix_of` chatMessages s'
  /\ (length (chatMessages s') <= length (chatMessages s) + 2 * length sends)%nat
  /\ chatSession s' = chatSession s
  /\ (isChatLoading s = false -> isChatLoading s' = false).
Proof.
  induction sends as [|[message answer] rest IH]; intros s; cbv zeta.
  - cbn. split; [reflexivity|]. split; [lia|]. done.
  - cbn [sendAll length].
    destruct (IH (handleSendChatMessage gf message answer s))
      as (Hprefix & Hlength & Hsession & Hidle).
    destruct (send_frame gf message answer s) as [Hsame Hidle1].
    assert (Hone :
      chatMessages s
        `prefix_of` chatMessages (handleSendChatMessage gf message answer s)
      /\ (length (chatMessages (handleSendChatMessage gf message answer s))
          <= length (chatMessages s) + 2)%nat).
    { destruct (chatSession s) as [session|] eqn:Hs;
        [destruct (isChatLoading s) eqn:Hl|].
      - unfold handleSendChatMessage, handleSendChatMessageOf. rewrite Hs, Hl.
        split; [reflexivity|lia].
      - rewrite (send_transcript gf message answer s session Hs Hl).
        split; [by eexists|].
        rewrite length_app. destruct answer as [stream|err]; cbn; lia.
      - unfold handleSendChatMessage, handleSendChatMessageOf. rewrite Hs. split; [reflexivity|lia]. }
    destruct Hone as [Hp1 Hl1].
    split; [by etrans|]. split; [lia|]. split; [congruence|]. auto.
Qed.

(** ** More on the pipeline *)

Lemma runStarted_found hostname i w s :
  runStarted hostname i w s = startedWith (foundWarning hostname i w) i s.
Proof.
  unfold runStarted, startedWith, checkMisinformationLog, foundWarning.
  destruct (truthy (submittedUrl i)); [|reflexivity].
  destruct (hostname (submittedUrl i)); [|reflexivity].
  destruct (memoryLookup w) as [[rec|]|]; reflexivity.
Qed.

Lemma handleRunPipeline_wp_found gf hostname (P : AppState -> Prop) i w s :
  noInput i = false ->
  wp (tryCatch (pipelineBody hostname i w) (pipelineFailed gf))
    (fun _ r => P (setIsLoading false (ui r)))
    (startedWith (foundWarning hostname i w) i s) ->
  P (handleRunPipeline gf hostname i w s).
Proof.
  intros Hin Hwp. unfold handleRunPipeline. rewrite Hin.
  unfold runSettled. rewrite runStarted_found. exact Hwp.
Qed.

(** What a run leaves of the state of the component, by its outcome. *)
Lemma run_summary gf hostname i w s :
  noInput i = false ->
  let s' := handleRunPipeline gf hostname i w s in
  (isLoading s' = false /\ url s' = inputLabel i
   /\ misinformationWarning s' = foundWarning hostname i w
   /\ isCompareMode s' = false /\ selectedHistoryIds s' = []
   /\ comparisonReport s' = None /\ showComparisonView s' = false
   /\ isChatLoading s' = false)
  /\ (if present (error s')
      then chatSession s' = None /\ chatMessages s' = []
           /\ activeAnalysisId s' = None
           /\ storedHistory s' = storedHistory s
           /\ statusOf FINAL_SYNTHESIS (pipelineState s') <> Some COMPLETED
      else finalReport s' = Some (joined (chunks (brief w)))
           /\ activeAnalysisId s' = Some (idClock w)
           /\ storedHistory s'
              = (if historySaved w then Some (history s')
                 else storedHistory s)
           /\ findError (pipelineState s') = None)
  /\ (forall m, error s' = Some m ->
      match findError (pipelineState s') with
      | Some (a, d) => m = stageFailure a d
      | None => exists e, m = "Pipeline failed: " +:+ gf e
      end)
  /\ (countStatus ERROR (pipelineState s') <= 1)%nat
  /\ (statusOf FINAL_SYNTHESIS (pipelineState s') = Some ERROR ->
      finalReport s' = Some (joined (chunks (brief w)))).
Proof.
  intros Hin. cbv zeta.
  apply (handleRunPipeline_wp_found gf hostname
           (fun s' =>
  (isLoading s' = false /\ url s' = inputLabel i
   /\ misinformationWarning s' = foundWarning hostname i w
   /\ isCompareMode s' = false /\ selectedHistoryIds s' = []
   /\ comparisonReport s' = None /\ showComparisonView s' = false
   /\ isChatLoading s' = false)
  /\ (if present (error s')
      then chatSession s' = None /\ chatMessages s' = []
           /\ activeAnalysisId s' = None
           /\ storedHistory s' = storedHistory s
           /\ statusOf FINAL_SYNTHESIS (pipelineState s') <> Some COMPLETED
      else finalReport s' = Some (joined (chunks (brief w)))
           /\ activeAnalysisId s' = Some (idClock w)
           /\ storedHistory s'
              = (if historySaved w then Some (history s')
                 else storedHistory s)
           /\ findError (pipelineState s') = None)
  /\ (forall m, error s' = Some m ->
      match findError (pipelineState s') with
      | Some (a, d) => m = stageFailure a d
      | None => exists e, m = "Pipeline failed: " +:+ gf e
      end)
  /\ (countStatus ERROR (pipelineState s') <= 1)%nat
  /\ (statusOf FINAL_SYNTHESIS (pipelineState s') = Some ERROR ->
      finalReport s' = Some (joined (chunks (brief w)))))); [done|].
  wp_run.
  all: (split; [repeat split; reflexivity|]).
  all: (split; [cbn [present error]; cbn; repeat split; try reflexivity;
                try discriminate; try (rewrite ?Heqb; reflexivity)|]).
  all: (split; [intros m Hm; cbn in Hm; try discriminate Hm;
                injection Hm as <-; cbn;
                first [reflexivity | eexists; reflexivity]|]).
  all: (split; [vm_compute; lia|]).
  all: (intros Hfs; cbn in Hfs; try discriminate Hfs; reflexivity).
Qed.

(** What a run publishes and asks of the memory. *)
Lemma run_feed gf hostname i w s :
  noInput i = false ->
  let s' := handleRunPipeline gf hostname i w s in
  let feed := statusFeed (effectsSince s s') in
  forallb oneAtATime feed = true
  /\ steady feed = true
  /\ last feed = Some (pipelineState s')
  /\ memoryWrites (effectsSince s s')
     = match source (analysisResults s') with
       | Some sr =>
           if (trust_score sr <? 40)%Z
           then [{| MisinformationRecord.domain :=
                      ingestedDomain (analysisResults s');
                    MisinformationRecord.url := submittedUrl i;
                    MisinformationRecord.trustScore := trust_score sr;
                    MisinformationRecord.timestamp := now w |}]
           else []
       | None => []
       end
  /\ (submittedUrl i = EmptyString ->
      source (analysisResults s') = None
      /\ ingestedDomain (analysisResults s') = EmptyString
      /\ statusOf SOURCE_INTELLIGENCE (pipelineState s') <> Some COMPLETED).
Proof.
  intros Hin. cbv zeta.
  apply (handleRunPipeline_wp gf hostname
           (fun s' =>
  forallb oneAtATime (statusFeed (effectsSince s s')) = true
  /\ steady (statusFeed (effectsSince s s')) = true
  /\ last (statusFeed (effectsSince s s')) = Some (pipelineState s')
  /\ memoryWrites (effectsSince s s')
     = match source (analysisResults s') with
       | Some sr =>
           if (trust_score sr <? 40)%Z
           then [{| MisinformationRecord.domain :=
                      ingestedDomain (analysisResults s');
                    MisinformationRecord.url := submittedUrl i;
                    MisinformationRecord.trustScore := trust_score sr;
                    MisinformationRecord.timestamp := now w |}]
           else []
       | None => []
       end
  /\ (submittedUrl i = EmptyString ->
      source (analysisResults s') = None
      /\ ingestedDomain (analysisResults s') = EmptyString
      /\ statusOf SOURCE_INTELLIGENCE (pipelineState s') <> Some COMPLETED)));
    [done|].
  intros mw. wp_run.
  all: log_since.
  all: unfold MISINFORMATION_THRESHOLD in *.
  all: (split; [vm_compute; reflexivity|]).
  all: (split; [vm_compute; reflexivity|]).
  all: (split; [reflexivity|]).
  all: (split; [cbn;
                try match goal with
                    | H : (_ <? _)%Z = _ |- _ => rewrite H
                    end; cbn; congruence|]).
  all: (intros Hurl; try discriminate Hurl;
             repeat split; try reflexivity; vm_compute; discriminate).
Qed.

Lemma findError_none ps :
  findError ps = None -> forall a, statusOf a ps <> Some ERROR.
Proof.
  unfold findError. intros Hnone.
  apply (statusOf_never (fun st => negb (AgentStatus_eqb st ERROR)) ERROR);
    [reflexivity|].
  induction ps as [|[k x] rest IH]; [reflexivity|].
  cbn in Hnone |- *. destruct (AgentStatus_eqb (status x) ERROR); [done|].
  exact (IH Hnone).
Qed.

(** X7. A run that fails leaves no trace in the history, in the storage
    or in the chat: the history and what is stored are as before, there is
    no chat session and no transcript, no analysis is active, and the
    chat is not shown. *)
Theorem failed_run_is_not_recorded gf hostname i w s :
  noInput i = false ->
  let s' := handleRunPipeline gf hostname i w s in
  is_Some (error s') ->
  history s' = history s
  /\ storedHistory s' = storedHistory s
  /\ chatSession s' = None
  /\ chatMessages s' = []
  /\ activeAnalysisId s' = None
  /\ showsChat s' = false
  /\ isLoading s' = false.
Proof.
  intros Hin. cbv zeta. intros [m Hm].
  destruct (run_summary gf hostname i w s Hin) as ((Hload & _) & Hout & _).
  destruct (run_history_and_chat gf hostname i w s) as [Hhist _].
  unfold completed in Hhist. rewrite Hm in Hout, Hhist. cbn in Hout.
  rewrite andb_false_r in Hhist.
  destruct Hout as (Hsession & Hms & Hactive & Hstored & _).
  unfold showsChat. rewrite Hsession, andb_false_r.
  done.
Qed.

Lemma failed_run_is_not_recorded_witness :
  history
    (handleRunPipeline plainMessage exampleHost urlOnly unreachable mounted)
  = [].
Proof.
  apply (failed_run_is_not_recorded plainMessage exampleHost urlOnly
           unreachable mounted eq_refl).
  by eexists.
Defined.

(** X8. The error a run shows names the stage that failed: when a stage is
    in Error, the message is the one of that stage, with the detail the
    stage shows; when the run failed with no stage in Error, the message
    starts with "Pipeline failed: "; a run that shows no error has no
    stage in Error; and never is more than one stage in Error. *)
Theorem run_error_names_failed_stage gf hostname i w s :
  noInput i = false ->
  let s' := handleRunPipeline gf hostname i w s in
  (forall m, error s' = Some m ->
     match findError (pipelineState s') with
     | Some (a, d) => m = stageFailure a d
     | None => exists e, m = "Pipeline failed: " +:+ gf e
     end)
  /\ (error s' = None -> forall a, statusOf a (pipelineState s') <> Some ERROR)
  /\ (countStatus ERROR (pipelineState s') <= 1)%nat.
Proof.
  intros Hin. cbv zeta.
  destruct (run_summary gf hostname i w s Hin)
    as (_ & Hout & Hnames & Hcount & _).
  split; [exact Hnames|]. split; [|exact Hcount].
  intros Hnone. rewrite Hnone in Hout. cbn in Hout.
  destruct Hout as (_ & _ & _ & Hnoerr). exact (findError_none _ Hnoerr).
Qed.

Lemma run_error_names_failed_stage_witness :
  error (handleRunPipeline plainMessage exampleHost urlOnly unreachable mounted)
  = Some (stageFailure CONTENT_INGESTION "fetch failed").
Proof.
  destruct (run_error_names_failed_stage plainMessage exampleHost urlOnly
              unreachable mounted eq_refl) as (Hnames & _).
  rewrite (Hnames (stageFailure CONTENT_INGESTION "fetch failed") eq_refl).
  reflexivity.
Defined.

Lemma forallb_oneAtATime feed :
  forallb oneAtATime feed = true ->
  Forall (fun ps => map fst ps = stages
                    /\ (countStatus RUNNING ps <= 1)%nat) feed.
Proof.
  intros Hall. apply Forall_forall. intros ps Hps.
  apply list_elem_of_In in Hps.
  pose proof (proj1 (forallb_forall oneAtATime feed) Hall ps Hps) as Hone.
  unfold oneAtATime in Hone. apply andb_prop in Hone as [Hkeys Hcount].
  split; [by apply bool_decide_eq_true in Hkeys|by apply Nat.leb_le].
Qed.

(** X9. The snapshots a run publishes, in their order: each holds the six
    stages with at most one of them Running; from one to the next a stage
    that has ended keeps its status and a Running stage does not go back
    to Pending; and the last one is the snapshot the run leaves. *)
Theorem run_drives_one_stage_at_a_time gf hostname i w s :
  noInput i = false ->
  let s' := handleRunPipeline gf hostname i w s in
  let feed := statusFeed (effectsSince s s') in
  Forall (fun ps => map fst ps = stages
                    /\ (countStatus RUNNING ps <= 1)%nat) feed
  /\ steady feed = true
  /\ last feed = Some (pipelineState s').
Proof.
  intros Hin. cbv zeta.
  destruct (run_feed gf hostname i w s Hin) as (Hone & Hsteady & Hlast & _).
  split; [exact (forallb_oneAtATime _ Hone)|]. by split.
Qed.

Lemma run_drives_one_stage_at_a_time_witness :
  steady
    (statusFeed
       (effectsSince mounted
          (handleRunPipeline plainMessage exampleHost urlOnly (emptyPage 39)
             mounted)))
  = true.
Proof.
  apply (run_drives_one_stage_at_a_time plainMessage exampleHost urlOnly
           (emptyPage 39) mounted eq_refl).
Defined.

(** X10. A run without a URL never consults the source: Source
    Intelligence does not complete, there is no source result, nothing is
    written to the memory, and no warning is shown. *)
Theorem run_without_url_leaves_memory_alone gf hostname i w s :
  noInput i = false ->
  submittedUrl i = EmptyString ->
  let s' := handleRunPipeline gf hostname i w s in
  memoryWrites (effectsSince s s') = []
  /\ source (analysisResults s') = None
  /\ statusOf SOURCE_INTELLIGENCE (pipelineState s') <> Some COMPLETED
  /\ misinformationWarning s' = None.
Proof.
  intros Hin Hurl. cbv zeta.
  destruct (run_feed gf hostname i w s Hin) as (_ & _ & _ & Hwrites & Hnourl).
  destruct (Hnourl Hurl) as (Hsource & _ & Hstatus).
  rewrite Hsource in Hwrites.
  destruct (run_summary gf hostname i w s Hin)
    as ((_ & _ & Hwarn & _) & _).
  rewrite Hwarn. unfold foundWarning. rewrite Hurl. done.
Qed.

Lemma run_without_url_leaves_memory_alone_witness :
  memoryWrites
    (effectsSince mounted
       (handleRunPipeline plainMessage exampleHost textOnly
          (allWell "2025-01-01T00:00:00.000Z") mounted))
  = [].
Proof.
  apply (run_without_url_leaves_memory_alone plainMessage exampleHost textOnly
           (allWell "2025-01-01T00:00:00.000Z") mounted eq_refl eq_refl).
Defined.

(** X11. The warning a run leaves is the record the memory holds for the
    host of the submitted URL, whatever warning was shown before: it is
    there exactly when a URL was submitted, the URL parses, and the lookup
    answers with a record. *)
Theorem warning_follows_lookup gf hostname i w s rec :
  noInput i = false ->
  misinformationWarning (handleRunPipeline gf hostname i w s) = Some rec
  <-> truthy (submittedUrl i) = true
      /\ (exists host, hostname (submittedUrl i) = Resolved host)
      /\ memoryLookup w = Resolved (Some rec).
Proof.
  intros Hin.
  destruct (run_summary gf hostname i w s Hin) as ((_ & _ & -> & _) & _).
  unfold foundWarning.
  destruct (truthy (submittedUrl i)); [|split; [done|by intros [? _]]].
  destruct (hostname (submittedUrl i)) as [host|e].
  - destruct (memoryLookup w) as [found|e].
    + split; [intros ->; split; [done|]; split; [by eexists|done]|].
      intros (_ & _ & Hfound). congruence.
    + split; [done|]. intros (_ & _ & Hfound). discriminate Hfound.
  - split; [done|]. intros (_ & [host Hhost] & _). discriminate Hhost.
Qed.

Lemma warning_follows_lookup_witness :
  misinformationWarning
    (handleRunPipeline plainMessage exampleHost urlOnly (emptyPage 39)
       (setMisinformationWarning
          (Some {| MisinformationRecord.domain := "old.example";
                   MisinformationRecord.url := "https://old.example/";
                   MisinformationRecord.trustScore := 10;
                   MisinformationRecord.timestamp := 0 |}) mounted))
  = None.
Proof.
  destruct (misinformationWarning _) as [rec|] eqn:Hwarn; [|reflexivity].
  apply (warning_follows_lookup plainMessage exampleHost urlOnly
           (emptyPage 39) _ rec eq_refl) in Hwarn.
  destruct Hwarn as (_ & _ & Hfound). discriminate Hfound.
Defined.

Lemma bind_ext {A B} (m m' : M A) (k k' : A -> M B) r :
  m r = m' r ->
  (forall a r', k a r' = k' a r') ->
  bind m k r = bind m' k' r.
Proof.
  intros Hm Hk. unfold bind. rewrite Hm.
  destruct (m' r) as [[a|e] r']; [apply Hk|reflexivity].
Qed.

Lemma sourceIntelligence_memoryStored i w o r :
  snd (sourceIntelligence i (withMemoryStored o w) r)
  = snd (sourceIntelligence i w r)
  /\ fst (sourceIntelligence i (withMemoryStored o w) r)
     = fst (sourceIntelligence i w r).
Proof.
  unfold sourceIntelligence, bind, results, cooldown, ret, await, tryCatch.
  cbn -[Z.ltb].
  destruct (truthy (ingestedDomain (currentAnalysisResults r))); [|done].
  destruct (sourceAnswer w) as [sr|e]; [|done].
  destruct (trust_score sr <? MISINFORMATION_THRESHOLD)%Z; [|done].
  destruct o as [[]|eo], (memoryStored w) as [[]|ew]; split; reflexivity.
Qed.

Lemma pipelineBody_memoryStored hostname i w o r :
  pipelineBody hostname i (withMemoryStored o w) r = pipelineBody hostname i w r.
Proof.
  unfold pipelineBody, earlierStages.
  apply bind_ext; [|reflexivity].
  apply bind_ext; [reflexivity|]. intros imageData r1.
  apply bind_ext; [reflexivity|]. intros _ r2.
  apply bind_ext; [reflexivity|]. intros _ r3.
  apply bind_ext; [reflexivity|]. intros _ r4.
  apply bind_ext; [reflexivity|]. intros _ r5.
  destruct (sourceIntelligence_memoryStored i w o r5) as [Hsnd Hfst].
  destruct (sourceIntelligence i (withMemoryStored o w) r5),
    (sourceIntelligence i w r5).
  cbn in Hsnd, Hfst. congruence.
Qed.

(** X12. The run does not depend on whether the write to the memory went
    through: whatever the store answers to [addMisinformationRecord], the
    handler returns the same state. *)
Theorem memory_write_failure_is_ignored gf hostname i w o s :
  handleRunPipeline gf hostname i (withMemoryStored o w) s
  = handleRunPipeline gf hostname i w s.
Proof.
  unfold handleRunPipeline, runSettled, tryCatch.
  change (runStarted hostname i (withMemoryStored o w) s)
    with (runStarted hostname i w s).
  rewrite pipelineBody_memoryStored. reflexivity.
Qed.

(** X13. A run that went through and could not save the history keeps
    its item in the history all the same, and leaves the storage as it
    was; when the save went through, the storage holds the history, and a
    component mounted again over it shows the same history. *)
Theorem history_save_is_best_effort gf hostname i w s :
  let s' := handleRunPipeline gf hostname i w s in
  completed i s' = true ->
  history s' = itemOf i w s' :: history s
  /\ (historySaved w = false -> storedHistory s' = storedHistory s)
  /\ (historySaved w = true ->
      storedHistory s' = Some (history s')
      /\ history (mountEffect true (remounted (storedHistory s')))
         = history s').
Proof.
  cbv zeta. intros Hdone.
  destruct (run_history_and_chat gf hostname i w s) as [Hhist _].
  rewrite Hdone in Hhist. split; [exact Hhist|].
  unfold completed in Hdone. apply andb_prop in Hdone as [Hin Hok].
  apply negb_true_iff in Hin. apply negb_true_iff in Hok.
  destruct (run_summary gf hostname i w s Hin) as (_ & Hout & _).
  rewrite Hok in Hout. destruct Hout as (_ & _ & Hstored & _).
  split; intros Hsaved; rewrite Hsaved in Hstored; [exact Hstored|].
  split; [exact Hstored|]. rewrite Hstored. reflexivity.
Qed.

Lemma history_save_is_best_effort_witness :
  map HistoryItem.id
    (history
       (mountEffect true
          (remounted
             (storedHistory
                (handleRunPipeline plainMessage exampleHost textOnly
                   (allWell "2025-01-01T00:00:00.000Z") mounted)))))
  = ["2025-01-01T00:00:00.000Z"].
Proof.
  destruct (history_save_is_best_effort plainMessage exampleHost textOnly
              (allWell "2025-01-01T00:00:00.000Z") mounted eq_refl)
    as (_ & _ & Hsaved).
  rewrite (proj2 (Hsaved eq_refl)). reflexivity.
Defined.

(** X14. The report a run shows is the chunks of the stream put end to
    end: all of them when the run went through, and then the item at the
    head of the history and the chat session hold the same text; those
    that came before the failure when the stream failed, and then the
    synthesis is in Error and the history is as before. *)
Theorem report_is_the_stream_so_far gf hostname i w s :
  noInput i = false ->
  let s' := handleRunPipeline gf hostname i w s in
  (completed i s' = true ->
   finalReport s' = Some (joined (chunks (brief w)))
   /\ HistoryItem.report <$> head (history s')
      = Some (joined (chunks (brief w)))
   /\ chatSession s' = Some (startFollowUpChat (joined (chunks (brief w))))
   /\ activeAnalysisId s' = Some (idClock w))
  /\ (statusOf FINAL_SYNTHESIS (pipelineState s') = Some ERROR ->
      finalReport s' = Some (joined (chunks (brief w)))
      /\ history s' = history s).
Proof.
  intros Hin. cbv zeta.
  destruct (run_summary gf hostname i w s Hin)
    as (_ & Hout & _ & _ & Hpartial).
  destruct (run_history_and_chat gf hostname i w s) as [Hhist Hchat].
  split.
  - intros Hdone. destruct (Hchat Hdone) as (Hsession & _).
    rewrite Hdone in Hhist.
    unfold completed in Hdone. rewrite Hin in Hdone. cbn in Hdone.
    apply negb_true_iff in Hdone. rewrite Hdone in Hout.
    destruct Hout as (Hreport & Hactive & _).
    rewrite Hhist, Hsession. cbn. rewrite Hreport. done.
  - intros Hfs. split; [exact (Hpartial Hfs)|].
    destruct (present (error (handleRunPipeline gf hostname i w s))) eqn:Herr.
    + unfold completed in Hhist. rewrite Herr, andb_false_r in Hhist.
      exact Hhist.
    + destruct Hout as (_ & _ & _ & Hnoerr).
      by destruct (findError_none _ Hnoerr FINAL_SYNTHESIS).
Qed.

Lemma report_is_the_stream_so_far_witness :
  finalReport
    (handleRunPipeline plainMessage exampleHost textOnly
       (answers (Resolved EmptyString) 80
          {| chunks := ["# Brief"]; failure := Some (JsError "stream closed") |}
          "2025-01-01T00:00:00.000Z") mounted)
  = Some "# Brief".
Proof.
  apply (report_is_the_stream_so_far plainMessage exampleHost textOnly
           (answers (Resolved EmptyString) 80
              {| chunks := ["# Brief"];
                 failure := Some (JsError "stream closed") |}
              "2025-01-01T00:00:00.000Z") mounted eq_refl).
  reflexivity.
Defined.

(** Selecting the id of the item at the head of the history shows that
    item. *)
Lemma select_head_shows_item item rest s :
  history s = item :: rest ->
  let s2 := handleSelectHistory (HistoryItem.id item) s in
  url s2 = HistoryItem.url item
  /\ finalReport s2 = Some (HistoryItem.report item)
  /\ pipelineState s2 = HistoryItem.pipelineState item
  /\ analysisResults s2 = HistoryItem.analysisResults item
  /\ activeAnalysisId s2 = Some (HistoryItem.id item)
  /\ history s2 = item :: rest
  /\ chatMessages s2
     = (if truthy (HistoryItem.report item) then [pastReportGreeting] else [])
  /\ chatSession s2
     = (if truthy (HistoryItem.report item)
        then Some (startFollowUpChat (HistoryItem.report item)) else None).
Proof.
  intros Hhist. cbv zeta. unfold handleSelectHistory. rewrite Hhist.
  cbn [List.find]. rewrite bool_decide_eq_true_2 by reflexivity.
  destruct (truthy (HistoryItem.report item)); repeat split;
    first [reflexivity | exact Hhist].
Qed.

(** X15. Selecting in the history the item of the run that has just gone
    through shows that run again: the same label, report, snapshot and
    results, the item active, the history as it was, and a new chat
    session with the greeting of a past report when the report has text. *)
Theorem selecting_new_item_shows_run_again gf hostname i w s :
  let s' := handleRunPipeline gf hostname i w s in
  let s2 := handleSelectHistory (idClock w) s' in
  completed i s' = true ->
  url s2 = url s'
  /\ finalReport s2 = finalReport s'
  /\ pipelineState s2 = pipelineState s'
  /\ analysisResults s2 = analysisResults s'
  /\ activeAnalysisId s2 = Some (idClock w)
  /\ history s2 = history s'
  /\ chatMessages s2
     = (if truthy (joined (chunks (brief w))) then [pastReportGreeting] else [])
  /\ chatSession s2
     = (if truthy (joined (chunks (brief w)))
        then Some (startFollowUpChat (joined (chunks (brief w)))) else None).
Proof.
  cbv zeta. intros Hdone.
  destruct (run_history_and_chat gf hostname i w s) as [Hhist _].
  rewrite Hdone in Hhist. cbn [app] in Hhist.
  unfold completed in Hdone. apply andb_prop in Hdone as [Hin Hok].
  apply negb_true_iff in Hin. apply negb_true_iff in Hok.
  destruct (run_summary gf hostname i w s Hin) as ((_ & Hurl & _) & Hout & _).
  rewrite Hok in Hout. destruct Hout as (Hreport & _).
  destruct (select_head_shows_item _ _ _ Hhist)
    as (H1 & H2 & H3 & H4 & H5 & H6 & H7 & H8).
  change (HistoryItem.id (itemOf i w (handleRunPipeline gf hostname i w s)))
    with (idClock w) in *.
  change (HistoryItem.report (itemOf i w (handleRunPipeline gf hostname i w s)))
    with (default EmptyString
            (finalReport (handleRunPipeline gf hostname i w s))) in *.
  rewrite Hreport in H2, H7, H8. cbn [default] in H2, H7, H8.
  rewrite H1, H2, H3, H4, H5, H6, H7, H8, Hurl, Hreport, Hhist.
  repeat split; reflexivity.
Qed.

Lemma selecting_new_item_shows_run_again_witness :
  finalReport
    (handleSelectHistory "2025-01-01T00:00:00.000Z"
       (handleRunPipeline plainMessage exampleHost textOnly
          (allWell "2025-01-01T00:00:00.000Z") mounted))
  = Some "# Brief All clear.".
Proof.
  destruct (selecting_new_item_shows_run_again plainMessage exampleHost
              textOnly (allWell "2025-01-01T00:00:00.000Z") mounted eq_refl)
    as (_ & Hreport & _).
  cbn [idClock allWell answers] in Hreport. rewrite Hreport. reflexivity.
Defined.

(** X16. Selecting an id that no item of the history has changes nothing. *)
Theorem selecting_unknown_id_changes_nothing id s :
  Forall (fun h => HistoryItem.id h ≠ id) (history s) ->
  handleSelectHistory id s = s.
Proof.
  intros Hnone. unfold handleSelectHistory.
  destruct (List.find _ (history s)) as [item|] eqn:Hfind; [|reflexivity].
  apply find_some in Hfind as [Hin Hid].
  apply bool_decide_eq_true in Hid.
  rewrite Forall_forall in Hnone.
  destruct (Hnone item (proj2 (list_elem_of_In _ _) Hin) Hid).
Qed.

Lemma selecting_unknown_id_changes_nothing_witness :
  handleSelectHistory "2024-12-31T00:00:00.000Z"
    (handleRunPipeline plainMessage exampleHost textOnly
       (allWell "2025-01-01T00:00:00.000Z") mounted)
  = handleRunPipeline plainMessage exampleHost textOnly
      (allWell "2025-01-01T00:00:00.000Z") mounted.
Proof.
  apply selecting_unknown_id_changes_nothing.
  vm_compute. constructor; [discriminate | constructor].
Defined.

(** X17. After a run the follow-up chat is shown exactly when the run went
    through and its report has text: a run whose stream yields no text is
    recorded in the history and shows neither report nor chat. *)
Theorem chat_is_shown_for_a_report_with_text gf hostname i w s :
  noInput i = false ->
  let s' := handleRunPipeline gf hostname i w s in
  showsChat s' = completed i s' && truthy (joined (chunks (brief w)))
  /\ showsReport s'
     = truthy (default EmptyString (finalReport s'))
  /\ (completed i s' = true -> joined (chunks (brief w)) = EmptyString ->
      showsChat s' = false /\ showsReport s' = false
      /\ length (history s') = S (length (history s))).
Proof.
  intros Hin. cbv zeta.
  destruct (run_summary gf hostname i w s Hin) as ((Hload & _) & Hout & _).
  destruct (run_history_and_chat gf hostname i w s) as [Hhist Hchat].
  unfold showsChat, showsReport. rewrite Hload. cbn [negb].
  rewrite !andb_true_r. unfold completed in *. rewrite Hin in *.
  cbn [negb andb] in *.
  destruct (present (error (handleRunPipeline gf hostname i w s))) eqn:Herr;
    cbn [negb app] in *.
  - destruct Hout as (Hsess & _). rewrite Hsess. cbn [present].
    rewrite andb_false_r. split; [reflexivity|]. split; [reflexivity|].
    discriminate.
  - destruct Hout as (Hreport & _). destruct (Hchat eq_refl) as (Hsess & _).
    rewrite Hsess, Hreport, Hhist. cbn [present default length].
    rewrite andb_true_r. split; [reflexivity|]. split; [reflexivity|].
    intros _ ->. repeat split; reflexivity.
Qed.

Lemma chat_is_shown_for_a_report_with_text_witness :
  showsChat
    (handleRunPipeline plainMessage exampleHost textOnly
       (answers (Resolved EmptyString) 80 {| chunks := []; failure := None |}
          "2025-01-01T00:00:00.000Z") mounted)
  = false.
Proof.
  rewrite (proj1 (chat_is_shown_for_a_report_with_text plainMessage
                    exampleHost textOnly
                    (answers (Resolved EmptyString) 80
                       {| chunks := []; failure := None |}
                       "2025-01-01T00:00:00.000Z") mounted eq_refl)).
  reflexivity.
Defined.

(** ** Clearing the history *)

(** X18. A history that is cleared is gone from the screen, with the
    report and the chat; it is gone for good only if the storage let the
    item be removed: otherwise the component, mounted again, shows the
    history that was stored. A clearing that is not confirmed changes
    nothing. *)
Theorem cleared_history_comes_back_unless_removed removed s :
  let s' := handleClearHistory true removed s in
  history s' = []
  /\ showsReport s' = false /\ showsChat s' = false
  /\ history (mountEffect true (remounted (storedHistory s')))
     = (if removed then [] else default [] (storedHistory s))
  /\ handleClearHistory false removed s = s.
Proof.
  cbv zeta. destruct removed, (storedHistory s) as [stored|] eqn:Hstored;
    unfold handleClearHistory, mountEffect, remounted;
    cbn; rewrite ?Hstored; by repeat split.
Qed.

(** ** The report view *)

Lemma sourceLine_cases trustScore :
  (trustScore < 40 /\ sourceLine trustScore = "Source credibility is low.")%Z
  \/ (40 <= trustScore < 80
      /\ sourceLine trustScore = "Source credibility is moderate.")%Z
  \/ (80 <= trustScore
      /\ sourceLine trustScore = "Source credibility is high.")%Z.
Proof.
  unfold sourceLine. cbv zeta.
  destruct (Z.ltb_spec 60 (100 - trustScore)); [left; split; [lia|done]|].
  destruct (Z.ltb_spec 20 (100 - trustScore)); right;
    [left|right]; (split; [lia|done]).
Qed.

(** The cases of the results that the breakdown tells apart. *)
Ltac risk_cases r :=
  let b := fresh "b" in
  let Hb := fresh "Hb" in
  remember (riskBreakdown r) as b eqn:Hb;
  destruct r as [? [[? [| |] ? ?]|] [[? [| |]]|] [[[|[[| |]] ?]]|] [?|]];
  try match goal with
      | sr : SourceIntelligenceOutput |- _ =>
          destruct (sourceLine_cases (trust_score sr))
            as [[? ?]|[[? ?]|[? ?]]]
      end;
  unfold riskBreakdown in Hb;
  cbn [source emotion visual textual] in Hb |- *;
  try match goal with
      | H : sourceLine _ = _ |- _ => rewrite H in Hb; clear H
      end;
  vm_compute in Hb; subst b.

Ltac not_listed H :=
  repeat (apply elem_of_cons in H as [H|H]; [discriminate H|]);
  apply elem_of_nil in H; destruct H.

Lemma low_line_iff r :
  "Source credibility is low." ∈ riskBreakdown r
  <-> exists sr, source r = Some sr /\ (trust_score sr < 40)%Z.
Proof.
  risk_cases r.
  all: split;
    [ intros Hin;
      first [ eexists; split; [reflexivity|assumption]
            | exfalso; not_listed Hin ]
    | intros (sr0 & Hsr & Hlt);
      first [ discriminate Hsr
            | injection Hsr as <-;
              first [ apply elem_of_cons; left; reflexivity | lia ] ] ].
Qed.

(** X19. The risk meter always lists something, and at most four lines;
    it says that the data is not enough exactly when none of the four
    results is there, and says that there is no significant risk factor
    only alone, and only when there is no source result. *)
Theorem risk_breakdown_is_never_empty r :
  riskBreakdown r <> []
  /\ (length (riskBreakdown r) <= 4)%nat
  /\ (riskBreakdown r = ["Not enough data for risk assessment."]
      <-> source r = None /\ emotion r = None /\ visual r = None
          /\ textual r = None)
  /\ ("No significant risk factors detected." ∈ riskBreakdown r ->
      riskBreakdown r = ["No significant risk factors detected."]
      /\ source r = None).
Proof.
  risk_cases r.
  all: split; [discriminate|].
  all: split; [cbn [length]; lia|].
  all: split;
    [ split; [ try discriminate; done
             | intros (? & ? & ? & ?); try discriminate; done ] | ].
  all: intros Hin; first [ by split | exfalso; not_listed Hin ].
Qed.

(** X20. The negative sentiment of the text is listed only behind another
    factor: the line is there exactly when the sentiment is Negative and
    the source, a manipulation level other than Low or a manipulation
    flag of the first insight other than Low has given a line; a text
    with nothing else, whatever its sentiment, leaves the meter saying
    that there is no significant risk factor. *)
Theorem negative_sentiment_is_listed_behind_another_factor r :
  ("Content has a negative sentiment." ∈ riskBreakdown r
   <-> (exists tr, textual r = Some tr /\ sentiment tr = Negative)
       /\ (is_Some (source r)
           \/ (exists er, emotion r = Some er
                          /\ manipulation_level er <> Low)
           \/ (exists vr insight,
                 visual r = Some vr
                 /\ head (visual_insights vr) = Some insight
                 /\ manipulation_flag insight <> Low)))
  /\ (is_Some (textual r) -> source r = None -> emotion r = None ->
      visual r = None ->
      riskBreakdown r = ["No significant risk factors detected."]).
Proof.
  risk_cases r.
  all: split; [|intros [tr Htr] Hso Hem Hvi; first [discriminate|done]].
  all: split;
    [ intros Hin;
      first
        [ exfalso; not_listed Hin
        | split; [eexists; split; reflexivity|];
          first
            [ left; eexists; reflexivity
            | right; left; eexists; split; [reflexivity|discriminate]
            | right; right; eexists; eexists;
              split; [reflexivity|]; split; [reflexivity|discriminate] ] ]
    | intros [(tr & Htr & Hneg) Hother];
      first
        [ discriminate Htr
        | injection Htr as <-; discriminate Hneg
        | destruct Hother
            as [[? Hso]|[(er & Hem & Hlevel)|(vr & insight & Hvi & Hhd & Hflag)]];
          first
            [ discriminate
            | injection Hem as <-; by destruct Hlevel
            | injection Hvi as <-; injection Hhd as <-; by destruct Hflag
            | injection Hvi as <-; discriminate Hhd
            | repeat (apply elem_of_cons; first [left; reflexivity|right]) ] ] ].
Qed.

(** X21. The memory and the report agree on what a low credibility is: a
    run writes to the memory exactly when the risk meter of its results
    says that the source credibility is low, and the trust badge of a
    score that was written to the memory is red. *)
Theorem memory_records_what_the_report_calls_low gf hostname i w s :
  noInput i = false ->
  let s' := handleRunPipeline gf hostname i w s in
  (memoryWrites (effectsSince s s') <> []
   <-> "Source credibility is low." ∈ riskBreakdown (analysisResults s'))
  /\ Forall
       (fun rec => trustTone (MisinformationRecord.trustScore rec) = Danger)
       (memoryWrites (effectsSince s s')).
Proof.
  intros Hin. cbv zeta.
  destruct (run_feed gf hostname i w s Hin) as (_ & _ & _ & Hwrites & _).
  rewrite Hwrites, low_line_iff.
  destruct (source (analysisResults (handleRunPipeline gf hostname i w s)))
    as [sr|].
  - destruct (Z.ltb_spec (trust_score sr) 40) as [Hlow|Hhigh].
    + split; [split; [intros _; by exists sr|discriminate]|].
      constructor; [|constructor]. cbn. unfold trustTone.
      destruct (Z.leb_spec 80 (trust_score sr)); [lia|].
      destruct (Z.leb_spec 50 (trust_score sr)); [lia|reflexivity].
    + split; [|constructor].
      split; [done|]. intros (sr0 & [= <-] & Hlow). lia.
  - split; [|constructor]. split; [done|]. by intros (sr0 & Hsr & _).
Qed.

Lemma memory_records_what_the_report_calls_low_witness :
  "Source credibility is low."
  ∈ riskBreakdown
      (analysisResults
         (handleRunPipeline plainMessage exampleHost urlOnly (emptyPage 39)
            mounted)).
Proof.
  apply (memory_records_what_the_report_calls_low plainMessage exampleHost
           urlOnly (emptyPage 39) mounted eq_refl).
  vm_compute. discriminate.
Defined.

(** ** The evidence chart *)

Lemma tally_counts evidence : forall acc,
  let counts := fold_left tally evidence acc in
  (default 0 (ofPositive counts) + default 0 (ofNegative counts)
   + default 0 (ofNeutral counts)
   = default 0 (ofPositive acc) + default 0 (ofNegative acc)
     + default 0 (ofNeutral acc) + length evidence)%nat.
Proof.
  induction evidence as [|[[| |]] rest IH]; intros acc; cbv zeta;
    cbn [fold_left length]; [lia| | |]; rewrite IH; cbn; lia.
Qed.

Lemma positive_bars_sum bars :
  sum_list (map Bar.count
              (List.filter (fun item => (0 <? Bar.count item)%nat) bars))
  = sum_list (map Bar.count bars)
  /\ Forall (fun item => (0 < Bar.count item)%nat)
       (List.filter (fun item => (0 <? Bar.count item)%nat) bars).
Proof.
  induction bars as [|bar rest [IHsum IHpos]]; [by split|].
  cbn [List.filter]. destruct (Nat.ltb_spec 0 (Bar.count bar)) as [Hpos|Hzero].
  - split; [cbn [map sum_list_with]; by rewrite IHsum|]. by constructor.
  - split; [|exact IHpos]. cbn [map sum_list_with]. rewrite IHsum.
    unfold id. lia.
Qed.

Lemma kept_bars_in_order (keep : Bar.t -> bool) bars :
  map Bar.name (List.filter keep bars) `sublist_of` map Bar.name bars.
Proof.
  induction bars as [|bar rest IH]; [constructor|].
  cbn [List.filter map]. destruct (keep bar); cbn [map];
    by constructor.
Qed.

(** X22. The evidence chart counts every finding once: there is no chart
    exactly when there is no source result or no evidence; otherwise
    there is at least one bar, every bar counts at least one finding, the
    counts of the bars add up to the number of findings, and the bars
    come in the order Positive, Negative, Neutral. *)
Theorem evidence_bars_count_every_finding r :
  match evidenceData r with
  | None => from_option evidence [] (source r) = []
  | Some bars =>
      bars <> []
      /\ Forall (fun item => (0 < Bar.count item)%nat) bars
      /\ sum_list (map Bar.count bars)
         = length (from_option evidence [] (source r))
      /\ map Bar.name bars `sublist_of` ["Positive"; "Negative"; "Neutral"]
  end.
Proof.
  unfold evidenceData. destruct (source r) as [sr|]; [|reflexivity].
  cbn [from_option].
  destruct (evidence sr) as [|item rest] eqn:Hev; [reflexivity|].
  cbn [length Nat.eqb]. cbv zeta.
  pose proof (tally_counts (item :: rest)
                {| ofPositive := None; ofNegative := None;
                   ofNeutral := None |}) as Hsum.
  cbv zeta in Hsum.
  remember (fold_left tally (item :: rest)
              {| ofPositive := None; ofNegative := None;
                 ofNeutral := None |}) as counts eqn:Hcounts.
  clear Hcounts.
  match goal with
  | |- context [List.filter ?f ?bars] =>
      destruct (positive_bars_sum bars) as [Hkeep Hpos];
      pose proof (kept_bars_in_order f bars) as Hnames;
      remember (List.filter f bars) as kept eqn:Hkept
  end.
  clear Hkept.
  assert (Htotal : sum_list (map Bar.count kept) = length (item :: rest)).
  { rewrite Hkeep.
    destruct counts as [[p|] [n|] [u|]];
      cbn [ofPositive ofNegative ofNeutral from_option id map Bar.count
           sum_list_with] in Hsum |- *; unfold id; lia. }
  split; [|by repeat split].
  intros ->. cbn in Htotal. lia.
Qed.

(** ** The name of the PDF file *)

Lemma splitFrom_pieces separator : forall s skip,
  Forall (fun piece => (String.length piece <= String.length s)%nat)
    (splitFrom separator skip s).
Proof.
  induction s as [|c rest IH]; intros skip; cbn [splitFrom].
  { by repeat constructor. }
  assert (Hweak : forall k,
    Forall (fun piece => (String.length piece <= String.length (String c rest))%nat)
      (splitFrom separator k rest)).
  { intros k. eapply Forall_impl; [apply IH|]. cbn. lia. }
  destruct skip as [|k]; [|apply Hweak].
  destruct (String.prefix separator (String c rest)).
  - constructor; [cbn; lia|apply Hweak].
  - pose proof (IH 0%nat) as Hrest.
    destruct (splitFrom separator 0 rest) as [|piece pieces].
    + constructor; [cbn; lia|constructor].
    + apply Forall_cons in Hrest as [Hpiece Hpieces].
      constructor; [cbn; lia|].
      eapply Forall_impl; [exact Hpieces|]. cbn. lia.
Qed.

Lemma underscored_safe s :
  String.length (underscored s) = String.length s
  /\ Forall (fun c => alphanumeric c = true \/ c = underscore)
       (list_ascii_of_string (underscored s)).
Proof.
  induction s as [|c rest [IHlength IHsafe]]; [by split|].
  cbn [underscored String.length list_ascii_of_string].
  split; [by rewrite IHlength|].
  constructor; [|exact IHsafe].
  destruct (alphanumeric c) eqn:Hc; [by left|by right].
Qed.

(** X23. The name under which the report is saved holds only letters of
    the Latin alphabet, digits and underscores, whatever the address: no
    separator of a path, no dot and no blank; and it is no longer than
    the address, or than the six letters of [report]. *)
Theorem pdf_name_has_only_safe_characters url :
  Forall (fun c => alphanumeric c = true \/ c = underscore)
    (list_ascii_of_string (safeFilename url))
  /\ (String.length (safeFilename url) <= Nat.max (String.length url) 6)%nat.
Proof.
  unfold safeFilename. cbv zeta.
  match goal with
  | |- context [underscored ?s] =>
      destruct (underscored_safe s) as [Hlength Hsafe]; rewrite Hlength
  end.
  split; [exact Hsafe|].
  assert (Hlast :
    (String.length (default EmptyString (last (splitOn "//" url)))
     <= String.length url)%nat).
  { pose proof (splitFrom_pieces "//" url 0) as Hpieces.
    rewrite Forall_forall in Hpieces. unfold splitOn.
    destruct (last (splitFrom "//" 0 url)) as [piece|] eqn:Hpiece;
      [|cbn; lia].
    apply Hpieces. apply last_Some in Hpiece as [front ->].
    apply elem_of_app. right. by apply list_elem_of_singleton. }
  assert (Hname :
    (String.length
       (orElse (default EmptyString (last (splitOn "//" url))) "report")
     <= Nat.max (String.length url) 6)%nat).
  { unfold orElse. destruct (truthy _).
    - etrans; [exact Hlast|apply Nat.le_max_l].
    - apply Nat.le_max_r. }
  match goal with
  | |- context [splitOn "/" ?s] =>
      pose proof (splitFrom_pieces "/" s 0) as Hpieces;
      unfold splitOn at 1;
      destruct (splitFrom "/" 0 s) as [|piece pieces];
      [ apply Nat.le_0_l
      | apply Forall_cons in Hpieces as [Hpiece _];
        etrans; [exact Hpiece|exact Hname] ]
  end.
Qed.

(** ** The sign-in page *)

Lemma emailExists_spec (users : gmap string Account.t) address :
  emailExists users address = true
  <-> exists name account,
        users !! name = Some account /\ Account.email account = address.
Proof.
  unfold emailExists. rewrite existsb_exists. split.
  - intros [[name account] [Hin Heq]]. exists name, account.
    apply list_elem_of_In, elem_of_map_to_list in Hin.
    by apply String.eqb_eq in Heq.
  - intros (name & account & Hget & Heq). exists (name, account).
    split; [by apply list_elem_of_In, elem_of_map_to_list|].
    by apply String.eqb_eq.
Qed.

Lemma property_undefined (users : gmap string Account.t) name :
  property users name = Undefined
  <-> users !! name = None /\ name ∉ inheritedNames.
Proof.
  unfold property. destruct (users !! name) as [account|].
  - split; [discriminate|]. by intros [? _].
  - destruct (bool_decide_reflect (name ∈ inheritedNames)) as [Hin|Hout].
    + split; [discriminate|]. by intros [_ ?].
    + by split.
Qed.

(** What one sending of the form does, by its outcome: a message of
    error and nothing else; a login, under a name whose record holds the
    password typed; or a new account, under a name that gave nothing and
    with an address that no account had. *)
Lemma submit_cases v readable writable s :
  let s' := Auth.handleAuthAction v readable writable s in
  (is_Some (Auth.error s')
   /\ s' = Auth.setError (Auth.error s') (Auth.setSuccess None s))
  \/ (exists account,
        Auth.isLoginView s = true /\ readable = true
        /\ Auth.users s !! Auth.username s = Some account
        /\ Account.password account = Auth.password s
        /\ s' = Auth.onLoginSuccess (Auth.username s)
                  (Auth.setSuccess None (Auth.setError None s)))
  \/ (Auth.isLoginView s = false /\ readable = true /\ writable = true
      /\ truthy (Auth.username s) = true /\ truthy (Auth.password s) = true
      /\ truthy (Auth.email s) = true /\ v (Auth.email s) = true
      /\ Auth.users s !! Auth.username s = None
      /\ (Auth.username s ∉ inheritedNames)
      /\ emailExists (Auth.users s) (Auth.email s) = false
      /\ s' = Auth.setEmail EmptyString
                (Auth.setPassword EmptyString
                   (Auth.setUsername EmptyString
                      (Auth.setIsLoginView true
                         (Auth.setSuccess
                            (Some "Account created successfully! Please log in.")
                            (Auth.setItem
                               (<[Auth.username s :=
                                    {| Account.password := Auth.password s;
                                       Account.email := Auth.email s |}]>
                                  (Auth.users s))
                               (Auth.setError None s))))))).
Proof.
  cbv zeta. unfold Auth.handleAuthAction.
  cbn [Auth.username Auth.password Auth.email Auth.isLoginView
       Auth.setError Auth.setSuccess].
  change (Auth.users (Auth.setSuccess None (Auth.setError None s)))
    with (Auth.users s).
  destruct (truthy (Auth.username s)) eqn:Hname;
    [|left; split; [by eexists|reflexivity]].
  destruct (truthy (Auth.password s)) eqn:Hpass;
    [|left; split; [by eexists|reflexivity]].
  cbn [negb orb].
  destruct readable; [|left; split; [by eexists|reflexivity]].
  cbn [negb].
  destruct (Auth.isLoginView s) eqn:Hview.
  - destruct (property (Auth.users s) (Auth.username s)) as [account| |]
      eqn:Hprop; [|left; split; [by eexists|reflexivity]..].
    destruct (String.eqb_spec (Account.password account) (Auth.password s))
      as [Hsame|Hother]; [|left; split; [by eexists|reflexivity]].
    right. left. exists account. unfold property in Hprop.
    destruct (Auth.users s !! Auth.username s) as [found|] eqn:Hfound;
      [|by destruct (bool_decide _)].
    injection Hprop as ->. done.
  - destruct (truthy (Auth.email s)) eqn:Hmail;
      [|left; split; [by eexists|reflexivity]].
    cbn [negb].
    destruct (v (Auth.email s)) eqn:Hvalid;
      [|left; split; [by eexists|reflexivity]].
    cbn [negb].
    destruct (property (Auth.users s) (Auth.username s)) as [account| |]
      eqn:Hprop; [left; split; [by eexists|reflexivity]..|].
    apply property_undefined in Hprop as [Hfree Hnew].
    destruct (emailExists (Auth.users s) (Auth.email s)) eqn:Hused;
      [left; split; [by eexists|reflexivity]|].
    destruct writable; [|left; split; [by eexists|reflexivity]].
    right. right. done.
Qed.

(** Sending the form adds at most one account, and keeps what is true of
    the accounts. *)
Lemma step_store v s e :
  let s' := Auth.step v s e in
  Auth.users s ⊆ Auth.users s'
  /\ (uniqueEmails (Auth.users s) -> uniqueEmails (Auth.users s'))
  /\ (noInheritedName (Auth.users s) -> noInheritedName (Auth.users s')).
Proof.
  cbv zeta.
  destruct e as [value|value|value| |readable writable];
    cbn [Auth.step]; try by repeat split.
  destruct (submit_cases v readable writable s)
    as [[_ ->]|[(account & _ & _ & _ & _ & ->)|Hnew]];
    [by repeat split..|].
  destruct Hnew as (_ & _ & _ & _ & _ & _ & _ & Hfree & Hout & Hused & ->).
  change (Auth.users (Auth.setEmail _ _))
    with (<[Auth.username s :=
              {| Account.password := Auth.password s;
                 Account.email := Auth.email s |}]> (Auth.users s)).
  split; [by apply insert_subseteq|]. split.
  - intros Hunique name1 name2 account1 account2 Hget1 Hget2 Hsame.
    destruct (decide (name1 = Auth.username s)) as [->|Hne1];
      destruct (decide (name2 = Auth.username s)) as [->|Hne2];
      [done| | |].
    + rewrite lookup_insert_eq in Hget1. injection Hget1 as <-.
      rewrite lookup_insert_ne in Hget2 by done. cbn in Hsame.
      assert (emailExists (Auth.users s) (Auth.email s) = true)
        by (apply emailExists_spec; by exists name2, account2).
      congruence.
    + rewrite lookup_insert_eq in Hget2. injection Hget2 as <-.
      rewrite lookup_insert_ne in Hget1 by done. cbn in Hsame.
      assert (emailExists (Auth.users s) (Auth.email s) = true)
        by (apply emailExists_spec; by exists name1, account1).
      congruence.
    + rewrite lookup_insert_ne in Hget1, Hget2 by done.
      by eapply Hunique.
  - intros Hnames name Hname.
    rewrite lookup_insert_ne by (intros <-; by apply Hout).
    by apply Hnames.
Qed.

(** Sending the form logs in at most one name, which has an account. *)
Lemma step_logins v s e :
  Forall (fun name => is_Some (Auth.users s !! name)) (Auth.loggedIn s) ->
  let s' := Auth.step v s e in
  Auth.loggedIn s `prefix_of` Auth.loggedIn s'
  /\ Forall (fun name => is_Some (Auth.users s' !! name)) (Auth.loggedIn s').
Proof.
  intros Hlogged. cbv zeta.
  assert (Hkept :
    Forall (fun name => is_Some (Auth.users (Auth.step v s e) !! name))
      (Auth.loggedIn s)).
  { destruct (step_store v s e) as (Hsub & _).
    eapply Forall_impl; [exact Hlogged|]. cbn. intros name [account Hget].
    exists account. by eapply lookup_weaken. }
  destruct e as [value|value|value| |readable writable];
    cbn [Auth.step] in Hkept |- *; try by split.
  destruct (submit_cases v readable writable s)
    as [[_ Heq]|[(account & _ & _ & Hfound & _ & Heq)|Hnew]].
  - rewrite Heq in Hkept |- *. by split.
  - rewrite Heq. cbn [Auth.loggedIn Auth.onLoginSuccess].
    split; [by eexists|]. apply Forall_app. split; [exact Hlogged|].
    constructor; [by eexists|constructor].
  - destruct Hnew as (_ & _ & _ & _ & _ & _ & _ & _ & _ & _ & Heq).
    rewrite Heq in Hkept |- *. by split.
Qed.

Lemma signup_done v s :
  Auth.isLoginView s = false ->
  truthy (Auth.username s) = true ->
  truthy (Auth.password s) = true ->
  truthy (Auth.email s) = true ->
  v (Auth.email s) = true ->
  property (Auth.users s) (Auth.username s) = Undefined ->
  emailExists (Auth.users s) (Auth.email s) = false ->
  Auth.handleAuthAction v true true s
  = Auth.setEmail EmptyString
      (Auth.setPassword EmptyString
         (Auth.setUsername EmptyString
            (Auth.setIsLoginView true
               (Auth.setSuccess
                  (Some "Account created successfully! Please log in.")
                  (Auth.setItem
                     (<[Auth.username s :=
                          {| Account.password := Auth.password s;
                             Account.email := Auth.email s |}]>
                        (Auth.users s))
                     (Auth.setError None s)))))).
Proof.
  intros Hview Hname Hpass Hmail Hvalid Hfree Hused.
  unfold Auth.handleAuthAction.
  cbn [Auth.username Auth.password Auth.email Auth.isLoginView
       Auth.setError Auth.setSuccess].
  change (Auth.users (Auth.setSuccess None (Auth.setError None s)))
    with (Auth.users s).
  rewrite Hname, Hpass, Hview, Hmail, Hvalid, Hfree, Hused. reflexivity.
Qed.

Lemma login_attempt v writable s account :
  Auth.isLoginView s = true ->
  truthy (Auth.username s) = true ->
  truthy (Auth.password s) = true ->
  Auth.users s !! Auth.username s = Some account ->
  Auth.handleAuthAction v true writable s
  = if String.eqb (Account.password account) (Auth.password s)
    then Auth.onLoginSuccess (Auth.username s)
           (Auth.setSuccess None (Auth.setError None s))
    else Auth.setError (Some "Invalid username or password.")
           (Auth.setSuccess None s).
Proof.
  intros Hview Hname Hpass Hfound.
  unfold Auth.handleAuthAction.
  cbn [Auth.username Auth.password Auth.email Auth.isLoginView
       Auth.setError Auth.setSuccess].
  change (Auth.users (Auth.setSuccess None (Auth.setError None s)))
    with (Auth.users s).
  rewrite Hname, Hpass, Hview. unfold property. rewrite Hfound.
  cbn [negb orb]. by destruct (String.eqb _ _).
Qed.

(** X24. An account that has just been created can be logged into: a
    form sent in the sign-up view with a name that gives nothing, a
    password, a well-formed address that no account has, and a storage
    that answers, shows the success message and the login view with its
    fields emptied, and stores the account; typing the same name and
    password and sending the form then logs the name in, while any other
    password is refused and logs nobody in. *)
Theorem new_account_can_log_in v writable s other :
  Auth.isLoginView s = false ->
  truthy (Auth.username s) = true ->
  truthy (Auth.password s) = true ->
  truthy (Auth.email s) = true ->
  v (Auth.email s) = true ->
  property (Auth.users s) (Auth.username s) = Undefined ->
  emailExists (Auth.users s) (Auth.email s) = false ->
  let s1 := Auth.handleAuthAction v true true s in
  let attempt password :=
    Auth.visit v
      [Auth.TypeUsername (Auth.username s); Auth.TypePassword password;
       Auth.Submit true writable] s1 in
  (Auth.isLoginView s1 = true /\ Auth.username s1 = EmptyString
   /\ Auth.password s1 = EmptyString /\ Auth.email s1 = EmptyString
   /\ Auth.error s1 = None
   /\ Auth.success s1 = Some "Account created successfully! Please log in."
   /\ Auth.users s1 !! Auth.username s
      = Some {| Account.password := Auth.password s;
                Account.email := Auth.email s |})
  /\ (Auth.loggedIn (attempt (Auth.password s))
      = Auth.loggedIn s ++ [Auth.username s]
      /\ Auth.error (attempt (Auth.password s)) = None)
  /\ (other <> Auth.password s -> truthy other = true ->
      Auth.loggedIn (attempt other) = Auth.loggedIn s
      /\ Auth.error (attempt other) = Some "Invalid username or password.").
Proof.
  intros Hview Hname Hpass Hmail Hvalid Hfree Hused. cbv zeta.
  rewrite (signup_done v s Hview Hname Hpass Hmail Hvalid Hfree Hused).
  set (account := {| Account.password := Auth.password s;
                     Account.email := Auth.email s |}).
  split.
  { repeat (split; [reflexivity|]).
    change (<[Auth.username s := account]> (Auth.users s) !! Auth.username s
            = Some account).
    apply lookup_insert_eq. }
  unfold Auth.visit. cbn [fold_left Auth.step].
  assert (Hattempt : forall password, truthy password = true ->
    forall typed,
    typed
    = Auth.setPassword password
        (Auth.setUsername (Auth.username s)
           (Auth.setEmail EmptyString
              (Auth.setPassword EmptyString
                 (Auth.setUsername EmptyString
                    (Auth.setIsLoginView true
                       (Auth.setSuccess
                          (Some "Account created successfully! Please log in.")
                          (Auth.setItem
                             (<[Auth.username s := account]> (Auth.users s))
                             (Auth.setError None s)))))))) ->
    Auth.handleAuthAction v true writable typed
    = if String.eqb (Auth.password s) password
      then Auth.onLoginSuccess (Auth.username s)
             (Auth.setSuccess None (Auth.setError None typed))
      else Auth.setError (Some "Invalid username or password.")
             (Auth.setSuccess None typed)).
  { intros password Htyped typed ->.
    etrans;
      [apply (login_attempt v writable _ account);
         [reflexivity|exact Hname|exact Htyped|]
      |reflexivity].
    change (<[Auth.username s := account]> (Auth.users s) !! Auth.username s
            = Some account).
    apply lookup_insert_eq. }
  split.
  - rewrite (Hattempt _ Hpass _ eq_refl), String.eqb_refl. by split.
  - intros Hother Htyped. rewrite (Hattempt _ Htyped _ eq_refl).
    destruct (String.eqb_spec (Auth.password s) other) as [Heq|_];
      [by destruct Hother|]. by split.
Qed.

Lemma new_account_can_log_in_witness :
  Auth.loggedIn
    (Auth.visit hasAtSign
       [Auth.Submit true true; Auth.TypeUsername "ada";
        Auth.TypePassword "s3cret"; Auth.Submit true true]
       signUpForm)
  = ["ada"].
Proof.
  assert (Hview : Auth.isLoginView signUpForm = false)
    by (vm_compute; reflexivity).
  assert (Hname : truthy (Auth.username signUpForm) = true)
    by (vm_compute; reflexivity).
  assert (Hpass : truthy (Auth.password signUpForm) = true)
    by (vm_compute; reflexivity).
  assert (Hmail : truthy (Auth.email signUpForm) = true)
    by (vm_compute; reflexivity).
  assert (Hvalid : hasAtSign (Auth.email signUpForm) = true)
    by (vm_compute; reflexivity).
  assert (Hfree :
    property (Auth.users signUpForm) (Auth.username signUpForm) = Undefined)
    by (vm_compute; reflexivity).
  assert (Hused :
    emailExists (Auth.users signUpForm) (Auth.email signUpForm) = false)
    by (vm_compute; reflexivity).
  destruct (new_account_can_log_in hasAtSign true signUpForm "guess"
              Hview Hname Hpass Hmail Hvalid Hfree Hused)
    as (_ & [Hlogged _] & _).
  vm_compute in Hlogged |- *. exact Hlogged.
Defined.

(** X25. Whatever the visitor does on the page, the accounts that are
    stored stay as they are, no two accounts come to share an address,
    and no account comes to be kept under a name that every object
    inherits. *)
Theorem accounts_are_kept_and_addresses_stay_unique v events : forall s,
  uniqueEmails (Auth.users s) ->
  noInheritedName (Auth.users s) ->
  let s' := Auth.visit v events s in
  Auth.users s ⊆ Auth.users s'
  /\ uniqueEmails (Auth.users s')
  /\ noInheritedName (Auth.users s').
Proof.
  induction events as [|e rest IH]; intros s Hunique Hnames; cbv zeta.
  { by repeat split. }
  unfold Auth.visit. cbn [fold_left].
  fold (Auth.visit v rest (Auth.step v s e)).
  destruct (step_store v s e) as (Hsub & Hunique1 & Hnames1).
  destruct (IH _ (Hunique1 Hunique) (Hnames1 Hnames))
    as (Hsub2 & Hunique2 & Hnames2).
  split; [by etrans|]. by split.
Qed.

Lemma accounts_are_kept_and_addresses_stay_unique_witness :
  uniqueEmails
    (Auth.users
       (Auth.visit hasAtSign
          [Auth.Submit true true; Auth.TypeUsername "bob";
           Auth.Submit true true]
          signUpForm)).
Proof.
  apply (accounts_are_kept_and_addresses_stay_unique hasAtSign
           [Auth.Submit true true; Auth.TypeUsername "bob";
            Auth.Submit true true] signUpForm).
  - intros name1 name2 account1 account2 Hget1. discriminate Hget1.
  - intros name _. reflexivity.
Defined.

(** X26. Whatever the visitor does on the page, the names that have been
    logged in stay, in their order, and every name that is logged in has
    an account in the storage. *)
Theorem only_account_holders_log_in v events : forall s,
  Forall (fun name => is_Some (Auth.users s !! name)) (Auth.loggedIn s) ->
  let s' := Auth.visit v events s in
  Auth.loggedIn s `prefix_of` Auth.loggedIn s'
  /\ Forall (fun name => is_Some (Auth.users s' !! name)) (Auth.loggedIn s').
Proof.
  induction events as [|e rest IH]; intros s Hlogged; cbv zeta.
  { by split. }
  unfold Auth.visit. cbn [fold_left].
  fold (Auth.visit v rest (Auth.step v s e)).
  destruct (step_logins v s e Hlogged) as (Hpre & Hlogged1).
  destruct (IH _ Hlogged1) as (Hpre2 & Hlogged2).
  split; [by etrans|done].
Qed.

Lemma only_account_holders_log_in_witness :
  Forall
    (fun name =>
       is_Some
         (Auth.users
            (Auth.visit hasAtSign
               [Auth.TypeUsername "ada"; Auth.TypePassword "s3cret";
                Auth.Submit true true]
               (Auth.mounted None)) !! name))
    (Auth.loggedIn
       (Auth.visit hasAtSign
          [Auth.TypeUsername "ada"; Auth.TypePassword "s3cret";
           Auth.Submit true true]
          (Auth.mounted None))).
Proof.
  apply (only_account_holders_log_in hasAtSign
           [Auth.TypeUsername "ada"; Auth.TypePassword "s3cret";
            Auth.Submit true true] (Auth.mounted None)).
  constructor.
Defined.

(** X27. A name that every object inherits, such as [constructor] or
    [toString], can neither sign up nor log in while the storage holds no
    account under it: the form is refused, with the message of a taken
    name in the sign-up view and of a wrong name or password in the login
    view, and neither the storage nor the logins change. *)
Theorem inherited_names_cannot_register v readable writable s :
  Auth.username s ∈ inheritedNames ->
  Auth.users s !! Auth.username s = None ->
  let s' := Auth.handleAuthAction v readable writable s in
  is_Some (Auth.error s')
  /\ Auth.stored s' = Auth.stored s
  /\ Auth.loggedIn s' = Auth.loggedIn s
  /\ (readable = true -> truthy (Auth.password s) = true ->
      Auth.isLoginView s = true ->
      Auth.error s' = Some "Invalid username or password.")
  /\ (readable = true -> truthy (Auth.password s) = true ->
      Auth.isLoginView s = false -> truthy (Auth.email s) = true ->
      v (Auth.email s) = true ->
      Auth.error s' = Some "Username already exists.").
Proof.
  intros Hname Hfree. cbv zeta.
  assert (Htruthy : truthy (Auth.username s) = true).
  { destruct (Auth.username s); [|reflexivity].
    vm_compute in Hname. repeat (apply elem_of_cons in Hname as [Hname|Hname];
                                 [discriminate Hname|]).
    by apply elem_of_nil in Hname. }
  assert (Hprop : property (Auth.users s) (Auth.username s) = Inherited).
  { unfold property. rewrite Hfree. by rewrite bool_decide_eq_true_2. }
  unfold Auth.handleAuthAction.
  cbn [Auth.username Auth.password Auth.email Auth.isLoginView
       Auth.setError Auth.setSuccess].
  change (Auth.users (Auth.setSuccess None (Auth.setError None s)))
    with (Auth.users s).
  rewrite Htruthy, Hprop. cbn [negb orb].
  destruct (truthy (Auth.password s));
    [|split; [by eexists|]; repeat split; discriminate].
  cbn [negb].
  destruct readable; [|split; [by eexists|]; repeat split; discriminate].
  cbn [negb].
  destruct (Auth.isLoginView s).
  { split; [by eexists|]. repeat split; discriminate. }
  destruct (truthy (Auth.email s));
    [|split; [by eexists|]; repeat split; discriminate].
  cbn [negb].
  destruct (v (Auth.email s));
    split; first [by eexists | repeat split; discriminate].
Qed.

Lemma inherited_names_cannot_register_witness :
  Auth.error
    (Auth.handleAuthAction hasAtSign true true
       (Auth.setUsername "constructor" signUpForm))
  = Some "Username already exists.".
Proof.
  apply (inherited_names_cannot_register hasAtSign true true
           (Auth.setUsername "constructor" signUpForm));
    first [reflexivity | apply elem_of_cons; left; reflexivity].
Defined.

(** X28. Sending the form does one thing: a form that is refused changes
    nothing but the messages; a login writes nothing to the storage; a
    storage that cannot be read or written stays as it is; the storage
    changes only with the success message, and then nobody is logged in;
    and a name is logged in only without any message. *)
Theorem refused_form_changes_nothing v readable writable s :
  let s' := Auth.handleAuthAction v readable writable s in
  (is_Some (Auth.error s') ->
   Auth.stored s' = Auth.stored s /\ Auth.loggedIn s' = Auth.loggedIn s
   /\ Auth.isLoginView s' = Auth.isLoginView s
   /\ Auth.username s' = Auth.username s
   /\ Auth.password s' = Auth.password s /\ Auth.email s' = Auth.email s
   /\ Auth.success s' = None)
  /\ (Auth.isLoginView s = true -> Auth.stored s' = Auth.stored s)
  /\ (readable = false \/ writable = false ->
      Auth.stored s' = Auth.stored s)
  /\ (Auth.stored s' <> Auth.stored s ->
      is_Some (Auth.success s') /\ Auth.error s' = None
      /\ Auth.loggedIn s' = Auth.loggedIn s)
  /\ (Auth.loggedIn s' <> Auth.loggedIn s ->
      Auth.loggedIn s' = Auth.loggedIn s ++ [Auth.username s]
      /\ Auth.error s' = None /\ Auth.success s' = None).
Proof.
  cbv zeta.
  destruct (submit_cases v readable writable s)
    as [[Herr Heq]|[(account & Hview & _ & _ & _ & Heq)|Hnew]].
  - rewrite Heq. by repeat split.
  - rewrite Heq. split; [by intros [? ?]|]. by repeat split.
  - destruct Hnew as (Hview & -> & -> & _ & _ & _ & _ & _ & _ & _ & Heq).
    rewrite Heq. split; [by intros [? ?]|].
    split; [congruence|]. split; [by intros [?|?]|].
    split; [intros _; split; [by eexists|done]|]. done.
Qed.

(** ** The frames of a video *)

Lemma promise_settles_once frameCount context events : forall s how,
  Extraction.promise s = Some how ->
  Extraction.promise (fold_left (Extraction.step frameCount context) events s)
  = Some how.
Proof.
  induction events as [|e rest IH]; intros s how Hs; [exact Hs|].
  cbn [fold_left]. apply IH.
  destruct e as [[|]|dataUrl|]; cbn [Extraction.step].
  - cbn. by rewrite Hs.
  - exact Hs.
  - unfold Extraction.onseeked.
    destruct (Extraction.capturedFrames s) as [captured|]; [|exact Hs].
    destruct (context && (captured <? frameCount)%nat); [|exact Hs].
    destruct (frameCount <=? S captured)%nat; cbn; by rewrite Hs.
  - cbn. by rewrite Hs.
Qed.

(** The array only grows at its end. *)
Lemma frames_only_grow frameCount context events : forall s,
  Extraction.frames s
    `prefix_of`
  Extraction.frames (fold_left (Extraction.step frameCount context) events s).
Proof.
  induction events as [|e rest IH]; intros s; [reflexivity|].
  cbn [fold_left]. etrans; [|apply IH].
  destruct e as [[|]|dataUrl|]; cbn [Extraction.step]; try reflexivity.
  unfold Extraction.onseeked.
  destruct (Extraction.capturedFrames s) as [captured|]; [|reflexivity].
  destruct (context && (captured <? frameCount)%nat); [|reflexivity].
  destruct (frameCount <=? S captured)%nat; cbn; by eexists.
Qed.

(** Once the last frame is taken, only new metadata makes the seeks count
    again. *)
Lemma no_frame_after_the_last frameCount context events : forall s captured,
  Extraction.capturedFrames s = Some captured ->
  (frameCount <= captured)%nat ->
  Forall (fun e => e <> Extraction.LoadedMetadata false) events ->
  Extraction.frames (fold_left (Extraction.step frameCount context) events s)
  = Extraction.frames s.
Proof.
  induction events as [|e rest IH]; intros s captured Hk Hlast Hold;
    [reflexivity|].
  apply Forall_cons in Hold as [Hnew Hold]. cbn [fold_left].
  destruct e as [[|]|dataUrl|]; [|done| |]; cbn [Extraction.step].
  - rewrite (IH _ captured); [reflexivity|exact Hk|exact Hlast|exact Hold].
  - unfold Extraction.onseeked. rewrite Hk.
    destruct (Nat.ltb_spec captured frameCount) as [?|_]; [lia|].
    rewrite andb_false_r. by apply (IH _ captured).
  - rewrite (IH _ captured); [reflexivity|exact Hk|exact Hlast|exact Hold].
Qed.

(** The seeks that follow the metadata, up to the last frame. *)
Lemma seeks_fill_frames frameCount urls : forall s captured,
  Extraction.capturedFrames s = Some captured ->
  (captured + length urls = frameCount)%nat ->
  (1 <= length urls)%nat ->
  fold_left (Extraction.step frameCount true) (map Extraction.Seeked urls) s
  = {| Extraction.promise :=
         Some (default Extraction.Fulfilled (Extraction.promise s));
       Extraction.frames :=
         Extraction.frames s ++ map Extraction.frameOf urls;
       Extraction.capturedFrames := Some frameCount;
       Extraction.seeks :=
         Extraction.seeks s ++ seq (S captured) (length urls - 1);
       Extraction.revoked := S (Extraction.revoked s) |}.
Proof.
  induction urls as [|dataUrl rest IH]; intros s captured Hk Hsum Hlen;
    cbn [length] in *; [lia|].
  cbn [map fold_left Extraction.step]. unfold Extraction.onseeked.
  rewrite Hk. cbn [andb].
  destruct (Nat.ltb_spec captured frameCount) as [_|?]; [|lia].
  destruct rest as [|next rest].
  - cbn [length] in Hsum.
    destruct (Nat.leb_spec frameCount (S captured)) as [_|?]; [|lia].
    unfold Extraction.settle, Extraction.revokeObjectURL. cbn.
    rewrite app_nil_r. replace frameCount with (S captured) by lia.
    reflexivity.
  - cbn [length] in Hsum.
    destruct (Nat.leb_spec frameCount (S captured)) as [?|_]; [lia|].
    rewrite (IH _ (S captured)); [|reflexivity|cbn; lia|cbn; lia].
    unfold Extraction.captureFrame.
    cbn [Extraction.frames Extraction.seeks Extraction.revoked
         Extraction.promise length].
    rewrite <- !app_assoc. cbn [app map].
    replace (S (S (length rest)) - 1)%nat with (S (length rest)) by lia.
    replace (S (length rest) - 1)%nat with (length rest) by lia.
    reflexivity.
Qed.

Lemma prefix_comma c rest :
  String.prefix "," (String c rest)
  = if Ascii.ascii_dec comma c then true else false.
Proof.
  cbn [String.prefix].
  change (Ascii.Ascii false false true true false true false false)
    with comma.
  destruct (Ascii.ascii_dec comma c); [by destruct rest|reflexivity].
Qed.

(** A string without a comma is its own single piece. *)
Lemma splitFrom_commaFree s :
  commaFree s = true -> splitFrom "," 0 s = [s].
Proof.
  induction s as [|c rest IH]; [reflexivity|].
  cbn [commaFree splitFrom]. rewrite prefix_comma.
  destruct (Ascii.ascii_dec comma c) as [|_]; [discriminate|].
  intros Hrest. by rewrite (IH Hrest).
Qed.

(** The pieces of a header, a comma and a payload, neither with a comma
    of its own. *)
Lemma splitOn_header_payload header payload :
  commaFree header = true -> commaFree payload = true ->
  splitOn "," (header +:+ "," +:+ payload) = [header; payload].
Proof.
  intros Hheader Hpayload. unfold splitOn.
  induction header as [|c rest IH].
  - change (EmptyString +:+ "," +:+ payload) with (String comma payload).
    cbn [splitFrom]. rewrite prefix_comma.
    destruct (Ascii.ascii_dec comma comma) as [_|Hne]; [|by destruct Hne].
    change (String.length "," - 1)%nat with 0%nat.
    by rewrite (splitFrom_commaFree payload Hpayload).
  - change (String c rest +:+ "," +:+ payload)
      with (String c (rest +:+ "," +:+ payload)).
    cbn [commaFree] in Hheader. cbn [splitFrom]. rewrite prefix_comma.
    destruct (Ascii.ascii_dec comma c) as [|_]; [discriminate|].
    by rewrite (IH Hheader).
Qed.

(** X29. A video that is not a live stream, over a canvas with a context:
    once the metadata is there, as many seeks as frames are asked for
    resolve the promise with one JPEG frame per seek, in their order; the
    positions asked of the video are the multiples 0, 1, ... of the
    interval, and the address of the file is released once. The frame of
    a data URL made of a header, a comma and a payload holds the payload;
    the frame of a data URL without a comma holds no data. The promise
    stays resolved whatever the browser tells afterwards, but it holds
    the array itself: the frames it resolved with stay in front, nothing
    is added as long as no metadata comes again, and metadata that comes
    again lets the next seek add a frame to the array that was handed
    over. *)
Theorem seeks_resolve_with_one_frame_each frameCount urls more :
  (1 <= frameCount)%nat ->
  length urls = frameCount ->
  let after rest :=
    Extraction.extractFramesFromVideo frameCount true
      (Extraction.LoadedMetadata false
       :: map Extraction.Seeked urls ++ rest) in
  (Extraction.settled (after [])
   = Some (Resolved (map Extraction.frameOf urls))
   /\ Extraction.seeks (after []) = seq 0 frameCount
   /\ Extraction.revoked (after []) = 1%nat)
  /\ (forall header payload,
        commaFree header = true -> commaFree payload = true ->
        Extraction.frameOf (header +:+ "," +:+ payload)
        = {| Frame.data := Some payload; Frame.mimeType := "image/jpeg" |})
  /\ (forall dataUrl,
        commaFree dataUrl = true ->
        Extraction.frameOf dataUrl
        = {| Frame.data := None; Frame.mimeType := "image/jpeg" |})
  /\ (exists later,
        Extraction.settled (after more)
        = Some (Resolved (map Extraction.frameOf urls ++ later)))
  /\ (Forall (fun e => e <> Extraction.LoadedMetadata false) more ->
      Extraction.settled (after more)
      = Some (Resolved (map Extraction.frameOf urls)))
  /\ (forall dataUrl,
        Extraction.settled
          (after [Extraction.LoadedMetadata false;
                  Extraction.Seeked dataUrl])
        = Some (Resolved (map Extraction.frameOf urls
                          ++ [Extraction.frameOf dataUrl]))).
Proof.
  intros Hcount Hlen. cbv zeta.
  assert (Hrun : forall rest,
    Extraction.extractFramesFromVideo frameCount true
      (Extraction.LoadedMetadata false :: map Extraction.Seeked urls ++ rest)
    = fold_left (Extraction.step frameCount true) rest
        {| Extraction.promise := Some Extraction.Fulfilled;
           Extraction.frames := map Extraction.frameOf urls;
           Extraction.capturedFrames := Some frameCount;
           Extraction.seeks := seq 0 frameCount;
           Extraction.revoked := 1 |}).
  { intros rest. unfold Extraction.extractFramesFromVideo.
    cbn [fold_left Extraction.step Extraction.onloadedmetadata].
    rewrite fold_left_app.
    rewrite (seeks_fill_frames frameCount urls _ 0%nat);
      [|reflexivity|cbn; lia|lia].
    cbn. rewrite Hlen.
    destruct frameCount as [|n]; [lia|].
    replace (S n - 1)%nat with n by lia. reflexivity. }
  split; [rewrite (Hrun []); by repeat split|].
  split.
  { intros header payload Hheader Hpayload. unfold Extraction.frameOf.
    by rewrite (splitOn_header_payload header payload Hheader Hpayload). }
  split.
  { intros dataUrl Hfree. unfold Extraction.frameOf, splitOn.
    by rewrite (splitFrom_commaFree dataUrl Hfree). }
  rewrite !Hrun.
  assert (Hkept : forall rest,
    Extraction.promise
      (fold_left (Extraction.step frameCount true) rest
         {| Extraction.promise := Some Extraction.Fulfilled;
            Extraction.frames := map Extraction.frameOf urls;
            Extraction.capturedFrames := Some frameCount;
            Extraction.seeks := seq 0 frameCount;
            Extraction.revoked := 1 |})
    = Some Extraction.Fulfilled)
    by (intros rest; by apply promise_settles_once).
  split; [|split].
  - destruct (frames_only_grow frameCount true more
                {| Extraction.promise := Some Extraction.Fulfilled;
                   Extraction.frames := map Extraction.frameOf urls;
                   Extraction.capturedFrames := Some frameCount;
                   Extraction.seeks := seq 0 frameCount;
                   Extraction.revoked := 1 |}) as [later Hlater].
    exists later. unfold Extraction.settled. by rewrite Hkept, Hlater.
  - intros Hold. unfold Extraction.settled. rewrite Hkept.
    by rewrite (no_frame_after_the_last frameCount true more _ frameCount).
  - intros dataUrl. rewrite Hrun.
    cbn [fold_left Extraction.step Extraction.onloadedmetadata].
    unfold Extraction.onseeked, Extraction.captureFrame.
    cbn [Extraction.capturedFrames andb].
    destruct (Nat.ltb_spec 0 frameCount) as [_|?]; [|lia].
    destruct (frameCount <=? 1)%nat; reflexivity.
Qed.

Lemma seeks_resolve_with_one_frame_each_witness :
  Extraction.settled
    (Extraction.extractFramesFromVideo 2 true
       [Extraction.LoadedMetadata false;
        Extraction.Seeked "data:image/jpeg;base64,AAAA";
        Extraction.Seeked "data:image/jpeg;base64,BBBB"])
  = Some (Resolved
            [{| Frame.data := Some "AAAA"; Frame.mimeType := "image/jpeg" |};
             {| Frame.data := Some "BBBB"; Frame.mimeType := "image/jpeg" |}]).
Proof.
  destruct (seeks_resolve_with_one_frame_each 2
              ["data:image/jpeg;base64,AAAA"; "data:image/jpeg;base64,BBBB"]
              [] ltac:(lia) eq_refl) as ((Hsettled & _) & _).
  exact Hsettled.
Defined.

Lemma no_frame_without_context frameCount context events : forall s,
  context = false \/ frameCount = 0%nat ->
  Extraction.frames s = [] ->
  Extraction.promise s <> Some Extraction.Fulfilled ->
  let s' := fold_left (Extraction.step frameCount context) events s in
  Extraction.frames s' = []
  /\ Extraction.promise s' <> Some Extraction.Fulfilled.
Proof.
  intros s Hnone. revert s.
  induction events as [|e rest IH]; intros s Hframes Hs; cbv zeta;
    [by split|].
  cbn [fold_left]. apply IH.
  - destruct e as [[|]|dataUrl|]; cbn [Extraction.step]; try exact Hframes.
    unfold Extraction.onseeked.
    destruct (Extraction.capturedFrames s) as [captured|]; [|exact Hframes].
    destruct Hnone as [-> | ->]; [exact Hframes|].
    rewrite andb_false_r. exact Hframes.
  - destruct e as [[|]|dataUrl|]; cbn [Extraction.step].
    + cbn. destruct (Extraction.promise s) as [how|] eqn:Hhow; cbn;
        [exact Hs|discriminate].
    + apply Hs.
    + unfold Extraction.onseeked.
      destruct (Extraction.capturedFrames s) as [captured|]; [|apply Hs].
      destruct Hnone as [-> | ->]; [apply Hs|].
      rewrite andb_false_r. apply Hs.
    + cbn. destruct (Extraction.promise s) as [how|] eqn:Hhow; cbn;
        [exact Hs|discriminate].
Qed.

Lemma pending_without_frames frameCount context events : forall s,
  context = false \/ frameCount = 0%nat ->
  Extraction.promise s = None ->
  Forall (fun e => e <> Extraction.Failed
                   /\ e <> Extraction.LoadedMetadata true) events ->
  Extraction.promise (fold_left (Extraction.step frameCount context) events s)
  = None.
Proof.
  induction events as [|e rest IH]; intros s Hnone Hs Hquiet; [exact Hs|].
  apply Forall_cons in Hquiet as [[Hfailed Hlive] Hquiet].
  destruct e as [[|]|dataUrl|]; [done| | |done];
    cbn [fold_left Extraction.step]; apply IH; try done.
  unfold Extraction.onseeked.
  destruct (Extraction.capturedFrames s) as [captured|]; [|exact Hs].
  destruct (context && (captured <? frameCount)%nat) eqn:Hgo; [|exact Hs].
  destruct Hnone as [-> | ->]; [discriminate Hgo|].
  rewrite andb_false_r in Hgo. discriminate Hgo.
Qed.

(** X30. A canvas that gives no context, or a count of frames of zero,
    never resolves the promise, whatever the browser tells the video: no
    frame is taken, and the promise stays pending unless the file fails
    to load or is a live stream, so that the run that waits for the
    frames can only fail or wait. *)
Theorem no_context_never_resolves frameCount context events :
  context = false \/ frameCount = 0%nat ->
  let taken :=
    Extraction.extractFramesFromVideo frameCount context events in
  Extraction.frames taken = []
  /\ (forall frames, Extraction.settled taken <> Some (Resolved frames))
  /\ (Forall (fun e => e <> Extraction.Failed
                       /\ e <> Extraction.LoadedMetadata true) events ->
      Extraction.settled taken = None).
Proof.
  intros Hnone. cbv zeta. unfold Extraction.extractFramesFromVideo.
  destruct (no_frame_without_context frameCount context events
              Extraction.started Hnone eq_refl)
    as [Hframes Hpending]; [discriminate|].
  split; [exact Hframes|]. split.
  - intros frames. unfold Extraction.settled.
    destruct (Extraction.promise _) as [[|reason]|];
      [by destruct Hpending|discriminate..].
  - intros Hquiet. unfold Extraction.settled.
    by rewrite (pending_without_frames frameCount context events
                  Extraction.started Hnone eq_refl Hquiet).
Qed.

Lemma no_context_never_resolves_witness :
  Extraction.settled
    (Extraction.extractFramesFromVideo 5 false
       [Extraction.LoadedMetadata false;
        Extraction.Seeked "data:image/jpeg;base64,AAAA"])
  = None.
Proof.
  apply (no_context_never_resolves 5 false
           [Extraction.LoadedMetadata false;
            Extraction.Seeked "data:image/jpeg;base64,AAAA"]);
    [by left|].
  repeat constructor; discriminate.
Defined.
